(** * School management server: storage, routes and CSV export

    A shallow embedding of [server/storage.ts] (the in-memory store
    [MemStorage]), [server/routes.ts] (the REST handlers that validate a
    payload and then call the store), [shared/schema.ts] (the tables the
    insert schemas are generated from) and [client/src/lib/exportData.ts]
    (the CSV writer), followed by the properties of the specification that
    are stated about them.

    Conventions of the embedding:
    - a JavaScript object is a finite map from property names to values
      ([gmap string Value]); object spread [{...a, ...b}] is the union that
      prefers [b];
    - a [Map<number, T>] is an association list in insertion order
      ([JsMap.t]), because [Array.from(map.values())] exposes that order;
    - integers held in JavaScript numbers (identifiers, counters, time
      values) are [Z]; the attendance rate, which is a genuine double, is a
      primitive binary64 [float];
    - a JavaScript string is held as the bytes of its UTF-8 encoding;
    - the store is threaded explicitly: a method of [MemStorage] is a
      function from the store to a result and the next store;
    - code that throws returns [None];
    - what the host provides and the repository does not define (date
      parsing, locale formatting, JSON printing, zod's [safeParse]) is a
      member of the classes [Host] and [Zod]. *)

From Stdlib Require Import ZArith String Ascii List Lia Sorted Permutation.
From Stdlib Require Import Floats.PrimFloat Floats.SpecFloat Floats.FloatOps.
From Stdlib Require Import Floats.FloatAxioms.
From stdpp Require Import base option strings gmap list pretty.

#[local] Set Warnings "-register-all".
Local Open Scope string_scope.
Local Open Scope Z_scope.

(* ===================================================================== *)
(** * Part I. The embedding                                               *)
(* ===================================================================== *)

(** ** JavaScript values and the built-ins the code calls *)

Module Js.

(** The values that occur in the records of the store: [tv] of a [Date]
    is its time value in milliseconds since the epoch, [None] for an
    invalid date (NaN). *)
Inductive Value :=
| VUndefined
| VNull
| VBool (b : bool)
| VNum (n : Z)
| VStr (s : string)
| VDate (tv : option Z)
| VArr (xs : list Value).

(** Reading a property: a missing key reads as [undefined]. *)
Definition prop (o : gmap string Value) (k : string) : Value :=
  default VUndefined (o !! k).

(** [o?.k] on a possibly undefined object. *)
Definition opt_prop (o : option (gmap string Value)) (k : string) : Value :=
  match o with Some r => prop r k | None => VUndefined end.

(** [{...a, ...b}]: the properties of [b] override those of [a]. *)
Definition spread (a b : gmap string Value) : gmap string Value := b ∪ a.

(** [v === n] and [v === s] against a number and a string. *)
Definition strict_eq_num (v : Value) (n : Z) : bool :=
  match v with VNum m => Z.eqb m n | _ => false end.

Definition strict_eq_str (v : Value) (s : string) : bool :=
  match v with VStr r => String.eqb r s | _ => false end.

(** What the host provides. *)
Class Host := {
  (** [Date.parse]: the time value of a date string, NaN as [None]. *)
  Date_parse : string -> option Z;
  (** [Date.prototype.toString]. *)
  Date_toString : option Z -> string;
  (** [Date.prototype.toLocaleDateString]. *)
  Date_toLocaleDateString : option Z -> string;
  (** [JSON.stringify]. *)
  JSON_stringify : Value -> string
}.

(** [Array.prototype.join]. *)
Fixpoint join (sep : string) (l : list string) : string :=
  match l with
  | [] => ""
  | [x] => x
  | x :: rest => x +:+ sep +:+ join sep rest
  end.

(** [ToString], as a template literal or [join] applies it. *)
Fixpoint ToString `{Host} (v : Value) : string :=
  match v with
  | VUndefined => "undefined"
  | VNull => "null"
  | VBool true => "true"
  | VBool false => "false"
  | VNum n => pretty n
  | VStr s => s
  | VDate tv => Date_toString tv
  | VArr xs =>
      join "," (map (fun x => match x with
                              | VUndefined | VNull => ""
                              | _ => ToString x
                              end) xs)
  end.

(** Truthiness of a string and of a number-or-NaN. *)
Definition truthy_str (s : string) : bool :=
  match s with EmptyString => false | _ => true end.

Definition truthy_num (n : option Z) : bool :=
  match n with Some k => negb (Z.eqb k 0) | None => false end.

(** *** [parseInt] without a radix

    Leading white space and line terminators, a sign, [0x] for base
    sixteen, then the longest run of digits; NaN, here [None], when there
    is none. The result is a double: the one nearest to the integer that
    the digits denote. *)

(** The white space and the line terminators of one byte: U+0009 to
    U+000D and U+0020. *)
Definition is_white (c : ascii) : bool :=
  let n := N_of_ascii c in
  (N.eqb n 32 || (N.leb 9 n && N.leb n 13))%N.

(** Those of two bytes: U+00A0, that is C2 A0. *)
Definition is_white2 (c1 c2 : ascii) : bool :=
  (N.eqb (N_of_ascii c1) 194 && N.eqb (N_of_ascii c2) 160)%N.

(** Those of three bytes: U+1680 (E1 9A 80), U+2000 to U+200A (E2 80 80
    to E2 80 8A), U+2028 and U+2029 (E2 80 A8 and A9), U+202F (E2 80 AF),
    U+205F (E2 81 9F), U+3000 (E3 80 80) and U+FEFF (EF BB BF). *)
Definition is_white3 (c1 c2 c3 : ascii) : bool :=
  let n1 := N_of_ascii c1 in
  let n2 := N_of_ascii c2 in
  let n3 := N_of_ascii c3 in
  (N.eqb n1 225 && N.eqb n2 154 && N.eqb n3 128
   || N.eqb n1 226 && N.eqb n2 128
      && (N.leb 128 n3 && N.leb n3 138 || N.eqb n3 168 || N.eqb n3 169 || N.eqb n3 175)
   || N.eqb n1 226 && N.eqb n2 129 && N.eqb n3 159
   || N.eqb n1 227 && N.eqb n2 128 && N.eqb n3 128
   || N.eqb n1 239 && N.eqb n2 187 && N.eqb n3 191)%N.

Fixpoint skip_white (s : string) : string :=
  match s with
  | String c1 r1 =>
      if is_white c1 then skip_white r1
      else if N.ltb (N_of_ascii c1) 128 then s
      else
        match r1 with
        | String c2 r2 =>
            if is_white2 c1 c2 then skip_white r2
            else
              match r2 with
              | String c3 r3 => if is_white3 c1 c2 c3 then skip_white r3 else s
              | EmptyString => s
              end
        | EmptyString => s
        end
  | EmptyString => s
  end.

Definition digit_value (radix : Z) (c : ascii) : option Z :=
  let n := Z.of_N (N_of_ascii c) in
  let d := if (48 <=? n) && (n <=? 57) then Some (n - 48)
           else if (97 <=? n) && (n <=? 122) then Some (n - 87)
           else if (65 <=? n) && (n <=? 90) then Some (n - 55)
           else None in
  match d with
  | Some k => if k <? radix then Some k else None
  | None => None
  end.

(** The longest prefix of digits, [None] when it is empty. *)
Fixpoint digits (radix : Z) (s : string) (acc : option Z) : option Z :=
  match s with
  | String c r =>
      match digit_value radix c with
      | Some d => digits radix r (Some (default 0 acc * radix + d))
      | None => acc
      end
  | EmptyString => acc
  end.

(** The Number value of an integer: the integer that the nearest double
    holds, a tie going to the even mantissa of 53 bits. An integer below
    [2 ^ 53] in magnitude is a double; [2 ^ 1024], which no double holds,
    stands for Infinity. *)
Definition to_double (n : Z) : Z :=
  let a := Z.abs n in
  if a <? 2 ^ 53 then n
  else
    let d := Z.log2 a - 52 in
    let q := a / 2 ^ d in
    let r := a mod 2 ^ d in
    let half := 2 ^ (d - 1) in
    let q' := if r <? half then q
              else if half <? r then q + 1
              else if Z.even q then q else q + 1 in
    Z.sgn n * Z.min (q' * 2 ^ d) (2 ^ 1024).

Definition parseInt (s : string) : option Z :=
  let s1 := skip_white s in
  let '(neg, s2) :=
    match s1 with
    | String "-" r => (true, r)
    | String "+" r => (false, r)
    | _ => (false, s1)
    end in
  let '(radix, s3) :=
    match s2 with
    | String "0" (String "x" r) => (16, r)
    | String "0" (String "X" r) => (16, r)
    | _ => (10, s2)
    end in
  match digits radix s3 None with
  | Some n => Some (to_double (if neg then - n else n))
  | None => None
  end.

(** *** Dates *)

Definition msPerDay : Z := 86400000.
Definition maxTime : Z := 8640000000000000.

Definition TimeClip (t : Z) : option Z :=
  if Z.abs t <=? maxTime then Some t else None.

(** [new Date(v).getTime()]: the time value of the date made from [v]. *)
Definition new_Date `{Host} (v : Value) : option Z :=
  match v with
  | VDate tv => tv ≫= TimeClip
  | VStr s => Date_parse s ≫= TimeClip
  | VNum n => TimeClip n
  | VNull => Some 0
  | VBool b => Some (if b then 1 else 0)
  | VUndefined => None
  | VArr _ => Date_parse (ToString v) ≫= TimeClip
  end.

Definition Day (t : Z) : Z := t / msPerDay.

(** Year, month (1 to 12) and day of the month of a day number counted
    from 1970-01-01, in the proleptic Gregorian calendar. *)
Definition civil_from_days (days : Z) : Z * Z * Z :=
  let z := days + 719468 in
  let era := z / 146097 in
  let doe := z - era * 146097 in
  let yoe := (doe - doe / 1460 + doe / 36524 - doe / 146096) / 365 in
  let doy := doe - (365 * yoe + yoe / 4 - yoe / 100) in
  let mp := (5 * doy + 2) / 153 in
  let d := doy - (153 * mp + 2) / 5 + 1 in
  let m := if mp <? 10 then mp + 3 else mp - 9 in
  let y := yoe + era * 400 + (if m <=? 2 then 1 else 0) in
  (y, m, d).

Definition digit (n : Z) : ascii := ascii_of_N (48 + Z.to_N (n mod 10)).

Definition pad2 (n : Z) : string :=
  String (digit (n / 10)) (String (digit n) "").

Definition pad3 (n : Z) : string := String (digit (n / 100)) (pad2 n).

Definition pad4 (n : Z) : string := String (digit (n / 1000)) (pad3 n).

Definition pad6 (n : Z) : string :=
  String (digit (n / 100000)) (String (digit (n / 10000)) (pad4 n)).

(** The year of an ISO date: four digits, or a sign and six digits. *)
Definition iso_year (y : Z) : string :=
  if (0 <=? y) && (y <=? 9999) then pad4 y
  else String (if y <? 0 then "-"%char else "+"%char) (pad6 (Z.abs y)).

(** The part [YYYY-MM-DD] of [toISOString]. *)
Definition iso_date (t : Z) : string :=
  let '(y, m, d) := civil_from_days (Day t) in
  iso_year y +:+ String "-" (pad2 m +:+ String "-" (pad2 d)).

(** The part [HH:mm:ss.sssZ] of [toISOString]. *)
Definition iso_time (t : Z) : string :=
  let ms := t mod msPerDay in
  pad2 (ms / 3600000) +:+ String ":" (pad2 (ms / 60000 mod 60) +:+
  String ":" (pad2 (ms / 1000 mod 60) +:+ String "." (pad3 (ms mod 1000) +:+ "Z"))).

(** [Date.prototype.toISOString]: throws a RangeError on an invalid
    date. *)
Definition toISOString (tv : option Z) : option string :=
  match tv with
  | Some t => Some (iso_date t +:+ String "T" (iso_time t))
  | None => None
  end.

(** [s.split(c)[0]]: what stands before the first [c]. *)
Fixpoint split_head (c : ascii) (s : string) : string :=
  match s with
  | String a r => if Ascii.eqb a c then "" else String a (split_head c r)
  | EmptyString => ""
  end.

(** *** [Array.prototype.sort] with a comparator

    The sort is stable; for a comparator that is a total preorder the
    result of a stable sort is unique, and it is the one insertion
    produces. A comparator result of NaN counts as 0. *)
Section Sort.
Context {A : Type} (cmp : A -> A -> option Z).

Definition cmp_le (a b : A) : bool := default 0 (cmp a b) <=? 0.

Fixpoint insert_sorted (a : A) (l : list A) : list A :=
  match l with
  | [] => [a]
  | b :: r => if cmp_le a b then a :: b :: r else b :: insert_sorted a r
  end.

Fixpoint sort (l : list A) : list A :=
  match l with
  | [] => []
  | a :: r => insert_sorted a (sort r)
  end.
End Sort.

(** *** Numbers that are doubles *)

(** The double nearest to an integer. *)
Definition of_Z (z : Z) : float := SF2Prim (binary_normalize prec emax z 0 false).

(** [Math.round]: the integer nearest to [x], a tie going up; NaN,
    infinities and zeros are returned as they are. *)
Definition Math_round (x : float) : float :=
  match Prim2SF x with
  | S754_finite s m e =>
      let v := if s then Z.neg m else Z.pos m in
      let k := if 0 <=? e then v * 2 ^ e
               else (2 * v + 2 ^ (- e)) / 2 ^ (1 - e) in
      if (k =? 0) && s then (-0)%float else of_Z k
  | _ => x
  end.

End Js.

Export Js.

Abbreviation Obj := (gmap string Value).

(** ** [Map<number, T>]: a map that remembers the order of insertion *)

Module JsMap.

Definition t (V : Type) : Type := list (Z * V).

Definition empty {V} : t V := [].

(** [m.get(k)] *)
Fixpoint get {V} (k : Z) (m : t V) : option V :=
  match m with
  | [] => None
  | (k', v) :: r => if Z.eqb k' k then Some v else get k r
  end.

(** [m.has(k)] *)
Definition has {V} (k : Z) (m : t V) : bool :=
  match get k m with Some _ => true | None => false end.

(** [m.set(k, v)]: an existing key keeps its place, a new one goes last. *)
Fixpoint set {V} (k : Z) (v : V) (m : t V) : t V :=
  match m with
  | [] => [(k, v)]
  | (k', v') :: r => if Z.eqb k' k then (k, v) :: r else (k', v') :: set k v r
  end.

(** The entries left by [m.delete(k)]. *)
Definition remove {V} (k : Z) (m : t V) : t V :=
  List.filter (fun e => negb (Z.eqb (fst e) k)) m.

(** [m.delete(k)]: whether the key was there, and the map without it. *)
Definition delete {V} (k : Z) (m : t V) : bool * t V := (has k m, remove k m).

(** [Array.from(m.values())] *)
Definition values {V} (m : t V) : list V := map snd m.

Definition keys {V} (m : t V) : list Z := map fst m.

(** [m.size] *)
Definition size {V} (m : t V) : Z := Z.of_nat (length m).

End JsMap.

(** ** [server/storage.ts]: the in-memory store *)

(** The private fields of [MemStorage]: nine maps and nine counters. *)
Record MemStorage := mkMemStorage {
  users : JsMap.t Obj;
  students : JsMap.t Obj;
  teachers : JsMap.t Obj;
  classes : JsMap.t Obj;
  classEnrollments : JsMap.t Obj;
  attendance : JsMap.t Obj;
  grades : JsMap.t Obj;
  events : JsMap.t Obj;
  activities : JsMap.t Obj;
  userIdCounter : Z;
  studentIdCounter : Z;
  teacherIdCounter : Z;
  classIdCounter : Z;
  classEnrollmentIdCounter : Z;
  attendanceIdCounter : Z;
  gradeIdCounter : Z;
  eventIdCounter : Z;
  activityIdCounter : Z
}.

(** The nine collections, to speak of a map or a counter by name. *)
Inductive Entity :=
| User | Student | Teacher | Class | ClassEnrollment
| Attendance | Grade | Event | Activity.

#[global] Instance Entity_eq_dec : EqDecision Entity.
Proof. solve_decision. Defined.

Definition store_of (e : Entity) (s : MemStorage) : JsMap.t Obj :=
  match e with
  | User => users s
  | Student => students s
  | Teacher => teachers s
  | Class => classes s
  | ClassEnrollment => classEnrollments s
  | Attendance => attendance s
  | Grade => grades s
  | Event => events s
  | Activity => activities s
  end.

Definition counter_of (e : Entity) (s : MemStorage) : Z :=
  match e with
  | User => userIdCounter s
  | Student => studentIdCounter s
  | Teacher => teacherIdCounter s
  | Class => classIdCounter s
  | ClassEnrollment => classEnrollmentIdCounter s
  | Attendance => attendanceIdCounter s
  | Grade => gradeIdCounter s
  | Event => eventIdCounter s
  | Activity => activityIdCounter s
  end.

(** Assignment to one field of [this]. *)
Definition with_store (e : Entity) (m : JsMap.t Obj) (s : MemStorage) : MemStorage :=
  let pick e' := if decide (e' = e) then m else store_of e' s in
  mkMemStorage (pick User) (pick Student) (pick Teacher) (pick Class)
    (pick ClassEnrollment) (pick Attendance) (pick Grade) (pick Event)
    (pick Activity)
    (userIdCounter s) (studentIdCounter s) (teacherIdCounter s)
    (classIdCounter s) (classEnrollmentIdCounter s) (attendanceIdCounter s)
    (gradeIdCounter s) (eventIdCounter s) (activityIdCounter s).

Definition with_counter (e : Entity) (n : Z) (s : MemStorage) : MemStorage :=
  let pick e' := if decide (e' = e) then n else counter_of e' s in
  mkMemStorage (users s) (students s) (teachers s) (classes s)
    (classEnrollments s) (attendance s) (grades s) (events s) (activities s)
    (pick User) (pick Student) (pick Teacher) (pick Class)
    (pick ClassEnrollment) (pick Attendance) (pick Grade) (pick Event)
    (pick Activity).

(** A method that may assign to the fields: from the store to a result and
    the store it leaves. *)
Definition M (A : Type) : Type := MemStorage -> A * MemStorage.

#[global] Instance M_ret : MRet M := fun A a s => (a, s).
#[global] Instance M_bind : MBind M :=
  fun A B f m s => let '(a, s') := m s in f a s'.
#[global] Instance M_fmap : FMap M :=
  fun A B f m s => let '(a, s') := m s in (f a, s').

(** The state of the object as the constructor leaves it before it adds the
    default user and the sample data. *)
Definition MemStorage_empty : MemStorage :=
  mkMemStorage JsMap.empty JsMap.empty JsMap.empty JsMap.empty JsMap.empty
    JsMap.empty JsMap.empty JsMap.empty JsMap.empty 1 1 1 1 1 1 1 1 1.

(** *** User management *)

Definition getUsers (s : MemStorage) : list Obj := JsMap.values (users s).

Definition getUser (id : Z) (s : MemStorage) : option Obj := JsMap.get id (users s).

Definition getUserByUsername (username : string) (s : MemStorage) : option Obj :=
  List.find (fun user => strict_eq_str (prop user "username") username)
    (JsMap.values (users s)).

Definition createUser (insertUser : Obj) : M Obj := fun s =>
  let id := userIdCounter s in
  let s := with_counter User (id + 1) s in
  let user := <["id" := VNum id]> insertUser in
  (user, with_store User (JsMap.set id user (users s)) s).

Definition updateUser (id : Z) (userData : Obj) : M (option Obj) := fun s =>
  match JsMap.get id (users s) with
  | None => (None, s)
  | Some user =>
      let updatedUser := spread user userData in
      (Some updatedUser, with_store User (JsMap.set id updatedUser (users s)) s)
  end.

Definition deleteUser (id : Z) : M bool := fun s =>
  let '(existed, m) := JsMap.delete id (users s) in
  (existed, with_store User m s).

(** *** Student management *)

Definition getStudents (s : MemStorage) : list Obj := JsMap.values (students s).

Definition getStudent (id : Z) (s : MemStorage) : option Obj :=
  JsMap.get id (students s).

Definition getStudentByStudentId (studentId : string) (s : MemStorage) : option Obj :=
  List.find (fun student => strict_eq_str (prop student "studentId") studentId)
    (JsMap.values (students s)).

Definition createStudent (insertStudent : Obj) : M Obj := fun s =>
  let id := studentIdCounter s in
  let s := with_counter Student (id + 1) s in
  let student := <["id" := VNum id]> insertStudent in
  (student, with_store Student (JsMap.set id student (students s)) s).

Definition updateStudent (id : Z) (studentData : Obj) : M (option Obj) := fun s =>
  match JsMap.get id (students s) with
  | None => (None, s)
  | Some student =>
      let updatedStudent := spread student studentData in
      (Some updatedStudent,
       with_store Student (JsMap.set id updatedStudent (students s)) s)
  end.

Definition deleteStudent (id : Z) : M bool := fun s =>
  let '(existed, m) := JsMap.delete id (students s) in
  (existed, with_store Student m s).

(** *** Teacher management *)

Definition getTeachers (s : MemStorage) : list Obj := JsMap.values (teachers s).

Definition getTeacher (id : Z) (s : MemStorage) : option Obj :=
  JsMap.get id (teachers s).

Definition getTeacherByTeacherId (teacherId : string) (s : MemStorage) : option Obj :=
  List.find (fun teacher => strict_eq_str (prop teacher "teacherId") teacherId)
    (JsMap.values (teachers s)).

Definition createTeacher (insertTeacher : Obj) : M Obj := fun s =>
  let id := teacherIdCounter s in
  let s := with_counter Teacher (id + 1) s in
  let teacher := <["id" := VNum id]> insertTeacher in
  (teacher, with_store Teacher (JsMap.set id teacher (teachers s)) s).

Definition updateTeacher (id : Z) (teacherData : Obj) : M (option Obj) := fun s =>
  match JsMap.get id (teachers s) with
  | None => (None, s)
  | Some teacher =>
      let updatedTeacher := spread teacher teacherData in
      (Some updatedTeacher,
       with_store Teacher (JsMap.set id updatedTeacher (teachers s)) s)
  end.

Definition deleteTeacher (id : Z) : M bool := fun s =>
  let '(existed, m) := JsMap.delete id (teachers s) in
  (existed, with_store Teacher m s).

(** *** Class management *)

Definition getClasses (s : MemStorage) : list Obj := JsMap.values (classes s).

Definition getClass (id : Z) (s : MemStorage) : option Obj :=
  JsMap.get id (classes s).

Definition getClassByClassCode (classCode : string) (s : MemStorage) : option Obj :=
  List.find (fun classItem => strict_eq_str (prop classItem "classCode") classCode)
    (JsMap.values (classes s)).

Definition createClass (insertClass : Obj) : M Obj := fun s =>
  let id := classIdCounter s in
  let s := with_counter Class (id + 1) s in
  let classData := <["id" := VNum id]> insertClass in
  (classData, with_store Class (JsMap.set id classData (classes s)) s).

Definition updateClass (id : Z) (classData : Obj) : M (option Obj) := fun s =>
  match JsMap.get id (classes s) with
  | None => (None, s)
  | Some classItem =>
      let updatedClass := spread classItem classData in
      (Some updatedClass,
       with_store Class (JsMap.set id updatedClass (classes s)) s)
  end.

Definition deleteClass (id : Z) : M bool := fun s =>
  let '(existed, m) := JsMap.delete id (classes s) in
  (existed, with_store Class m s).

(** *** Class enrollment management *)




Definition createClassEnrollment (insertEnrollment : Obj) : M Obj := fun s =>
  let id := classEnrollmentIdCounter s in
  let s := with_counter ClassEnrollment (id + 1) s in
  let enrollment := <["id" := VNum id]> insertEnrollment in
  (enrollment,
   with_store ClassEnrollment (JsMap.set id enrollment (classEnrollments s)) s).

Definition deleteClassEnrollment (id : Z) : M bool := fun s =>
  let '(existed, m) := JsMap.delete id (classEnrollments s) in
  (existed, with_store ClassEnrollment m s).

(** *** Attendance management *)

Definition getAttendance (s : MemStorage) : list Obj := JsMap.values (attendance s).

Definition getAttendanceByClassId (classId : Z) (s : MemStorage) : list Obj :=
  List.filter (fun attendance => strict_eq_num (prop attendance "classId") classId)
    (JsMap.values (attendance s)).

Definition getAttendanceByStudentId (studentId : Z) (s : MemStorage) : list Obj :=
  List.filter (fun attendance => strict_eq_num (prop attendance "studentId") studentId)
    (JsMap.values (attendance s)).

(** [l.filter(p)] for a callback that may throw: the first exception ends
    the call. *)
Fixpoint filter_throwing {A} (p : A -> option bool) (l : list A) : option (list A) :=
  match l with
  | [] => Some []
  | a :: r =>
      b ← p a;
      r' ← filter_throwing p r;
      Some (if b : bool then a :: r' else r')
  end.

(** [date] is the time value of the [Date] passed in. Both
    [toISOString] calls throw on an invalid date. *)
Definition getAttendanceByDate `{Host} (date : option Z) (s : MemStorage)
  : option (list Obj) :=
  dateString ← split_head "T" <$> toISOString date;
  filter_throwing
    (fun attendance =>
       attendanceDate ←
         split_head "T" <$> toISOString (new_Date (prop attendance "date"));
       Some (String.eqb attendanceDate dateString))
    (JsMap.values (attendance s)).

Definition createAttendance (insertAttendance : Obj) : M Obj := fun s =>
  let id := attendanceIdCounter s in
  let s := with_counter Attendance (id + 1) s in
  let attendance_ := <["id" := VNum id]> insertAttendance in
  (attendance_, with_store Attendance (JsMap.set id attendance_ (attendance s)) s).

Definition updateAttendance (id : Z) (attendanceData : Obj) : M (option Obj) :=
  fun s =>
  match JsMap.get id (attendance s) with
  | None => (None, s)
  | Some attendance_ =>
      let updatedAttendance := spread attendance_ attendanceData in
      (Some updatedAttendance,
       with_store Attendance (JsMap.set id updatedAttendance (attendance s)) s)
  end.

Definition deleteAttendance (id : Z) : M bool := fun s =>
  let '(existed, m) := JsMap.delete id (attendance s) in
  (existed, with_store Attendance m s).

(** *** Grade management *)




Definition createGrade (insertGrade : Obj) : M Obj := fun s =>
  let id := gradeIdCounter s in
  let s := with_counter Grade (id + 1) s in
  let grade := <["id" := VNum id]> insertGrade in
  (grade, with_store Grade (JsMap.set id grade (grades s)) s).

Definition updateGrade (id : Z) (gradeData : Obj) : M (option Obj) := fun s =>
  match JsMap.get id (grades s) with
  | None => (None, s)
  | Some grade =>
      let updatedGrade := spread grade gradeData in
      (Some updatedGrade,
       with_store Grade (JsMap.set id updatedGrade (grades s)) s)
  end.

Definition deleteGrade (id : Z) : M bool := fun s =>
  let '(existed, m) := JsMap.delete id (grades s) in
  (existed, with_store Grade m s).

(** *** Event management *)

Definition getEvents (s : MemStorage) : list Obj := JsMap.values (events s).

Definition getEvent (id : Z) (s : MemStorage) : option Obj := JsMap.get id (events s).

Definition createEvent (insertEvent : Obj) : M Obj := fun s =>
  let id := eventIdCounter s in
  let s := with_counter Event (id + 1) s in
  let event := <["id" := VNum id]> insertEvent in
  (event, with_store Event (JsMap.set id event (events s)) s).

Definition updateEvent (id : Z) (eventData : Obj) : M (option Obj) := fun s =>
  match JsMap.get id (events s) with
  | None => (None, s)
  | Some event =>
      let updatedEvent := spread event eventData in
      (Some updatedEvent,
       with_store Event (JsMap.set id updatedEvent (events s)) s)
  end.

Definition deleteEvent (id : Z) : M bool := fun s =>
  let '(existed, m) := JsMap.delete id (events s) in
  (existed, with_store Event m s).

(** *** Activity logs *)

(** The comparator of [getActivities]: [getTime] of [b] minus that of [a],
    NaN when either date is invalid. *)
Definition activity_cmp `{Host} (a b : Obj) : option Z :=
  tb ← new_Date (prop b "timestamp");
  ta ← new_Date (prop a "timestamp");
  Some (tb - ta).

Definition getActivities `{Host} (s : MemStorage) : list Obj :=
  sort activity_cmp (JsMap.values (activities s)).

(** [now] is the time value [new Date()] reads from the clock. *)
Definition createActivity (now : Z) (insertActivity : Obj) : M Obj := fun s =>
  let id := activityIdCounter s in
  let s := with_counter Activity (id + 1) s in
  let activity :=
    <["timestamp" := VDate (Some now)]> (<["id" := VNum id]> insertActivity) in
  (activity, with_store Activity (JsMap.set id activity (activities s)) s).

(** *** Dashboard stats *)

Record DashboardStats := mkDashboardStats {
  totalStudents : Z;
  totalTeachers : Z;
  totalClasses : Z;
  attendanceRate : float
}.

Definition is_present_or_late (a : Obj) : bool :=
  strict_eq_str (prop a "status") "present" || strict_eq_str (prop a "status") "late".

Definition getDashboardStats (s : MemStorage) : DashboardStats :=
  let attendanceRecords := JsMap.values (attendance s) in
  let presentCount := length (List.filter is_present_or_late attendanceRecords) in
  let attendanceRate :=
    if (0 <? Z.of_nat (length attendanceRecords))
    then (of_Z (Z.of_nat presentCount) / of_Z (Z.of_nat (length attendanceRecords))
          * 100)%float
    else 0%float in
  mkDashboardStats
    (JsMap.size (students s))
    (JsMap.size (teachers s))
    (JsMap.size (classes s))
    (Math_round (attendanceRate * 10) / 10)%float.

(** *** The calls that assign to the store, and their results *)

Inductive Call :=
| CreateUser (data : Obj) | UpdateUser (id : Z) (data : Obj) | DeleteUser (id : Z)
| CreateStudent (data : Obj) | UpdateStudent (id : Z) (data : Obj) | DeleteStudent (id : Z)
| CreateTeacher (data : Obj) | UpdateTeacher (id : Z) (data : Obj) | DeleteTeacher (id : Z)
| CreateClass (data : Obj) | UpdateClass (id : Z) (data : Obj) | DeleteClass (id : Z)
| CreateClassEnrollment (data : Obj) | DeleteClassEnrollment (id : Z)
| CreateAttendance (data : Obj) | UpdateAttendance (id : Z) (data : Obj)
| DeleteAttendance (id : Z)
| CreateGrade (data : Obj) | UpdateGrade (id : Z) (data : Obj) | DeleteGrade (id : Z)
| CreateEvent (data : Obj) | UpdateEvent (id : Z) (data : Obj) | DeleteEvent (id : Z)
| CreateActivity (now : Z) (data : Obj).

Inductive Ret :=
| Created (record : Obj)
| Updated (record : option Obj)
| Deleted (existed : bool).

Definition exec (c : Call) : M Ret :=
  match c with
  | CreateUser d => Created <$> createUser d
  | UpdateUser id d => Updated <$> updateUser id d
  | DeleteUser id => Deleted <$> deleteUser id
  | CreateStudent d => Created <$> createStudent d
  | UpdateStudent id d => Updated <$> updateStudent id d
  | DeleteStudent id => Deleted <$> deleteStudent id
  | CreateTeacher d => Created <$> createTeacher d
  | UpdateTeacher id d => Updated <$> updateTeacher id d
  | DeleteTeacher id => Deleted <$> deleteTeacher id
  | CreateClass d => Created <$> createClass d
  | UpdateClass id d => Updated <$> updateClass id d
  | DeleteClass id => Deleted <$> deleteClass id
  | CreateClassEnrollment d => Created <$> createClassEnrollment d
  | DeleteClassEnrollment id => Deleted <$> deleteClassEnrollment id
  | CreateAttendance d => Created <$> createAttendance d
  | UpdateAttendance id d => Updated <$> updateAttendance id d
  | DeleteAttendance id => Deleted <$> deleteAttendance id
  | CreateGrade d => Created <$> createGrade d
  | UpdateGrade id d => Updated <$> updateGrade id d
  | DeleteGrade id => Deleted <$> deleteGrade id
  | CreateEvent d => Created <$> createEvent d
  | UpdateEvent id d => Updated <$> updateEvent id d
  | DeleteEvent id => Deleted <$> deleteEvent id
  | CreateActivity now d => Created <$> createActivity now d
  end.

(** ** [shared/schema.ts]: the tables and the insert schemas *)

Module Schema.

Inductive ColumnType :=
| serial | text | integer | boolean | date | timestamp | decimal | text_array.

(** A column: its property name, its type, [.notNull()], and whether it has
    a default ([serial], [.default(..)], [.defaultNow()]). *)
Record Column := column {
  col_name : string;
  col_type : ColumnType;
  col_notNull : bool;
  col_hasDefault : bool
}.

Definition users : list Column :=
  [ column "id" serial true true;
    column "username" text true false;
    column "password" text true false;
    column "role" text true true;
    column "fullName" text true false;
    column "email" text true false;
    column "avatar" text false false ].

Definition students : list Column :=
  [ column "id" serial true true;
    column "studentId" text true false;
    column "firstName" text true false;
    column "lastName" text true false;
    column "gender" text true false;
    column "dateOfBirth" date true false;
    column "email" text true false;
    column "phone" text false false;
    column "address" text false false;
    column "guardianName" text false false;
    column "guardianPhone" text false false;
    column "gradeLevel" text true false;
    column "section" text true false;
    column "enrollmentDate" date true false;
    column "avatar" text false false ].

Definition teachers : list Column :=
  [ column "id" serial true true;
    column "teacherId" text true false;
    column "firstName" text true false;
    column "lastName" text true false;
    column "email" text true false;
    column "phone" text false false;
    column "address" text false false;
    column "qualification" text false false;
    column "joinDate" date true false;
    column "subjects" text_array false false;
    column "avatar" text false false;
    column "userId" integer false false ].

Definition classes : list Column :=
  [ column "id" serial true true;
    column "className" text true false;
    column "classCode" text true false;
    column "gradeLevel" text true false;
    column "section" text false false;
    column "description" text false false;
    column "teacherId" integer false false;
    column "schedule" text false false;
    column "roomNumber" text false false;
    column "academicYear" text true false ].

Definition classEnrollments : list Column :=
  [ column "id" serial true true;
    column "classId" integer true false;
    column "studentId" integer true false;
    column "enrollmentDate" date true false ].

Definition attendance : list Column :=
  [ column "id" serial true true;
    column "classId" integer true false;
    column "studentId" integer true false;
    column "date" date true false;
    column "status" text true false;
    column "notes" text false false ].

Definition grades : list Column :=
  [ column "id" serial true true;
    column "classId" integer true false;
    column "studentId" integer true false;
    column "assignmentName" text true false;
    column "assignmentType" text true false;
    column "maxScore" decimal true false;
    column "score" decimal true false;
    column "gradedDate" date true false;
    column "comments" text false false ].

Definition events : list Column :=
  [ column "id" serial true true;
    column "title" text true false;
    column "description" text false false;
    column "startDate" date true false;
    column "endDate" date false false;
    column "startTime" text false false;
    column "endTime" text false false;
    column "allDay" boolean false true;
    column "location" text false false;
    column "type" text true false ].

Definition activities : list Column :=
  [ column "id" serial true true;
    column "userId" integer false false;
    column "action" text true false;
    column "details" text false false;
    column "timestamp" timestamp true true ].

(** The schemas the routes validate against: the nine insert schemas and
    [.partial()] of one. *)
Inductive ZodSchema :=
| insertUserSchema
| insertStudentSchema
| insertTeacherSchema
| insertClassSchema
| insertClassEnrollmentSchema
| insertAttendanceSchema
| insertGradeSchema
| insertEventSchema
| insertActivitySchema
| partial (z : ZodSchema).

(** [createInsertSchema(table).omit({...})]: the table and the omitted
    property names. *)
Fixpoint table_of (z : ZodSchema) : list Column * list string :=
  match z with
  | insertUserSchema => (users, ["id"])
  | insertStudentSchema => (students, ["id"])
  | insertTeacherSchema => (teachers, ["id"])
  | insertClassSchema => (classes, ["id"])
  | insertClassEnrollmentSchema => (classEnrollments, ["id"])
  | insertAttendanceSchema => (attendance, ["id"])
  | insertGradeSchema => (grades, ["id"])
  | insertEventSchema => (events, ["id"])
  | insertActivitySchema => (activities, ["id"; "timestamp"])
  | partial z => table_of z
  end.

Definition is_partial (z : ZodSchema) : bool :=
  match z with partial _ => true | _ => false end.

End Schema.

Export Schema(ZodSchema, insertUserSchema, insertStudentSchema,
  insertTeacherSchema, insertClassSchema, insertClassEnrollmentSchema,
  insertAttendanceSchema, insertGradeSchema, insertEventSchema,
  insertActivitySchema, partial).

(** A request body as [express.json()] leaves it. *)
Inductive Json :=
| JNull
| JBool (b : bool)
| JNum (n : Z)
| JStr (s : string)
| JArr (xs : list Json)
| JObj (fields : list (string * Json)).

(** [validation.error.format()]: the properties that failed, and why. *)
Definition ZodError : Type := list (string * string).

(** The result of [safeParse]: [success] with [data], or [error]. *)
Inductive SafeParse :=
| Success (data : Obj)
| Failure (error : ZodError).

(** zod's [safeParse], which the repository imports. *)
Class Zod := { safeParse : ZodSchema -> Json -> SafeParse }.

(** *** A model of the schemas [drizzle-zod] generates

    A property is required when its column is [notNull] and has no default;
    it may be [null] when the column is not [notNull]; an integer column
    takes the integers of 32 bits; unknown properties are dropped; every
    property of a partial schema is optional. It serves as a concrete
    instance of [Zod]. *)

Definition zod_value (t : Schema.ColumnType) (j : Json) : option Value :=
  match t, j with
  | Schema.text, JStr s | Schema.date, JStr s | Schema.decimal, JStr s =>
      Some (VStr s)
  | Schema.integer, JNum n | Schema.serial, JNum n =>
      if (-2147483648 <=? n) && (n <=? 2147483647) then Some (VNum n) else None
  | Schema.boolean, JBool b => Some (VBool b)
  | Schema.text_array, JArr xs =>
      VArr <$> mapM (fun x => match x with JStr s => Some (VStr s) | _ => None end) xs
  | _, _ => None
  end.

Fixpoint json_field (k : string) (fields : list (string * Json)) : option Json :=
  match fields with
  | [] => None
  | (k', j) :: r => if String.eqb k' k then Some j else json_field k r
  end.

(** One property against its column: the data and the errors so far. *)
Definition zod_property (optional : bool) (fields : list (string * Json))
    (c : Schema.Column) (acc : Obj * ZodError) : Obj * ZodError :=
  let k := Schema.col_name c in
  let required :=
    negb optional && Schema.col_notNull c && negb (Schema.col_hasDefault c) in
  match json_field k fields with
  | None => if required then (acc.1, (k, "Required") :: acc.2) else acc
  | Some JNull =>
      if Schema.col_notNull c then (acc.1, (k, "Invalid type") :: acc.2)
      else (<[k := VNull]> acc.1, acc.2)
  | Some j =>
      match zod_value (Schema.col_type c) j with
      | Some v => (<[k := v]> acc.1, acc.2)
      | None => (acc.1, (k, "Invalid type") :: acc.2)
      end
  end.

Definition drizzle_zod_safeParse (z : ZodSchema) (body : Json) : SafeParse :=
  match body with
  | JObj fields =>
      let '(table, omitted) := Schema.table_of z in
      let columns :=
        List.filter (fun c => negb (bool_decide (Schema.col_name c ∈ omitted))) table in
      let '(data, errors) :=
        foldr (zod_property (Schema.is_partial z) fields) (∅, []) columns in
      match errors with
      | [] => Success data
      | _ => Failure errors
      end
  | _ => Failure [("", "Expected object")]
  end.

(** ** [server/routes.ts]: the handlers

    The handlers that write to the store (every POST, PUT and DELETE route)
    and the three listings that take filters. A handler is a function of
    what it reads from the request; [res.json(x)] is a response of status
    200. *)

Inductive Body :=
| Json_record (o : Obj)
| Json_list (l : list Obj)
| Json_stats (d : DashboardStats)
| Error_message (msg : string)
| Error_validation (e : ZodError)
| No_content.

Record Response := response { status : Z; body : Body }.

(** The double quote of a template literal. *)
Definition dq : string := String (ascii_of_N 34) "".

(** The argument of [storage.createActivity]. *)
Definition activity (userId : Value) (action details : string) : Obj :=
  {[ "userId" := userId; "action" := VStr action; "details" := VStr details ]}.

Section Routes.
Context `{Host} `{Zod}.

(** [now] is the clock reading of the [createActivity] the handler makes. *)
Variable now : Z.

Definition log (userId : Value) (action details : string) : M () := fun s =>
  let '(_, s) := createActivity now (activity userId action details) s in (tt, s).

(** *** Users *)

Definition post_users (req_body : Json) : M Response := fun s =>
  match safeParse insertUserSchema req_body with
  | Failure e => (response 400 (Error_validation e), s)
  | Success data =>
      let '(user, s) := createUser data s in
      let '(_, s) :=
        log (prop user "id") "Added User"
          ("Added user " +:+ ToString (prop user "username") +:+ " with role "
           +:+ ToString (prop user "role")) s in
      (response 201 (Json_record user), s)
  end.

Definition put_users (req_params_id : string) (req_body : Json) : M Response :=
  fun s =>
  match parseInt req_params_id with
  | None => (response 400 (Error_message "Invalid user ID"), s)
  | Some id =>
      match safeParse (partial insertUserSchema) req_body with
      | Failure e => (response 400 (Error_validation e), s)
      | Success data =>
          match updateUser id data s with
          | (None, s) => (response 404 (Error_message "User not found"), s)
          | (Some updatedUser, s) =>
              let '(_, s) :=
                log (VNum id) "Updated User"
                  ("Updated user " +:+ ToString (prop updatedUser "username")) s in
              (response 200 (Json_record updatedUser), s)
          end
      end
  end.

Definition delete_users (req_params_id : string) : M Response := fun s =>
  match parseInt req_params_id with
  | None => (response 400 (Error_message "Invalid user ID"), s)
  | Some id =>
      match getUser id s with
      | None => (response 404 (Error_message "User not found"), s)
      | Some user =>
          match deleteUser id s with
          | (false, s) => (response 500 (Error_message "Failed to delete user"), s)
          | (true, s) =>
              let '(_, s) :=
                log (VNum 1) "Deleted User"
                  ("Deleted user " +:+ ToString (prop user "username")) s in
              (response 204 No_content, s)
          end
      end
  end.

(** *** Students *)

Definition post_students (req_body : Json) : M Response := fun s =>
  match safeParse insertStudentSchema req_body with
  | Failure e => (response 400 (Error_validation e), s)
  | Success data =>
      let '(student, s) := createStudent data s in
      let '(_, s) :=
        log (VNum 1) "Added Student"
          ("Added " +:+ ToString (prop student "firstName") +:+ " "
           +:+ ToString (prop student "lastName") +:+ " to Grade "
           +:+ ToString (prop student "gradeLevel") +:+ "-"
           +:+ ToString (prop student "section")) s in
      (response 201 (Json_record student), s)
  end.

Definition put_students (req_params_id : string) (req_body : Json) : M Response :=
  fun s =>
  match parseInt req_params_id with
  | None => (response 400 (Error_message "Invalid student ID"), s)
  | Some id =>
      match safeParse (partial insertStudentSchema) req_body with
      | Failure e => (response 400 (Error_validation e), s)
      | Success data =>
          match updateStudent id data s with
          | (None, s) => (response 404 (Error_message "Student not found"), s)
          | (Some updatedStudent, s) =>
              let '(_, s) :=
                log (VNum 1) "Updated Student"
                  ("Updated " +:+ ToString (prop updatedStudent "firstName") +:+ " "
                   +:+ ToString (prop updatedStudent "lastName")
                   +:+ "'s information") s in
              (response 200 (Json_record updatedStudent), s)
          end
      end
  end.

Definition delete_students (req_params_id : string) : M Response := fun s =>
  match parseInt req_params_id with
  | None => (response 400 (Error_message "Invalid student ID"), s)
  | Some id =>
      match getStudent id s with
      | None => (response 404 (Error_message "Student not found"), s)
      | Some student =>
          match deleteStudent id s with
          | (false, s) =>
              (response 500 (Error_message "Failed to delete student"), s)
          | (true, s) =>
              let '(_, s) :=
                log (VNum 1) "Deleted Student"
                  ("Deleted " +:+ ToString (prop student "firstName") +:+ " "
                   +:+ ToString (prop student "lastName")
                   +:+ " from the system") s in
              (response 204 No_content, s)
          end
      end
  end.

(** *** Teachers *)

Definition post_teachers (req_body : Json) : M Response := fun s =>
  match safeParse insertTeacherSchema req_body with
  | Failure e => (response 400 (Error_validation e), s)
  | Success data =>
      let '(teacher, s) := createTeacher data s in
      let '(_, s) :=
        log (VNum 1) "Added Teacher"
          ("Added " +:+ ToString (prop teacher "firstName") +:+ " "
           +:+ ToString (prop teacher "lastName") +:+ " to the faculty") s in
      (response 201 (Json_record teacher), s)
  end.

Definition put_teachers (req_params_id : string) (req_body : Json) : M Response :=
  fun s =>
  match parseInt req_params_id with
  | None => (response 400 (Error_message "Invalid teacher ID"), s)
  | Some id =>
      match safeParse (partial insertTeacherSchema) req_body with
      | Failure e => (response 400 (Error_validation e), s)
      | Success data =>
          match updateTeacher id data s with
          | (None, s) => (response 404 (Error_message "Teacher not found"), s)
          | (Some updatedTeacher, s) =>
              let '(_, s) :=
                log (VNum 1) "Updated Teacher"
                  ("Updated " +:+ ToString (prop updatedTeacher "firstName") +:+ " "
                   +:+ ToString (prop updatedTeacher "lastName")
                   +:+ "'s information") s in
              (response 200 (Json_record updatedTeacher), s)
          end
      end
  end.

Definition delete_teachers (req_params_id : string) : M Response := fun s =>
  match parseInt req_params_id with
  | None => (response 400 (Error_message "Invalid teacher ID"), s)
  | Some id =>
      match getTeacher id s with
      | None => (response 404 (Error_message "Teacher not found"), s)
      | Some teacher =>
          match deleteTeacher id s with
          | (false, s) =>
              (response 500 (Error_message "Failed to delete teacher"), s)
          | (true, s) =>
              let '(_, s) :=
                log (VNum 1) "Deleted Teacher"
                  ("Deleted " +:+ ToString (prop teacher "firstName") +:+ " "
                   +:+ ToString (prop teacher "lastName")
                   +:+ " from the system") s in
              (response 204 No_content, s)
          end
      end
  end.

(** *** Classes *)

Definition post_classes (req_body : Json) : M Response := fun s =>
  match safeParse insertClassSchema req_body with
  | Failure e => (response 400 (Error_validation e), s)
  | Success data =>
      let '(classItem, s) := createClass data s in
      let '(_, s) :=
        log (VNum 1) "Added Class"
          ("Added " +:+ ToString (prop classItem "className") +:+ " ("
           +:+ ToString (prop classItem "classCode") +:+ ") for Grade "
           +:+ ToString (prop classItem "gradeLevel")) s in
      (response 201 (Json_record classItem), s)
  end.

Definition put_classes (req_params_id : string) (req_body : Json) : M Response :=
  fun s =>
  match parseInt req_params_id with
  | None => (response 400 (Error_message "Invalid class ID"), s)
  | Some id =>
      match safeParse (partial insertClassSchema) req_body with
      | Failure e => (response 400 (Error_validation e), s)
      | Success data =>
          match updateClass id data s with
          | (None, s) => (response 404 (Error_message "Class not found"), s)
          | (Some updatedClass, s) =>
              let '(_, s) :=
                log (VNum 1) "Updated Class"
                  ("Updated " +:+ ToString (prop updatedClass "className") +:+ " ("
                   +:+ ToString (prop updatedClass "classCode")
                   +:+ ") information") s in
              (response 200 (Json_record updatedClass), s)
          end
      end
  end.

Definition delete_classes (req_params_id : string) : M Response := fun s =>
  match parseInt req_params_id with
  | None => (response 400 (Error_message "Invalid class ID"), s)
  | Some id =>
      match getClass id s with
      | None => (response 404 (Error_message "Class not found"), s)
      | Some classItem =>
          match deleteClass id s with
          | (false, s) => (response 500 (Error_message "Failed to delete class"), s)
          | (true, s) =>
              let '(_, s) :=
                log (VNum 1) "Deleted Class"
                  ("Deleted " +:+ ToString (prop classItem "className") +:+ " ("
                   +:+ ToString (prop classItem "classCode") +:+ ")") s in
              (response 204 No_content, s)
          end
      end
  end.

(** *** Query parameters *)

(** [req.query.k ? parseInt(req.query.k as string) : undefined]. The
    result is only ever tested for truth, where NaN and [undefined] agree:
    both are [None]. *)
Definition query_int (q : option string) : option Z :=
  match q with
  | Some v => if truthy_str v then parseInt v else None
  | None => None
  end.

(** [req.query.date ? new Date(req.query.date as string) : undefined]:
    [None] is [undefined], [Some tv] a [Date] with time value [tv]. *)
Definition query_date (q : option string) : option (option Z) :=
  match q with
  | Some v => if truthy_str v then Some (new_Date (VStr v)) else None
  | None => None
  end.

(** *** Class enrollments *)


Definition post_class_enrollments (req_body : Json) : M Response := fun s =>
  match safeParse insertClassEnrollmentSchema req_body with
  | Failure e => (response 400 (Error_validation e), s)
  | Success data =>
      let '(enrollment, s) := createClassEnrollment data s in
      let student :=
        match prop enrollment "studentId" with
        | VNum k => getStudent k s
        | _ => None
        end in
      let classItem :=
        match prop enrollment "classId" with
        | VNum k => getClass k s
        | _ => None
        end in
      let '(_, s) :=
        log (VNum 1) "Enrolled Student"
          ("Enrolled " +:+ ToString (opt_prop student "firstName") +:+ " "
           +:+ ToString (opt_prop student "lastName") +:+ " in "
           +:+ ToString (opt_prop classItem "className")) s in
      (response 201 (Json_record enrollment), s)
  end.

Definition delete_class_enrollments (req_params_id : string) : M Response :=
  fun s =>
  match parseInt req_params_id with
  | None => (response 400 (Error_message "Invalid enrollment ID"), s)
  | Some id =>
      match deleteClassEnrollment id s with
      | (false, s) => (response 404 (Error_message "Enrollment not found"), s)
      | (true, s) =>
          let '(_, s) :=
            log (VNum 1) "Removed Student from Class"
              "Removed student from class enrollment" s in
          (response 204 No_content, s)
      end
  end.

(** *** Attendance *)

Definition get_attendance (classId studentId date : option string)
  : MemStorage -> Response := fun s =>
  let classId := query_int classId in
  let studentId := query_int studentId in
  let date := query_date date in
  if truthy_num classId
  then response 200 (Json_list (getAttendanceByClassId (default 0 classId) s))
  else if truthy_num studentId
  then response 200 (Json_list (getAttendanceByStudentId (default 0 studentId) s))
  else match date with
       | Some d =>
           match getAttendanceByDate d s with
           | Some attendanceRecords => response 200 (Json_list attendanceRecords)
           | None => response 500 (Error_message "Failed to get attendance records")
           end
       | None => response 200 (Json_list (getAttendance s))
       end.

Definition post_attendance (req_body : Json) : M Response := fun s =>
  match safeParse insertAttendanceSchema req_body with
  | Failure e => (response 400 (Error_validation e), s)
  | Success data =>
      let '(attendance_, s) := createAttendance data s in
      let student :=
        match prop attendance_ "studentId" with
        | VNum k => getStudent k s
        | _ => None
        end in
      let classItem :=
        match prop attendance_ "classId" with
        | VNum k => getClass k s
        | _ => None
        end in
      let '(_, s) :=
        log (VNum 1) "Marked Attendance"
          ("Marked " +:+ ToString (opt_prop student "firstName") +:+ " "
           +:+ ToString (opt_prop student "lastName") +:+ " as "
           +:+ ToString (prop attendance_ "status") +:+ " for "
           +:+ ToString (opt_prop classItem "className")) s in
      (response 201 (Json_record attendance_), s)
  end.

Definition put_attendance (req_params_id : string) (req_body : Json) : M Response :=
  fun s =>
  match parseInt req_params_id with
  | None => (response 400 (Error_message "Invalid attendance ID"), s)
  | Some id =>
      match safeParse (partial insertAttendanceSchema) req_body with
      | Failure e => (response 400 (Error_validation e), s)
      | Success data =>
          match updateAttendance id data s with
          | (None, s) =>
              (response 404 (Error_message "Attendance record not found"), s)
          | (Some updatedAttendance, s) =>
              let '(_, s) :=
                log (VNum 1) "Updated Attendance"
                  ("Updated attendance record to "
                   +:+ ToString (prop updatedAttendance "status")) s in
              (response 200 (Json_record updatedAttendance), s)
          end
      end
  end.

Definition delete_attendance (req_params_id : string) : M Response := fun s =>
  match parseInt req_params_id with
  | None => (response 400 (Error_message "Invalid attendance ID"), s)
  | Some id =>
      match deleteAttendance id s with
      | (false, s) =>
          (response 404 (Error_message "Attendance record not found"), s)
      | (true, s) =>
          let '(_, s) :=
            log (VNum 1) "Deleted Attendance" "Removed attendance record" s in
          (response 204 No_content, s)
      end
  end.

(** *** Grades *)


Definition post_grades (req_body : Json) : M Response := fun s =>
  match safeParse insertGradeSchema req_body with
  | Failure e => (response 400 (Error_validation e), s)
  | Success data =>
      let '(grade, s) := createGrade data s in
      let student :=
        match prop grade "studentId" with
        | VNum k => getStudent k s
        | _ => None
        end in
      let classItem :=
        match prop grade "classId" with
        | VNum k => getClass k s
        | _ => None
        end in
      let '(_, s) :=
        log (VNum 1) "Added Grade"
          ("Added grade for " +:+ ToString (opt_prop student "firstName") +:+ " "
           +:+ ToString (opt_prop student "lastName") +:+ " in "
           +:+ ToString (opt_prop classItem "className") +:+ ": "
           +:+ ToString (prop grade "score") +:+ "/"
           +:+ ToString (prop grade "maxScore")) s in
      (response 201 (Json_record grade), s)
  end.

Definition put_grades (req_params_id : string) (req_body : Json) : M Response :=
  fun s =>
  match parseInt req_params_id with
  | None => (response 400 (Error_message "Invalid grade ID"), s)
  | Some id =>
      match safeParse (partial insertGradeSchema) req_body with
      | Failure e => (response 400 (Error_validation e), s)
      | Success data =>
          match updateGrade id data s with
          | (None, s) => (response 404 (Error_message "Grade not found"), s)
          | (Some updatedGrade, s) =>
              let '(_, s) :=
                log (VNum 1) "Updated Grade"
                  ("Updated grade to " +:+ ToString (prop updatedGrade "score")
                   +:+ "/" +:+ ToString (prop updatedGrade "maxScore")) s in
              (response 200 (Json_record updatedGrade), s)
          end
      end
  end.

Definition delete_grades (req_params_id : string) : M Response := fun s =>
  match parseInt req_params_id with
  | None => (response 400 (Error_message "Invalid grade ID"), s)
  | Some id =>
      match deleteGrade id s with
      | (false, s) => (response 404 (Error_message "Grade not found"), s)
      | (true, s) =>
          let '(_, s) := log (VNum 1) "Deleted Grade" "Removed grade record" s in
          (response 204 No_content, s)
      end
  end.

(** *** Events *)

Definition post_events (req_body : Json) : M Response := fun s =>
  match safeParse insertEventSchema req_body with
  | Failure e => (response 400 (Error_validation e), s)
  | Success data =>
      let '(event, s) := createEvent data s in
      let '(_, s) :=
        log (VNum 1) "Added Event"
          ("Added event " +:+ dq +:+ ToString (prop event "title") +:+ dq
           +:+ " on "
           +:+ Date_toLocaleDateString (new_Date (prop event "startDate"))) s in
      (response 201 (Json_record event), s)
  end.

Definition put_events (req_params_id : string) (req_body : Json) : M Response :=
  fun s =>
  match parseInt req_params_id with
  | None => (response 400 (Error_message "Invalid event ID"), s)
  | Some id =>
      match safeParse (partial insertEventSchema) req_body with
      | Failure e => (response 400 (Error_validation e), s)
      | Success data =>
          match updateEvent id data s with
          | (None, s) => (response 404 (Error_message "Event not found"), s)
          | (Some updatedEvent, s) =>
              let '(_, s) :=
                log (VNum 1) "Updated Event"
                  ("Updated event " +:+ dq +:+ ToString (prop updatedEvent "title")
                   +:+ dq) s in
              (response 200 (Json_record updatedEvent), s)
          end
      end
  end.

Definition delete_events (req_params_id : string) : M Response := fun s =>
  match parseInt req_params_id with
  | None => (response 400 (Error_message "Invalid event ID"), s)
  | Some id =>
      match getEvent id s with
      | None => (response 404 (Error_message "Event not found"), s)
      | Some event =>
          match deleteEvent id s with
          | (false, s) => (response 500 (Error_message "Failed to delete event"), s)
          | (true, s) =>
              let '(_, s) :=
                log (VNum 1) "Deleted Event"
                  ("Deleted event " +:+ dq +:+ ToString (prop event "title")
                   +:+ dq) s in
              (response 204 No_content, s)
          end
      end
  end.

(** *** The create and update requests, by route *)

Inductive WriteRoute :=
| POST_users | PUT_users (id : string)
| POST_students | PUT_students (id : string)
| POST_teachers | PUT_teachers (id : string)
| POST_classes | PUT_classes (id : string)
| POST_class_enrollments
| POST_attendance | PUT_attendance (id : string)
| POST_grades | PUT_grades (id : string)
| POST_events | PUT_events (id : string).

Definition handle (r : WriteRoute) (req_body : Json) : M Response :=
  match r with
  | POST_users => post_users req_body
  | PUT_users id => put_users id req_body
  | POST_students => post_students req_body
  | PUT_students id => put_students id req_body
  | POST_teachers => post_teachers req_body
  | PUT_teachers id => put_teachers id req_body
  | POST_classes => post_classes req_body
  | PUT_classes id => put_classes id req_body
  | POST_class_enrollments => post_class_enrollments req_body
  | POST_attendance => post_attendance req_body
  | PUT_attendance id => put_attendance id req_body
  | POST_grades => post_grades req_body
  | PUT_grades id => put_grades id req_body
  | POST_events => post_events req_body
  | PUT_events id => put_events id req_body
  end.

(** The schema the handler of a route validates its payload against. *)
Definition schema_of (r : WriteRoute) : ZodSchema :=
  match r with
  | POST_users => insertUserSchema
  | PUT_users _ => partial insertUserSchema
  | POST_students => insertStudentSchema
  | PUT_students _ => partial insertStudentSchema
  | POST_teachers => insertTeacherSchema
  | PUT_teachers _ => partial insertTeacherSchema
  | POST_classes => insertClassSchema
  | PUT_classes _ => partial insertClassSchema
  | POST_class_enrollments => insertClassEnrollmentSchema
  | POST_attendance => insertAttendanceSchema
  | PUT_attendance _ => partial insertAttendanceSchema
  | POST_grades => insertGradeSchema
  | PUT_grades _ => partial insertGradeSchema
  | POST_events => insertEventSchema
  | PUT_events _ => partial insertEventSchema
  end.

End Routes.

(** ** [client/src/lib/exportData.ts]: the CSV writer *)

Module ExportData.

Definition quote : ascii := ascii_of_N 34.
Definition comma : ascii := ascii_of_N 44.
Definition newline : ascii := ascii_of_N 10.

(** [replace] with the global pattern of one double quote and two double
    quotes as the replacement. *)
Fixpoint double_quotes (s : string) : string :=
  match s with
  | String c r =>
      if Ascii.eqb c quote then String quote (String quote (double_quotes r))
      else String c (double_quotes r)
  | EmptyString => EmptyString
  end.

(** [test] of the character class: a comma, a line feed or a double
    quote occurs in [s]. *)
Fixpoint test_special (s : string) : bool :=
  match s with
  | String c r =>
      Ascii.eqb c comma || Ascii.eqb c newline || Ascii.eqb c quote || test_special r
  | EmptyString => false
  end.

Definition quoted (s : string) : string := String quote (s +:+ String quote "").

(** A row is an object whose keys keep their order. *)
Definition Row : Type := list (string * Value).

Fixpoint field (row : Row) (fieldName : string) : Value :=
  match row with
  | [] => VUndefined
  | (k, v) :: r => if String.eqb k fieldName then v else field r fieldName
  end.

(** The callback of [headerRow.map]: one value as a CSV field. A number or
    a boolean is returned as it is and [join] prints it. *)
Definition csv_field `{Host} (value : Value) : string :=
  match value with
  | VNull | VUndefined => ""
  | VDate tv => quoted (Date_toLocaleDateString tv)
  | VArr _ => quoted (double_quotes (JSON_stringify value))
  | VStr s =>
      let escaped := double_quotes s in
      if test_special s then quoted escaped else escaped
  | _ => ToString value
  end.

(** The text of the file: the header row, then one line for each row. *)
Definition csv_content `{Host} (headerRow : list string) (data : list Row) : string :=
  join (String newline "")
    (join "," headerRow
     :: map (fun row => join "," (map (fun fieldName => csv_field (field row fieldName))
                                      headerRow))
          data).

(** [exportToCSV]: the text handed to the [Blob], [None] when there is no
    data and the function only warns. *)
Definition exportToCSV `{Host} (data : list Row) (headers : option (list string))
  : option string :=
  match data with
  | [] => None
  | first :: _ =>
      let headerRow := default (map fst first) headers in
      Some (csv_content headerRow data)
  end.

End ExportData.

(** ** Notions the properties are stated with *)

(** *** Store states and histories *)

(** The clock of a call reads a valid time value. *)
Definition clock_valid (c : Call) : Prop :=
  match c with
  | CreateActivity now _ => Z.abs now <= maxTime
  | _ => True
  end.

(** The states the calls lead to from the store the constructor starts
    with; the constructor's own calls (default user, sample data) are part
    of the history. *)
Inductive reachable : MemStorage -> Prop :=
| reachable_empty : reachable MemStorage_empty
| reachable_exec c s : reachable s -> clock_valid c -> reachable (exec c s).2.

(** A history: the calls and what each returned. *)
Fixpoint run (cs : list Call) (s : MemStorage) : list (Call * Ret) * MemStorage :=
  match cs with
  | [] => ([], s)
  | c :: rest =>
      let '(x, s1) := exec c s in
      let '(tr, s2) := run rest s1 in
      ((c, x) :: tr, s2)
  end.

Definition id_of (record : Obj) : option Z :=
  match prop record "id" with VNum n => Some n | _ => None end.

(** The identifier a create call on collection [e] handed out. *)
Definition created_id (e : Entity) (ev : Call * Ret) : option Z :=
  match ev with
  | (CreateUser _, Created r) => if decide (e = User) then id_of r else None
  | (CreateStudent _, Created r) => if decide (e = Student) then id_of r else None
  | (CreateTeacher _, Created r) => if decide (e = Teacher) then id_of r else None
  | (CreateClass _, Created r) => if decide (e = Class) then id_of r else None
  | (CreateClassEnrollment _, Created r) =>
      if decide (e = ClassEnrollment) then id_of r else None
  | (CreateAttendance _, Created r) => if decide (e = Attendance) then id_of r else None
  | (CreateGrade _, Created r) => if decide (e = Grade) then id_of r else None
  | (CreateEvent _, Created r) => if decide (e = Event) then id_of r else None
  | (CreateActivity _ _, Created r) => if decide (e = Activity) then id_of r else None
  | _ => None
  end.

(** The identifier a delete call on collection [e] removed a record of. *)
Definition deleted_id (e : Entity) (ev : Call * Ret) : option Z :=
  match ev with
  | (DeleteUser id, Deleted true) => if decide (e = User) then Some id else None
  | (DeleteStudent id, Deleted true) => if decide (e = Student) then Some id else None
  | (DeleteTeacher id, Deleted true) => if decide (e = Teacher) then Some id else None
  | (DeleteClass id, Deleted true) => if decide (e = Class) then Some id else None
  | (DeleteClassEnrollment id, Deleted true) =>
      if decide (e = ClassEnrollment) then Some id else None
  | (DeleteAttendance id, Deleted true) =>
      if decide (e = Attendance) then Some id else None
  | (DeleteGrade id, Deleted true) => if decide (e = Grade) then Some id else None
  | (DeleteEvent id, Deleted true) => if decide (e = Event) then Some id else None
  | _ => None
  end.

(** The update, delete and get-by-identifier methods of a collection, for
    those that have one. *)
Definition update_of (e : Entity) : option (Z -> Obj -> M (option Obj)) :=
  match e with
  | User => Some updateUser
  | Student => Some updateStudent
  | Teacher => Some updateTeacher
  | Class => Some updateClass
  | Attendance => Some updateAttendance
  | Grade => Some updateGrade
  | Event => Some updateEvent
  | ClassEnrollment | Activity => None
  end.

Definition delete_of (e : Entity) : option (Z -> M bool) :=
  match e with
  | User => Some deleteUser
  | Student => Some deleteStudent
  | Teacher => Some deleteTeacher
  | Class => Some deleteClass
  | ClassEnrollment => Some deleteClassEnrollment
  | Attendance => Some deleteAttendance
  | Grade => Some deleteGrade
  | Event => Some deleteEvent
  | Activity => None
  end.

Definition get_of (e : Entity) : option (Z -> MemStorage -> option Obj) :=
  match e with
  | User => Some getUser
  | Student => Some getStudent
  | Teacher => Some getTeacher
  | Class => Some getClass
  | Event => Some getEvent
  | ClassEnrollment | Attendance | Grade | Activity => None
  end.

(** *** The common shape of the methods

    The create, update and delete methods of the nine collections are the
    same three bodies over different fields. [shape] names the body a call
    runs; [exec_shape] is proved equal to [exec] below. *)

(** The record [createActivity] stores also carries the clock reading. *)
Definition stamped (now : option Z) (o : Obj) : Obj :=
  match now with
  | Some t => <["timestamp" := VDate (Some t)]> o
  | None => o
  end.

Definition create_in (e : Entity) (now : option Z) (d : Obj) : M Obj := fun s =>
  let id := counter_of e s in
  let record := stamped now (<["id" := VNum id]> d) in
  (record, with_store e (JsMap.set id record (store_of e s)) (with_counter e (id + 1) s)).

Definition update_in (e : Entity) (id : Z) (d : Obj) : M (option Obj) := fun s =>
  match JsMap.get id (store_of e s) with
  | None => (None, s)
  | Some record =>
      (Some (spread record d),
       with_store e (JsMap.set id (spread record d) (store_of e s)) s)
  end.

Definition delete_in (e : Entity) (id : Z) : M bool := fun s =>
  (JsMap.has id (store_of e s), with_store e (JsMap.remove id (store_of e s)) s).

Inductive Shape :=
| IsCreate (e : Entity) (now : option Z) (d : Obj)
| IsUpdate (e : Entity) (id : Z) (d : Obj)
| IsDelete (e : Entity) (id : Z).

Definition shape (c : Call) : Shape :=
  match c with
  | CreateUser d => IsCreate User None d
  | UpdateUser id d => IsUpdate User id d
  | DeleteUser id => IsDelete User id
  | CreateStudent d => IsCreate Student None d
  | UpdateStudent id d => IsUpdate Student id d
  | DeleteStudent id => IsDelete Student id
  | CreateTeacher d => IsCreate Teacher None d
  | UpdateTeacher id d => IsUpdate Teacher id d
  | DeleteTeacher id => IsDelete Teacher id
  | CreateClass d => IsCreate Class None d
  | UpdateClass id d => IsUpdate Class id d
  | DeleteClass id => IsDelete Class id
  | CreateClassEnrollment d => IsCreate ClassEnrollment None d
  | DeleteClassEnrollment id => IsDelete ClassEnrollment id
  | CreateAttendance d => IsCreate Attendance None d
  | UpdateAttendance id d => IsUpdate Attendance id d
  | DeleteAttendance id => IsDelete Attendance id
  | CreateGrade d => IsCreate Grade None d
  | UpdateGrade id d => IsUpdate Grade id d
  | DeleteGrade id => IsDelete Grade id
  | CreateEvent d => IsCreate Event None d
  | UpdateEvent id d => IsUpdate Event id d
  | DeleteEvent id => IsDelete Event id
  | CreateActivity now d => IsCreate Activity (Some now) d
  end.

Definition exec_shape (sh : Shape) : M Ret :=
  match sh with
  | IsCreate e now d => Created <$> create_in e now d
  | IsUpdate e id d => Updated <$> update_in e id d
  | IsDelete e id => Deleted <$> delete_in e id
  end.

(** The collection a call works on. *)
Definition shape_entity (sh : Shape) : Entity :=
  match sh with
  | IsCreate e _ _ | IsUpdate e _ _ | IsDelete e _ => e
  end.

(** Every key of every map is below the counter of its collection. *)
Definition keys_below_counter (s : MemStorage) : Prop :=
  forall e k, k ∈ JsMap.keys (store_of e s) -> k < counter_of e s.

(** *** Attendance rate *)

(** The number of records whose status is one of [allowed]. *)
Fixpoint count_status (allowed : list string) (records : list Obj) : Z :=
  match records with
  | [] => 0
  | a :: rest =>
      (match a !! "status" with
       | Some (VStr st) => if bool_decide (st ∈ allowed) then 1 else 0
       | _ => 0
       end) + count_status allowed rest
  end.

(** The percentage [100 p / n] rounded to one decimal place in exact
    arithmetic, counted in tenths: the integer nearest to [1000 p / n], a
    tie going up as [Math.round] rounds. *)
Definition rounded_to_one_decimal (p n : Z) : Z := (2000 * p + n) / (2 * n).

(** [k] tenths is a tenth nearest to the percentage [100 p / n] in exact
    arithmetic: the distance between [k / 10] and [100 p / n] is at most
    [1 / 20]. *)
Definition nearest_tenth (p n k : Z) : Prop := Z.abs (2 * k * n - 2000 * p) <= n.

(** The rate as the specification words it: the percentage of the records
    present or late, rounded to one decimal place. *)
Definition rate_as_specified (s : MemStorage) : Prop :=
  attendanceRate (getDashboardStats s)
  = (of_Z (rounded_to_one_decimal
             (count_status ["present"; "late"] (getAttendance s))
             (Z.of_nat (length (getAttendance s)))) / 10)%float.

(** *** Doubles

    The operations on doubles are those of IEEE 754, which the library
    specifies on a sign, a mantissa and an exponent ([Prim2SF]). *)

(** The bits a right shift has dropped, as the shift record keeps them:
    the number [N] that is shifted is [m * den + r] with [0 <= r < den],
    the round bit says whether [r] is at least half of [den] and the sticky
    bit whether it is neither zero nor the half. *)
Definition located (N den : Z) (mrs : shr_record) : Prop :=
  0 < den /\ 0 <= shr_m mrs /\
  exists r, 0 <= r < den /\ shr_m mrs * den + r = N /\
            shr_r mrs = (den <=? 2 * r) /\
            shr_s mrs = negb (r =? 0) && negb (2 * r =? den).

(** A normal double: it is positive and its mantissa has 53 bits. *)
Definition normal (x : float) (m : positive) (e : Z) : Prop :=
  Prim2SF x = S754_finite false m e /\ Z.pos (digits2_pos m) = 53.

(** *** Activity feed *)

Definition timestamp_of `{Host} (a : Obj) : option Z := new_Date (prop a "timestamp").

(** The time value that the [timestamp] of an activity holds: the
    property is a [Date] and the date is valid. *)
Definition stored_time (a : Obj) : option Z :=
  match a !! "timestamp" with
  | Some (VDate (Some t)) => Some t
  | _ => None
  end.

(** The activity holds a time value in the range of [Date]. *)
Definition clocked (a : Obj) : Prop :=
  exists t, stored_time a = Some t /\ Z.abs t <= maxTime.

(** [a] is at least as recent as [b]: both hold a time value, and that of
    [a] is not the smaller one. *)
Definition not_older (a b : Obj) : Prop :=
  exists ta tb, stored_time a = Some ta /\ stored_time b = Some tb /\ tb <= ta.

(** *** Calendar dates *)

(** The calendar date (year, month, day) of a time value, in UTC. *)
Definition calendar_date (t : Z) : Z * Z * Z := civil_from_days (Day t).

(** A valid date: it has a time value, within the range of [Date]. *)
Definition valid_date (tv : option Z) : Prop :=
  exists t, tv = Some t /\ Z.abs t <= maxTime.

Definition record_date `{Host} (r : Obj) : option Z := new_Date (prop r "date").

Definition on_calendar_date `{Host} (t : Z) (r : Obj) : bool :=
  match record_date r with
  | Some tr => bool_decide (calendar_date tr = calendar_date t)
  | None => false
  end.

(** The date filter as the specification words it: the call includes a
    stored record exactly when its date and the query date are on the same
    calendar date. *)
Definition includes `{Host} (date : option Z) (s : MemStorage) (r : Obj) : Prop :=
  exists records, getAttendanceByDate date s = Some records /\ r ∈ records.

Definition same_calendar_date (a b : option Z) : Prop :=
  exists ta tb, a = Some ta /\ b = Some tb /\ calendar_date ta = calendar_date tb.

Definition date_filter_as_specified `{Host} (date : option Z) (s : MemStorage) : Prop :=
  forall r, r ∈ getAttendance s ->
            (includes date s r <-> same_calendar_date date (record_date r)).

(** *** Teachers and users *)

(** Every teacher whose [userId] is a number refers to a stored user. *)
Definition teachers_reference_users (s : MemStorage) : Prop :=
  forall t uid,
    t ∈ JsMap.values (teachers s) ->
    prop t "userId" = VNum uid ->
    is_Some (JsMap.get uid (users s)).

(** A call that keeps the references intact: a teacher is created or
    updated with no [userId] or that of a stored user, and no user that a
    teacher refers to is deleted. *)
Definition respects_users (c : Call) (s : MemStorage) : Prop :=
  match c with
  | CreateTeacher d =>
      forall uid, prop d "userId" = VNum uid -> is_Some (JsMap.get uid (users s))
  | UpdateTeacher id d =>
      forall t uid,
        JsMap.get id (teachers s) = Some t ->
        prop (spread t d) "userId" = VNum uid ->
        is_Some (JsMap.get uid (users s))
  | DeleteUser id =>
      forall t, t ∈ JsMap.values (teachers s) -> prop t "userId" <> VNum id
  | _ => True
  end.

Inductive reachable_respecting_users : MemStorage -> Prop :=
| respecting_empty : reachable_respecting_users MemStorage_empty
| respecting_exec c s :
    reachable_respecting_users s -> respects_users c s ->
    reachable_respecting_users (exec c s).2.

(** *** CSV quoting, in the words of the specification *)

Definition needs_quoting (s : string) : Prop :=
  exists c, In c (list_ascii_of_string s)
            /\ (c = ExportData.comma \/ c = ExportData.quote \/ c = ExportData.newline).


(** *** Query parameters of the attendance listing *)






(** *** Routes *)

(** The [:id] of an update route. *)
Definition route_id (r : WriteRoute) : option string :=
  match r with
  | PUT_users id | PUT_students id | PUT_teachers id | PUT_classes id
  | PUT_attendance id | PUT_grades id | PUT_events id => Some id
  | _ => None
  end.

(** The [:id] of an update route is not a number for [parseInt]. *)
Definition id_is_NaN (r : WriteRoute) : bool :=
  match route_id r with
  | Some id => match parseInt id with None => true | Some _ => false end
  | None => false
  end.

(** ** A sample host and validator

    Concrete members of [Host] and [Zod], to run the embedding on inputs.
    The host reads a date written [YYYY-MM-DD] as midnight UTC of that day
    and no other format. *)

Module Sample.

(** The day number of a calendar date, the inverse of
    [civil_from_days]. *)
Definition days_from_civil (y m d : Z) : Z :=
  let y := if m <=? 2 then y - 1 else y in
  let era := y / 400 in
  let yoe := y - era * 400 in
  let doy := (153 * (if 2 <? m then m - 3 else m + 9) + 2) / 5 + d - 1 in
  let doe := yoe * 365 + yoe / 4 - yoe / 100 + doy in
  era * 146097 + doe - 719468.

Definition parse_iso_date (s : string) : option Z :=
  match s with
  | String y1 (String y2 (String y3 (String y4 (String "-"
      (String m1 (String m2 (String "-" (String d1 (String d2 ""))))))))) =>
      y1 ← digit_value 10 y1; y2 ← digit_value 10 y2;
      y3 ← digit_value 10 y3; y4 ← digit_value 10 y4;
      m1 ← digit_value 10 m1; m2 ← digit_value 10 m2;
      d1 ← digit_value 10 d1; d2 ← digit_value 10 d2;
      let y := 1000 * y1 + 100 * y2 + 10 * y3 + y4 in
      let m := 10 * m1 + m2 in
      let d := 10 * d1 + d2 in
      if (1 <=? m) && (m <=? 12) && (1 <=? d) && (d <=? 31)
      then Some (days_from_civil y m d * msPerDay)
      else None
  | _ => None
  end.

Definition show_date (tv : option Z) : string :=
  match tv with
  | Some t => iso_date t
  | None => "Invalid Date"
  end.

Fixpoint show_value (v : Value) : string :=
  match v with
  | VUndefined | VNull => "null"
  | VBool true => "true"
  | VBool false => "false"
  | VNum n => pretty n
  | VStr s => dq +:+ s +:+ dq
  | VDate tv => dq +:+ show_date tv +:+ dq
  | VArr xs => "[" +:+ join "," (map show_value xs) +:+ "]"
  end.

Definition host : Host :=
  {| Date_parse := parse_iso_date;
     Date_toString := show_date;
     Date_toLocaleDateString := show_date;
     JSON_stringify := show_value |}.

Definition zod : Zod := {| safeParse := drizzle_zod_safeParse |}.

(** The store after a sequence of calls on a new one. *)
Definition after (cs : list Call) : MemStorage := (run cs MemStorage_empty).2.

Definition admin : Obj :=
  {[ "username" := VStr "admin"; "password" := VStr "admin123";
     "role" := VStr "admin"; "fullName" := VStr "Jane Cooper";
     "email" := VStr "admin@school.edu" ]}.

Definition student (studentId firstName lastName : string) : Obj :=
  {[ "studentId" := VStr studentId; "firstName" := VStr firstName;
     "lastName" := VStr lastName; "gradeLevel" := VStr "9";
     "section" := VStr "A" ]}.

Definition teacher (teacherId : string) (userId : Value) : Obj :=
  {[ "teacherId" := VStr teacherId; "firstName" := VStr "Robert";
     "lastName" := VStr "Fox"; "userId" := userId ]}.

Definition class (classCode : string) : Obj :=
  {[ "className" := VStr "Mathematics"; "classCode" := VStr classCode ]}.

Definition enrollment (classId studentId : Z) : Obj :=
  {[ "classId" := VNum classId; "studentId" := VNum studentId;
     "enrollmentDate" := VStr "2023-09-01" ]}.

Definition attendance (classId studentId : Z) (date : Value) (status : string)
  : Obj :=
  {[ "classId" := VNum classId; "studentId" := VNum studentId;
     "date" := date; "status" := VStr status ]}.

Definition entry (action : string) : Obj := activity (VNum 1) action "".

(** Three activities logged with clock readings that do not ascend. *)
Definition out_of_order : MemStorage :=
  after [ CreateActivity 300 (entry "Added Student");
          CreateActivity 100 (entry "Added Class");
          CreateActivity 200 (entry "Updated Grade") ].

(** [n] attendance records of one status. *)
Definition marked (n : nat) (status : string) : list Call :=
  repeat (CreateAttendance (attendance 1 1 (VStr "2024-05-01") status)) n.

(** [p] records present and [q] absent. *)
Definition present_absent (p q : nat) : MemStorage :=
  after (marked p "present" ++ marked q "absent").

End Sample.

(** ** More notions: the methods by collection, and counting in a history *)

(** The create method of each collection; only [createActivity] reads the
    clock. *)
Definition create_of (e : Entity) (now : Z) : Obj -> M Obj :=
  match e with
  | User => createUser
  | Student => createStudent
  | Teacher => createTeacher
  | Class => createClass
  | ClassEnrollment => createClassEnrollment
  | Attendance => createAttendance
  | Grade => createGrade
  | Event => createEvent
  | Activity => createActivity now
  end.

(** The lookups by business key: the property they compare and the
    method. *)
Definition lookup_of (e : Entity)
  : option (string * (string -> MemStorage -> option Obj)) :=
  match e with
  | User => Some ("username", getUserByUsername)
  | Student => Some ("studentId", getStudentByStudentId)
  | Teacher => Some ("teacherId", getTeacherByTeacherId)
  | Class => Some ("classCode", getClassByClassCode)
  | _ => None
  end.

(** How many create calls on [e], and how many delete calls on [e] that
    returned true, a history holds. *)
Definition count_created (e : Entity) (tr : list (Call * Ret)) : nat :=
  length (List.filter (fun ev => bool_decide (is_Some (created_id e ev))) tr).

Definition count_deleted (e : Entity) (tr : list (Call * Ret)) : nat :=
  length (List.filter (fun ev => bool_decide (is_Some (deleted_id e ev))) tr).

(** The patch of an update call has no [id] property, as the type
    [Partial<Insert...>] has none. *)
Definition patch_without_id (c : Call) : Prop :=
  match c with
  | UpdateUser _ d | UpdateStudent _ d | UpdateTeacher _ d | UpdateClass _ d
  | UpdateAttendance _ d | UpdateGrade _ d | UpdateEvent _ d => d !! "id" = None
  | _ => True
  end.

(** The association list is a faithful [Map]: every key is below the
    counter of its collection and no key occurs twice. *)
Definition well_formed (s : MemStorage) : Prop :=
  keys_below_counter s /\ forall e, NoDup (JsMap.keys (store_of e s)).

(** Every stored record carries the identifier it is stored under. *)
Definition ids_are_keys (s : MemStorage) : Prop :=
  forall e k r, JsMap.get k (store_of e s) = Some r -> r !! "id" = Some (VNum k).

(** [a] was created before [b]. *)
Definition created_before (a b : Obj) : Prop :=
  exists ka kb, id_of a = Some ka /\ id_of b = Some kb /\ ka < kb.

(** The order of the activity feed: the later timestamp first, and of two
    activities with one timestamp the one created first. *)
Definition listed_before (a b : Obj) : Prop :=
  exists ta tb ka kb,
    stored_time a = Some ta /\ stored_time b = Some tb /\
    id_of a = Some ka /\ id_of b = Some kb /\
    (tb < ta \/ (tb = ta /\ ka < kb)).

(** The entries of a map are in the order of their keys and each record
    carries its key. *)
Definition in_key_order (m : JsMap.t Obj) : Prop :=
  Forall (fun kv => id_of kv.2 = Some kv.1) m /\ StronglySorted Z.lt (JsMap.keys m).

(** ** [server/routes.ts]: the remaining handlers *)

Section MoreRoutes.
Context `{Host} `{Zod}.

(** *** Reading one record *)

Definition get_users_id (req_params_id : string) (s : MemStorage) : Response :=
  match parseInt req_params_id with
  | None => response 400 (Error_message "Invalid user ID")
  | Some id =>
      match getUser id s with
      | None => response 404 (Error_message "User not found")
      | Some user => response 200 (Json_record user)
      end
  end.

Definition get_students_id (req_params_id : string) (s : MemStorage) : Response :=
  match parseInt req_params_id with
  | None => response 400 (Error_message "Invalid student ID")
  | Some id =>
      match getStudent id s with
      | None => response 404 (Error_message "Student not found")
      | Some student => response 200 (Json_record student)
      end
  end.

Definition get_teachers_id (req_params_id : string) (s : MemStorage) : Response :=
  match parseInt req_params_id with
  | None => response 400 (Error_message "Invalid teacher ID")
  | Some id =>
      match getTeacher id s with
      | None => response 404 (Error_message "Teacher not found")
      | Some teacher => response 200 (Json_record teacher)
      end
  end.

Definition get_classes_id (req_params_id : string) (s : MemStorage) : Response :=
  match parseInt req_params_id with
  | None => response 400 (Error_message "Invalid class ID")
  | Some id =>
      match getClass id s with
      | None => response 404 (Error_message "Class not found")
      | Some classItem => response 200 (Json_record classItem)
      end
  end.

Definition get_events_id (req_params_id : string) (s : MemStorage) : Response :=
  match parseInt req_params_id with
  | None => response 400 (Error_message "Invalid event ID")
  | Some id =>
      match getEvent id s with
      | None => response 404 (Error_message "Event not found")
      | Some event => response 200 (Json_record event)
      end
  end.

(** *** The delete requests, by route *)

Inductive DeleteRoute :=
| DELETE_users (id : string)
| DELETE_students (id : string)
| DELETE_teachers (id : string)
| DELETE_classes (id : string)
| DELETE_class_enrollments (id : string)
| DELETE_attendance (id : string)
| DELETE_grades (id : string)
| DELETE_events (id : string).

Definition handle_delete (now : Z) (r : DeleteRoute) : M Response :=
  match r with
  | DELETE_users id => delete_users now id
  | DELETE_students id => delete_students now id
  | DELETE_teachers id => delete_teachers now id
  | DELETE_classes id => delete_classes now id
  | DELETE_class_enrollments id => delete_class_enrollments now id
  | DELETE_attendance id => delete_attendance now id
  | DELETE_grades id => delete_grades now id
  | DELETE_events id => delete_events now id
  end.

(** A request that writes: a create or update with its body, or a
    delete. *)
Inductive Request :=
| Write (r : WriteRoute) (req_body : Json)
| Remove (r : DeleteRoute).

(** The handler of a request; [now] is what its clock reads. *)
Definition serve (now : Z) (q : Request) : M Response :=
  match q with
  | Write r req_body => handle now r req_body
  | Remove r => handle_delete now r
  end.

(** The requests served one after the other, each with its clock
    reading. *)
Fixpoint serve_all (qs : list (Z * Request)) (s : MemStorage)
  : list Response * MemStorage :=
  match qs with
  | [] => ([], s)
  | (now, q) :: rest =>
      let '(x, s1) := serve now q s in
      let '(xs, s2) := serve_all rest s1 in
      (x :: xs, s2)
  end.

(** The routes that read one record of a collection. *)
Definition get_by_id (e : Entity) : option (string -> MemStorage -> Response) :=
  match e with
  | User => Some get_users_id
  | Student => Some get_students_id
  | Teacher => Some get_teachers_id
  | Class => Some get_classes_id
  | Event => Some get_events_id
  | ClassEnrollment | Attendance | Grade | Activity => None
  end.

End MoreRoutes.

(** *** Login *)

(** The result of [safeParse] of the schema of the login route, an object
    of two strings: on success [username] and [password]. *)
Inductive LoginParse :=
| LoginSuccess (username password : string)
| LoginFailure (error : ZodError).

(** [z.object({ username: z.string(), password: z.string() })]. *)
Class ZodLogin := { login_safeParse : Json -> LoginParse }.

Definition post_auth_login `{ZodLogin} (req_body : Json) (s : MemStorage) : Response :=
  match login_safeParse req_body with
  | LoginFailure e => response 400 (Error_validation e)
  | LoginSuccess username password =>
      match getUserByUsername username s with
      | None => response 401 (Error_message "Invalid username or password")
      | Some user =>
          if negb (strict_eq_str (prop user "password") password)
          then response 401 (Error_message "Invalid username or password")
          else
            response 200
              (Json_record
                 {[ "id" := prop user "id";
                    "username" := prop user "username";
                    "role" := prop user "role";
                    "fullName" := prop user "fullName";
                    "avatar" := prop user "avatar" ]})
      end
  end.

(** *** Notions for the requests *)

(** The collection a request writes to. *)
Definition write_entity (r : WriteRoute) : Entity :=
  match r with
  | POST_users | PUT_users _ => User
  | POST_students | PUT_students _ => Student
  | POST_teachers | PUT_teachers _ => Teacher
  | POST_classes | PUT_classes _ => Class
  | POST_class_enrollments => ClassEnrollment
  | POST_attendance | PUT_attendance _ => Attendance
  | POST_grades | PUT_grades _ => Grade
  | POST_events | PUT_events _ => Event
  end.

Definition delete_entity (r : DeleteRoute) : Entity :=
  match r with
  | DELETE_users _ => User
  | DELETE_students _ => Student
  | DELETE_teachers _ => Teacher
  | DELETE_classes _ => Class
  | DELETE_class_enrollments _ => ClassEnrollment
  | DELETE_attendance _ => Attendance
  | DELETE_grades _ => Grade
  | DELETE_events _ => Event
  end.

Definition request_entity (q : Request) : Entity :=
  match q with
  | Write r _ => write_entity r
  | Remove r => delete_entity r
  end.

(** The call on the store a request makes once its identifier and its
    payload are accepted. *)
Definition write_call (r : WriteRoute) (data : Obj) : option Call :=
  match r with
  | POST_users => Some (CreateUser data)
  | PUT_users id => (fun k => UpdateUser k data) <$> parseInt id
  | POST_students => Some (CreateStudent data)
  | PUT_students id => (fun k => UpdateStudent k data) <$> parseInt id
  | POST_teachers => Some (CreateTeacher data)
  | PUT_teachers id => (fun k => UpdateTeacher k data) <$> parseInt id
  | POST_classes => Some (CreateClass data)
  | PUT_classes id => (fun k => UpdateClass k data) <$> parseInt id
  | POST_class_enrollments => Some (CreateClassEnrollment data)
  | POST_attendance => Some (CreateAttendance data)
  | PUT_attendance id => (fun k => UpdateAttendance k data) <$> parseInt id
  | POST_grades => Some (CreateGrade data)
  | PUT_grades id => (fun k => UpdateGrade k data) <$> parseInt id
  | POST_events => Some (CreateEvent data)
  | PUT_events id => (fun k => UpdateEvent k data) <$> parseInt id
  end.

Definition delete_call (r : DeleteRoute) : option Call :=
  match r with
  | DELETE_users id => DeleteUser <$> parseInt id
  | DELETE_students id => DeleteStudent <$> parseInt id
  | DELETE_teachers id => DeleteTeacher <$> parseInt id
  | DELETE_classes id => DeleteClass <$> parseInt id
  | DELETE_class_enrollments id => DeleteClassEnrollment <$> parseInt id
  | DELETE_attendance id => DeleteAttendance <$> parseInt id
  | DELETE_grades id => DeleteGrade <$> parseInt id
  | DELETE_events id => DeleteEvent <$> parseInt id
  end.

Definition request_call `{Zod} (q : Request) : option Call :=
  match q with
  | Write r req_body =>
      match safeParse (schema_of r) req_body with
      | Success data => write_call r data
      | Failure _ => None
      end
  | Remove r => delete_call r
  end.

(** The call found what it was to change: a create always does, an update
    and a delete when the identifier is stored. *)
Definition takes_effect (c : Call) (s : MemStorage) : bool :=
  match (exec c s).1 with
  | Created _ => true
  | Updated r => bool_decide (is_Some r)
  | Deleted existed => existed
  end.


(** What may follow a number in a text for [parseInt] to read that number:
    nothing, or a character that is no decimal digit and no [x]. *)
Definition ends_number (rest : string) : bool :=
  match rest with
  | EmptyString => true
  | String c _ =>
      match digit_value 10 c with
      | Some _ => false
      | None => negb (Ascii.eqb c "x" || Ascii.eqb c "X")
      end
  end.

(** The integers a JavaScript number holds exactly. *)
Definition safe_integer (n : Z) : Prop := Z.abs n <= 9007199254740991.

(** The answer to a request whose call took effect. *)
Definition success_response (x : Ret) : option Response :=
  match x with
  | Created record => Some (response 201 (Json_record record))
  | Updated (Some record) => Some (response 200 (Json_record record))
  | Deleted true => Some (response 204 No_content)
  | Updated None | Deleted false => None
  end.

(** The create, update and delete routes of a collection. *)
Definition post_route (e : Entity) : option WriteRoute :=
  match e with
  | User => Some POST_users
  | Student => Some POST_students
  | Teacher => Some POST_teachers
  | Class => Some POST_classes
  | ClassEnrollment => Some POST_class_enrollments
  | Attendance => Some POST_attendance
  | Grade => Some POST_grades
  | Event => Some POST_events
  | Activity => None
  end.

Definition put_route (e : Entity) : option (string -> WriteRoute) :=
  match e with
  | User => Some PUT_users
  | Student => Some PUT_students
  | Teacher => Some PUT_teachers
  | Class => Some PUT_classes
  | Attendance => Some PUT_attendance
  | Grade => Some PUT_grades
  | Event => Some PUT_events
  | ClassEnrollment | Activity => None
  end.

Definition delete_route (e : Entity) : option (string -> DeleteRoute) :=
  match e with
  | User => Some DELETE_users
  | Student => Some DELETE_students
  | Teacher => Some DELETE_teachers
  | Class => Some DELETE_classes
  | ClassEnrollment => Some DELETE_class_enrollments
  | Attendance => Some DELETE_attendance
  | Grade => Some DELETE_grades
  | Event => Some DELETE_events
  | Activity => None
  end.

(** The clock of every request reads a valid time value. *)
Definition clocks_valid (qs : list (Z * Request)) : Prop :=
  Forall (fun nq => Z.abs nq.1 <= maxTime) qs.

(** The validator lets no [id] through: the data of a payload it accepts
    have no such property. The insert schemas omit [id], and an object
    schema drops the properties it does not know. *)
Definition strips_id `{Zod} : Prop :=
  forall z req_body data, safeParse z req_body = Success data -> data !! "id" = None.

(** ** Sample requests

    A concrete member of [ZodLogin] and payloads that the model of the
    generated schemas accepts, to run the handlers on inputs. *)

Module SampleRequests.

Definition login_parse (req_body : Json) : LoginParse :=
  match req_body with
  | JObj fields =>
      match json_field "username" fields, json_field "password" fields with
      | Some (JStr u), Some (JStr p) => LoginSuccess u p
      | Some (JStr _), _ => LoginFailure [("password", "Expected string")]
      | _, _ => LoginFailure [("username", "Expected string")]
      end
  | _ => LoginFailure [("", "Expected object")]
  end.

Definition zod_login : ZodLogin := {| login_safeParse := login_parse |}.

Definition user_body (username password : string) : Json :=
  JObj [ ("username", JStr username); ("password", JStr password);
         ("fullName", JStr "Jane Cooper"); ("email", JStr "jane@school.edu") ].

Definition login_body (username password : string) : Json :=
  JObj [ ("username", JStr username); ("password", JStr password) ].

Definition student_body (studentId firstName lastName : string) : Json :=
  JObj [ ("studentId", JStr studentId); ("firstName", JStr firstName);
         ("lastName", JStr lastName); ("gender", JStr "female");
         ("dateOfBirth", JStr "2007-05-15"); ("email", JStr "s@school.edu");
         ("gradeLevel", JStr "10"); ("section", JStr "A");
         ("enrollmentDate", JStr "2022-09-01") ].

(** The data of a payload the model of the schemas accepts. *)
Definition parsed (z : ZodSchema) (req_body : Json) : Obj :=
  match drizzle_zod_safeParse z req_body with
  | Success data => data
  | Failure _ => ∅
  end.

Definition sarah : Obj := Sample.student "STU001" "Sarah" "Johnson".
Definition emma : Obj := Sample.student "STU002" "Emma" "Wilson".

Definition one_student : MemStorage := Sample.after [CreateStudent sarah].

Definition two_students : MemStorage :=
  Sample.after [CreateStudent sarah; CreateStudent emma].

(** Two activities logged within one millisecond. *)
Definition same_millisecond : MemStorage :=
  Sample.after [ CreateActivity 5000 (Sample.entry "Added Student");
                 CreateActivity 5000 (Sample.entry "Added Class") ].

(** Two activities logged within one millisecond, and between them one
    with a later clock reading. *)
Definition later_between : MemStorage :=
  Sample.after [ CreateActivity 5000 (Sample.entry "Added Student");
                 CreateActivity 7000 (Sample.entry "Added Class");
                 CreateActivity 5000 (Sample.entry "Updated Grade") ].

(** A new store after the registration of one user. *)
Definition registered `{Host} `{Zod} (username password : string) : MemStorage :=
  (post_users 0 (user_body username password) MemStorage_empty).2.

End SampleRequests.

(** ** Properties that a plain object inherits *)

(** The names of the members of [Object.prototype], which a plain object
    inherits. *)
Definition Object_prototype_names : list string :=
  [ "constructor"; "__defineGetter__"; "__defineSetter__"; "hasOwnProperty";
    "__lookupGetter__"; "__lookupSetter__"; "isPrototypeOf";
    "propertyIsEnumerable"; "toString"; "valueOf"; "__proto__"; "toLocaleString" ].

Definition inherited (k : string) : bool := bool_decide (k ∈ Object_prototype_names).

(** ** Reading a CSV text

    A reader of the format of RFC 4180, to say what a text means to the
    program that opens the file. Fields are separated by commas. A record
    ends at a line break, which is a line feed, a carriage return, or a
    carriage return and a line feed; the last record may end with a line
    break or without one. A field that starts with a double quote runs to
    the next double quote that is not doubled: a doubled quote inside it
    stands for one, and commas and line breaks inside it are content. A
    line with nothing on it is a record of one empty field. *)

Module CsvReader.
Import ExportData.

Definition carriage_return : ascii := ascii_of_N 13.

Inductive Mode := AtStart | InPlain | InQuoted | AfterQuote.

(** The records read so far, the first field of the first record being the
    one under construction. *)
Definition push (c : ascii) (rows : list (list string)) : list (list string) :=
  match rows with
  | (f :: fs) :: rs => (String c f :: fs) :: rs
  | [] :: rs => [String c ""] :: rs
  | [] => [[String c ""]]
  end.

Definition new_field (rows : list (list string)) : list (list string) :=
  match rows with
  | fs :: rs => ("" :: fs) :: rs
  | [] => [[""]]
  end.

Definition new_record (rows : list (list string)) : list (list string) :=
  [""] :: rows.

(** A line break ends the record. What follows it is the next record,
    unless the text ends there: the last record may end with a line break
    or without one. *)
Definition end_record (rest : string) (rows : list (list string))
  : list (list string) :=
  match rest with
  | EmptyString => [[""]]
  | _ => new_record rows
  end.

Fixpoint read (m : Mode) (s : string) : list (list string) :=
  match s with
  | EmptyString => [[""]]
  | String c r =>
      if Ascii.eqb c quote then
        match m with
        | AtStart => read InQuoted r
        | InQuoted => read AfterQuote r
        | AfterQuote => push c (read InQuoted r)
        | InPlain => push c (read InPlain r)
        end
      else
        match m with
        | InQuoted => push c (read InQuoted r)
        | _ =>
            if Ascii.eqb c comma then new_field (read AtStart r)
            else if Ascii.eqb c newline then end_record r (read AtStart r)
            else if Ascii.eqb c carriage_return then
              match r with
              | String c' r' =>
                  if Ascii.eqb c' newline then end_record r' (read AtStart r')
                  else new_record (read AtStart r)
              | EmptyString => [[""]]
              end
            else push c (read InPlain r)
        end
  end.

Definition read_csv (s : string) : list (list string) := read AtStart s.

(** The characters of [p] before the field under construction. *)
Fixpoint pushes (p : string) (rows : list (list string)) : list (list string) :=
  match p with
  | EmptyString => rows
  | String c r => push c (pushes r rows)
  end.

(** The text ends, or goes on with a separator that the export writes. *)
Definition at_separator (rest : string) : Prop :=
  match rest with
  | EmptyString => True
  | String c _ => c = comma \/ c = newline
  end.

(** [text] is read as one field whose content is [cell]. *)
Definition reads_as (text cell : string) : Prop :=
  forall rest, at_separator rest ->
               read AtStart (text +:+ rest) = pushes cell (read AtStart rest).

(** The content of the field the export writes for a value. *)
Definition cell_text `{Host} (v : Value) : string :=
  match v with
  | VNull | VUndefined => ""
  | VStr s => s
  | VDate tv => Date_toLocaleDateString tv
  | VArr _ => JSON_stringify v
  | _ => ToString v
  end.

(** No double quote occurs in [s]. *)
Fixpoint quote_free (s : string) : bool :=
  match s with
  | EmptyString => true
  | String c r => negb (Ascii.eqb c quote) && quote_free r
  end.

(** No carriage return occurs in [s]. *)
Fixpoint return_free (s : string) : bool :=
  match s with
  | EmptyString => true
  | String c r => negb (Ascii.eqb c carriage_return) && return_free r
  end.

(** A name that can stand in the header row, which is written as it is:
    no comma, line feed, double quote or carriage return occurs in it. *)
Definition plain (s : string) : bool := negb (test_special s) && return_free s.

(** A value whose field keeps its record in one piece: a string with a
    carriage return is written between quotes, that is, a comma, a line
    feed or a double quote occurs in it as well. *)
Definition unbroken (v : Value) : bool :=
  match v with
  | VStr s => test_special s || return_free s
  | _ => true
  end.

(** A record that is one empty field: a blank line of the text. *)
Definition blank (cells : list string) : Prop := cells = [""].

End CsvReader.

(** ** [components/DataTable.tsx]: the download of a table

    [handleDownload], the caller of [exportToCSV]: every row of the
    filtered data becomes an object with one property for each column
    other than the actions column, named by the header of the column and
    holding the property of the row that the key of the column names. *)

Module DataTable.
Import ExportData.

(** The two properties of a column that the download reads. *)
Record Column := mkColumn { key : string; header : string }.

(** An array index: the decimal text, without sign or leading zero, of an
    integer from 0 to 2^32 - 2. An object lists such keys first, in
    ascending order. *)
Definition array_index (k : string) : option Z :=
  match digits 10 k None with
  | Some n => if String.eqb (pretty n) k && (n <? 4294967295) then Some n else None
  | None => None
  end.

(** The own properties of an object in the order [Object.keys] lists them:
    array indices ascending, then the other keys as they were created. *)
Fixpoint replace_value (k : string) (v : Value) (o : Row) : option Row :=
  match o with
  | [] => None
  | (k', v') :: r =>
      if String.eqb k' k then Some ((k, v) :: r)
      else cons (k', v') <$> replace_value k v r
  end.

Fixpoint insert_index (n : Z) (k : string) (v : Value) (o : Row) : Row :=
  match o with
  | [] => [(k, v)]
  | (k', v') :: r =>
      match array_index k' with
      | Some n' => if n' <? n then (k', v') :: insert_index n k v r else (k, v) :: o
      | None => (k, v) :: o
      end
  end.

(** [o[k] = v] on an object literal: the own properties afterwards. The
    key [__proto__] makes no own property. *)
Definition assign (k : string) (v : Value) (o : Row) : Row :=
  if String.eqb k "__proto__" then o
  else
    match replace_value k v o with
    | Some o' => o'
    | None =>
        match array_index k with
        | Some n => insert_index n k v o
        | None => (o ++ [(k, v)])%list
        end
    end.

(** The callback of [filteredData.map]. *)
Definition newItem_of (columns : list Column) (item : Row) : Row :=
  fold_left
    (fun newItem column =>
       if String.eqb (key column) "actions" then newItem
       else assign (header column) (field item (key column)) newItem)
    columns [].

(** [handleDownload]: the text handed to the download, [None] when
    [exportToCSV] only warns. *)
Definition handleDownload `{Host} (columns : list Column) (filteredData : list Row)
  : option string :=
  exportToCSV (map (newItem_of columns) filteredData) None.

(** The columns that are exported. *)
Definition exported (columns : list Column) : list Column :=
  List.filter (fun column => negb (String.eqb (key column) "actions")) columns.

(** A column whose header is an ordinary property name and whose key reads
    no inherited member. *)
Definition ordinary (column : Column) : Prop :=
  array_index (header column) = None /\
  inherited (header column) = false /\
  inherited (key column) = false.

(** The row of a table as the download writes it. *)
Definition row_of (columns : list Column) (item : Row) : Row :=
  map (fun column => (header column, field item (key column))) (exported columns).

End DataTable.

(* ===================================================================== *)
(** * Part II. Properties                                                 *)
(* ===================================================================== *)

(** ** The insertion-ordered map *)

Section JsMapFacts.
Context {V : Type}.
Implicit Types (m : JsMap.t V) (k : Z) (v : V).

Lemma get_set_eq k v m : JsMap.get k (JsMap.set k v m) = Some v.
Proof.
  induction m as [|[k' v'] r IH]; simpl.
  - by rewrite Z.eqb_refl.
  - destruct (Z.eqb_spec k' k) as [->|Hne]; simpl.
    + by rewrite Z.eqb_refl.
    + destruct (Z.eqb_spec k' k); [done | exact IH].
Qed.

Lemma get_set_ne k k' v m : k <> k' -> JsMap.get k' (JsMap.set k v m) = JsMap.get k' m.
Proof.
  intros Hne. induction m as [|[k0 v0] r IH]; simpl.
  - destruct (Z.eqb_spec k k'); [done | reflexivity].
  - destruct (Z.eqb_spec k0 k) as [->|Hk]; simpl.
    + destruct (Z.eqb_spec k k'); [done | reflexivity].
    + destruct (Z.eqb_spec k0 k'); [reflexivity | exact IH].
Qed.

Lemma get_remove_eq k m : JsMap.get k (JsMap.remove k m) = None.
Proof.
  induction m as [|[k' v'] r IH]; simpl; [done |].
  destruct (Z.eqb_spec k' k) as [->|Hne]; simpl; [exact IH |].
  destruct (Z.eqb_spec k' k); [done | exact IH].
Qed.

Lemma get_remove_ne k k' m : k <> k' -> JsMap.get k' (JsMap.remove k m) = JsMap.get k' m.
Proof.
  intros Hne. induction m as [|[k0 v0] r IH]; simpl; [done |].
  destruct (Z.eqb_spec k0 k) as [->|Hk]; simpl.
  - destruct (Z.eqb_spec k k'); [done | exact IH].
  - destruct (Z.eqb_spec k0 k'); [reflexivity | exact IH].
Qed.

Lemma has_true k m : JsMap.has k m = true <-> is_Some (JsMap.get k m).
Proof.
  unfold JsMap.has. destruct (JsMap.get k m); split; intros Hx;
    try done; by destruct Hx.
Qed.

Lemma has_remove k m : JsMap.has k (JsMap.remove k m) = false.
Proof. unfold JsMap.has. by rewrite get_remove_eq. Qed.

Lemma get_Some_key k v m : JsMap.get k m = Some v -> k ∈ JsMap.keys m.
Proof.
  induction m as [|[k' v'] r IH]; simpl; [done |].
  destruct (Z.eqb_spec k' k) as [->|Hne]; intros Hg.
  - apply list_elem_of_here.
  - apply list_elem_of_further, IH, Hg.
Qed.

Lemma key_get_Some k m : k ∈ JsMap.keys m -> is_Some (JsMap.get k m).
Proof.
  induction m as [|[k' v'] r IH]; simpl.
  - intros Hin. by apply elem_of_nil in Hin.
  - intros Hin. destruct (Z.eqb_spec k' k) as [->|Hne]; [by eexists |].
    apply elem_of_cons in Hin as [->|Hin]; [done | by apply IH].
Qed.

Lemma keys_set k v m k' : k' ∈ JsMap.keys (JsMap.set k v m) <-> k' = k \/ k' ∈ JsMap.keys m.
Proof.
  induction m as [|[k0 v0] r IH]; simpl.
  - rewrite elem_of_cons. split; intros [?|?]; auto.
  - destruct (Z.eqb_spec k0 k) as [->|Hne]; simpl.
    + rewrite !elem_of_cons. tauto.
    + fold (JsMap.keys (JsMap.set k v r)) (JsMap.keys r).
      rewrite !elem_of_cons, IH. tauto.
Qed.

Lemma keys_remove k m k' : k' ∈ JsMap.keys (JsMap.remove k m) -> k' ∈ JsMap.keys m.
Proof.
  induction m as [|[k0 v0] r IH]; simpl; [done |].
  destruct (Z.eqb_spec k0 k) as [->|Hne]; simpl; rewrite ?elem_of_cons.
  - intros Hin. right. by apply IH.
  - intros [->|Hin]; [by left | right; by apply IH].
Qed.

Lemma values_set k v m v' :
  v' ∈ JsMap.values (JsMap.set k v m) -> v' = v \/ v' ∈ JsMap.values m.
Proof.
  induction m as [|[k0 v0] r IH]; simpl.
  - rewrite elem_of_cons. intros [->|Hin]; [by left | by right].
  - destruct (Z.eqb_spec k0 k) as [->|Hne]; simpl; rewrite !elem_of_cons.
    + intros [->|Hin]; [by left | right; by right].
    + intros [->|Hin]; [right; by left |].
      destruct (IH Hin) as [->|Hr]; [by left | right; by right].
Qed.

Lemma values_remove k m v' :
  v' ∈ JsMap.values (JsMap.remove k m) -> v' ∈ JsMap.values m.
Proof.
  induction m as [|[k0 v0] r IH]; simpl; [done |].
  destruct (Z.eqb_spec k0 k) as [->|Hne]; simpl; rewrite ?elem_of_cons.
  - intros Hin. right. by apply IH.
  - intros [->|Hin]; [by left | right; by apply IH].
Qed.

Lemma set_length_existing k v v0 m :
  JsMap.get k m = Some v0 -> length (JsMap.set k v m) = length m.
Proof.
  induction m as [|[k' v'] r IH]; simpl; [done |].
  destruct (Z.eqb_spec k' k) as [->|Hne]; simpl; [done |].
  intros Hg. by rewrite IH.
Qed.

Lemma keys_set_existing k v v0 m :
  JsMap.get k m = Some v0 -> JsMap.keys (JsMap.set k v m) = JsMap.keys m.
Proof.
  induction m as [|[k' v'] r IH]; simpl; [done |].
  destruct (Z.eqb_spec k' k) as [->|Hne]; simpl; [done |].
  intros Hg. f_equal. by apply IH.
Qed.

Lemma keys_set_new k v m :
  JsMap.get k m = None -> JsMap.keys (JsMap.set k v m) = (JsMap.keys m ++ [k])%list.
Proof.
  induction m as [|[k' v'] r IH]; simpl; [done |].
  destruct (Z.eqb_spec k' k) as [->|Hne]; [done |].
  intros Hg. simpl. f_equal. by apply IH.
Qed.

(** The keys of a map stay distinct. *)
Lemma NoDup_keys_set k v m : NoDup (JsMap.keys m) -> NoDup (JsMap.keys (JsMap.set k v m)).
Proof.
  intros Hnd. destruct (JsMap.get k m) as [v0|] eqn:Hget.
  - by rewrite (keys_set_existing _ _ _ _ Hget).
  - rewrite (keys_set_new _ _ _ Hget). apply NoDup_app. split_and!; [done | |].
    + intros k' Hin [->|Hnil]%elem_of_cons; [|by apply elem_of_nil in Hnil].
      apply key_get_Some in Hin as [? Hsome]. congruence.
    + apply NoDup_singleton.
Qed.

Lemma NoDup_keys_remove k m : NoDup (JsMap.keys m) -> NoDup (JsMap.keys (JsMap.remove k m)).
Proof.
  induction m as [|[k0 v0] r IH]; simpl; [done |].
  intros [Hnotin Hnd]%NoDup_cons.
  destruct (Z.eqb_spec k0 k) as [->|Hne]; simpl; [by apply IH |].
  apply NoDup_cons. split; [|by apply IH].
  intros Hin. by apply Hnotin, keys_remove with k.
Qed.

End JsMapFacts.

(** ** The fields of the store *)

Lemma store_of_with_store e e' m s :
  store_of e' (with_store e m s) = if decide (e' = e) then m else store_of e' s.
Proof. destruct e, e'; reflexivity. Qed.

Lemma counter_of_with_store e e' m s :
  counter_of e' (with_store e m s) = counter_of e' s.
Proof. destruct e, e'; reflexivity. Qed.

Lemma store_of_with_counter e e' n s :
  store_of e' (with_counter e n s) = store_of e' s.
Proof. destruct e, e'; reflexivity. Qed.

Lemma counter_of_with_counter e e' n s :
  counter_of e' (with_counter e n s) = if decide (e' = e) then n else counter_of e' s.
Proof. destruct e, e'; reflexivity. Qed.

Lemma store_of_same e m s : store_of e (with_store e m s) = m.
Proof. rewrite store_of_with_store. by destruct (decide (e = e)). Qed.

Lemma store_of_other e e' m s : e' <> e -> store_of e' (with_store e m s) = store_of e' s.
Proof. intros Hne. rewrite store_of_with_store. by destruct (decide (e' = e)). Qed.

(** Each call runs the body its shape names. *)
Lemma exec_shape_eq c : exec c = exec_shape (shape c).
Proof. destruct c; reflexivity. Qed.

Lemma update_of_shape e upd :
  update_of e = Some upd -> upd = update_in e.
Proof. destruct e; simpl; intros Heq; by inversion Heq. Qed.

Lemma delete_of_shape e del :
  delete_of e = Some del -> del = delete_in e.
Proof. destruct e; simpl; intros Heq; by inversion Heq. Qed.

Lemma get_of_shape e get :
  get_of e = Some get -> get = fun id s => JsMap.get id (store_of e s).
Proof. destruct e; simpl; intros Heq; by inversion Heq. Qed.

(** ** C5: delete *)

(** C5. For each collection that has a delete method and every identifier,
    the method returns true exactly when the map held a record under that
    identifier and false exactly when it held none; afterwards the
    identifier is absent from the map, the get method of the collection (if
    it has one) returns nothing for it, a second delete returns false, and
    every other identifier and every other collection reads as before. *)
Theorem delete_reports_existence (e : Entity) (del : Z -> M bool) (id : Z)
    (s : MemStorage) :
  delete_of e = Some del ->
  ((del id s).1 = true <-> is_Some (JsMap.get id (store_of e s))) /\
  ((del id s).1 = false <-> JsMap.get id (store_of e s) = None) /\
  JsMap.get id (store_of e (del id s).2) = None /\
  (forall get, get_of e = Some get -> get id (del id s).2 = None) /\
  (del id (del id s).2).1 = false /\
  (forall id', id' <> id ->
     JsMap.get id' (store_of e (del id s).2) = JsMap.get id' (store_of e s)) /\
  (forall e', e' <> e -> store_of e' (del id s).2 = store_of e' s) /\
  (forall e', counter_of e' (del id s).2 = counter_of e' s).
Proof.
  intros Hdel. apply delete_of_shape in Hdel as ->.
  unfold delete_in; simpl.
  rewrite !store_of_same.
  split_and!.
  - apply has_true.
  - unfold JsMap.has. by destruct (JsMap.get id (store_of e s)).
  - apply get_remove_eq.
  - intros get Hget. apply get_of_shape in Hget as ->.
    rewrite store_of_same. apply get_remove_eq.
  - apply has_remove.
  - intros id' Hne. by apply get_remove_ne.
  - intros e' Hne. by apply store_of_other.
  - intros e'. apply counter_of_with_store.
Qed.

(** ** C3: update *)

(** C3. For each collection that has an update method: when a record is
    stored under the identifier, the method returns that record with exactly
    the fields of the patch replaced (a field of the patch reads as in the
    patch, any other field as before) and stores it under the same
    identifier, leaving every other record, the set of identifiers, the
    other collections and the counters as they were; when no record is
    stored under the identifier it returns nothing and the store is the
    same. *)
Theorem update_merges (e : Entity) (upd : Z -> Obj -> M (option Obj)) (id : Z)
    (p : Obj) (s : MemStorage) :
  update_of e = Some upd ->
  match JsMap.get id (store_of e s) with
  | Some r =>
      exists r',
        (upd id p s).1 = Some r' /\
        (forall f, is_Some (p !! f) -> r' !! f = p !! f) /\
        (forall f, p !! f = None -> r' !! f = r !! f) /\
        JsMap.get id (store_of e (upd id p s).2) = Some r' /\
        (forall id', id' <> id ->
           JsMap.get id' (store_of e (upd id p s).2) = JsMap.get id' (store_of e s)) /\
        JsMap.keys (store_of e (upd id p s).2) = JsMap.keys (store_of e s) /\
        (forall e', e' <> e -> store_of e' (upd id p s).2 = store_of e' s) /\
        (forall e', counter_of e' (upd id p s).2 = counter_of e' s)
  | None => upd id p s = (None, s)
  end.
Proof.
  intros Hupd. apply update_of_shape in Hupd as ->.
  unfold update_in.
  destruct (JsMap.get id (store_of e s)) as [r|] eqn:Hget; [|reflexivity].
  exists (spread r p). simpl. rewrite store_of_same.
  split_and!; [reflexivity | ..].
  - intros f [v Hv]. unfold spread. rewrite Hv.
    by apply lookup_union_Some_l.
  - intros f Hnone. unfold spread. by apply lookup_union_r.
  - apply get_set_eq.
  - intros id' Hne. apply get_set_ne. congruence.
  - by apply keys_set_existing with r.
  - intros e' Hne. by apply store_of_other.
  - intros e'. apply counter_of_with_store.
Qed.

(** ** C6: identifiers *)

Lemma id_of_stamped now id d : id_of (stamped now (<["id" := VNum id]> d)) = Some id.
Proof.
  unfold id_of, prop, stamped. destruct now as [t|].
  - rewrite lookup_insert_ne by done. by rewrite lookup_insert_eq.
  - by rewrite lookup_insert_eq.
Qed.

(** What one call does to the counters and the keys. *)
Lemma exec_shape_counter_mono sh s e :
  counter_of e s <= counter_of e (exec_shape sh s).2.
Proof.
  destruct sh as [e0 now d|e0 id d|e0 id]; simpl.
  - unfold fmap, M_fmap, create_in; simpl.
    rewrite counter_of_with_store, counter_of_with_counter.
    destruct (decide (e = e0)) as [->|]; lia.
  - unfold fmap, M_fmap, update_in.
    destruct (JsMap.get id (store_of e0 s)); simpl;
      rewrite ?counter_of_with_store; lia.
  - unfold fmap, M_fmap, delete_in; simpl.
    rewrite counter_of_with_store. lia.
Qed.

Lemma exec_shape_keys_below sh s :
  keys_below_counter s -> keys_below_counter (exec_shape sh s).2.
Proof.
  intros Hinv e k.
  destruct sh as [e0 now d|e0 id d|e0 id]; simpl.
  - unfold fmap, M_fmap, create_in; simpl.
    rewrite store_of_with_store, counter_of_with_store,
      store_of_with_counter, counter_of_with_counter.
    destruct (decide (e = e0)) as [->|Hne].
    + rewrite keys_set. intros [->|Hin]; [lia |].
      specialize (Hinv _ _ Hin). lia.
    + rewrite ?store_of_with_counter. apply Hinv.
  - unfold fmap, M_fmap, update_in.
    destruct (JsMap.get id (store_of e0 s)) as [r|] eqn:Hget; simpl; [|apply Hinv].
    rewrite store_of_with_store, counter_of_with_store.
    destruct (decide (e = e0)) as [->|Hne]; [|apply Hinv].
    rewrite (keys_set_existing _ _ _ _ Hget). apply Hinv.
  - unfold fmap, M_fmap, delete_in; simpl.
    rewrite store_of_with_store, counter_of_with_store.
    destruct (decide (e = e0)) as [->|Hne]; [|apply Hinv].
    intros Hin. apply keys_remove in Hin. by apply Hinv.
Qed.

Lemma exec_counter_mono c s e : counter_of e s <= counter_of e (exec c s).2.
Proof. rewrite exec_shape_eq. apply exec_shape_counter_mono. Qed.

Lemma exec_keys_below c s :
  keys_below_counter s -> keys_below_counter (exec c s).2.
Proof. rewrite exec_shape_eq. apply exec_shape_keys_below. Qed.

(** A create call hands out the counter and advances it by one. *)
Lemma exec_created c s e a :
  created_id e (c, (exec c s).1) = Some a ->
  a = counter_of e s /\ counter_of e (exec c s).2 = a + 1.
Proof.
  destruct c; simpl; try discriminate;
    (destruct (decide (e = _)) as [->|]; [|discriminate]);
    match goal with
    | |- id_of (<["id" := VNum ?id]> ?d) = _ -> _ =>
        change (<["id" := VNum id]> d) with (stamped None (<["id" := VNum id]> d))
    | |- id_of (<["timestamp" := VDate (Some ?t)]> (<["id" := VNum ?id]> ?d)) = _ -> _ =>
        change (<["timestamp" := VDate (Some t)]> (<["id" := VNum id]> d))
          with (stamped (Some t) (<["id" := VNum id]> d))
    end;
    rewrite id_of_stamped; intros [= <-]; done.
Qed.

(** A delete call that returns true removes a key of the map. *)
Lemma exec_deleted c s e a :
  deleted_id e (c, (exec c s).1) = Some a -> a ∈ JsMap.keys (store_of e s).
Proof.
  destruct c; simpl; try discriminate;
    match goal with
    | |- context [JsMap.has ?id ?m] =>
        destruct (JsMap.has id m) eqn:Hhas; [|discriminate]
    end;
    (destruct (decide (e = _)) as [->|]; [|discriminate]);
    intros [= <-]; simpl;
    apply has_true in Hhas as [v Hv]; by apply get_Some_key in Hv.
Qed.

Lemma run_cons c cs s :
  run (c :: cs) s =
  ((c, (exec c s).1) :: (run cs (exec c s).2).1, (run cs (exec c s).2).2).
Proof.
  simpl. destruct (exec c s) as [x s1]. simpl.
  by destruct (run cs s1) as [tr s2].
Qed.

Lemma keys_below_counter_empty : keys_below_counter MemStorage_empty.
Proof. intros e k. destruct e; simpl; intros Hin; by apply elem_of_nil in Hin. Qed.

(** The association list is a faithful [Map] in every state the calls lead
    to: no key occurs twice, and every key is below its counter. *)
Lemma reachable_well_formed s :
  reachable s ->
  keys_below_counter s /\ forall e, NoDup (JsMap.keys (store_of e s)).
Proof.
  induction 1 as [|c s Hs [IHk IHn] Hclock].
  - split; [apply keys_below_counter_empty |]. intros e. destruct e; constructor.
  - split; [by apply exec_keys_below |].
    intros e. rewrite exec_shape_eq.
    destruct (shape c) as [e0 now d|e0 id d|e0 id]; simpl.
    + unfold fmap, M_fmap, create_in; simpl.
      rewrite store_of_with_store, ?store_of_with_counter.
      destruct (decide (e = e0)) as [->|Hne]; [|by rewrite ?store_of_with_counter].
      by apply NoDup_keys_set.
    + unfold fmap, M_fmap, update_in.
      destruct (JsMap.get id (store_of e0 s)); simpl; [|done].
      rewrite store_of_with_store.
      destruct (decide (e = e0)) as [->|Hne]; [|done].
      by apply NoDup_keys_set.
    + unfold fmap, M_fmap, delete_in; simpl.
      rewrite store_of_with_store.
      destruct (decide (e = e0)) as [->|Hne]; [|done].
      by apply NoDup_keys_remove.
Qed.

(** An identifier created anywhere in a history is at least the counter the
    history started from. *)
Lemma run_created_lower cs : forall s e j ev b,
  (run cs s).1 !! j = Some ev -> created_id e ev = Some b -> counter_of e s <= b.
Proof.
  induction cs as [|c cs IH]; intros s e j ev b Hj Hb.
  - by destruct j.
  - rewrite run_cons in Hj. destruct j as [|j]; simpl in Hj.
    + injection Hj as <-. apply exec_created in Hb as [-> _]. lia.
    + pose proof (IH _ _ _ _ _ Hj Hb) as Hle.
      pose proof (exec_counter_mono c s e). lia.
Qed.

(** C6. In the history of any sequence of calls on a new store, an
    identifier handed out by a create call on a collection is greater than
    (so different from) every identifier an earlier create call on that
    collection handed out and every identifier an earlier successful delete
    call on that collection removed. *)
Theorem identifiers_never_repeat (cs : list Call) (e : Entity) (i j : nat)
    (evi evj : Call * Ret) (a b : Z) :
  (run cs MemStorage_empty).1 !! i = Some evi ->
  (run cs MemStorage_empty).1 !! j = Some evj ->
  (i < j)%nat ->
  created_id e evi = Some a \/ deleted_id e evi = Some a ->
  created_id e evj = Some b ->
  a < b /\ a <> b.
Proof.
  assert (Hgen : forall cs s i j,
    keys_below_counter s ->
    (run cs s).1 !! i = Some evi -> (run cs s).1 !! j = Some evj -> (i < j)%nat ->
    created_id e evi = Some a \/ deleted_id e evi = Some a ->
    created_id e evj = Some b -> a < b).
  { clear cs i j. induction cs as [|c cs IH]; intros s i j Hinv Hi Hj Hlt Ha Hb.
    - by destruct i.
    - rewrite run_cons in Hi, Hj.
      destruct j as [|j]; [lia |]. simpl in Hj.
      destruct i as [|i]; simpl in Hi.
      + injection Hi as <-.
        pose proof (run_created_lower _ _ _ _ _ _ Hj Hb) as Hle.
        destruct Ha as [Ha|Ha].
        * apply exec_created in Ha as [-> Hnext]. lia.
        * apply exec_deleted in Ha. apply Hinv in Ha.
          pose proof (exec_counter_mono c s e). lia.
      + apply (IH (exec c s).2 i j); auto using exec_keys_below. lia. }
  intros Hi Hj Hlt Ha Hb.
  assert (a < b) by (eapply Hgen; eauto using keys_below_counter_empty).
  split; lia.
Qed.

(** ** C1: the attendance rate *)

Lemma is_present_or_late_count a :
  (if is_present_or_late a then 1 else 0) =
  match a !! "status" with
  | Some (VStr st) => if bool_decide (st ∈ ["present"; "late"]) then 1 else 0
  | _ => 0
  end.
Proof.
  unfold is_present_or_late, prop.
  destruct (a !! "status") as [[| |b|n|st|tv|xs]|]; try reflexivity.
  case_bool_decide as Hin; simpl.
  - apply elem_of_cons in Hin as [->|Hin]; [reflexivity |].
    apply elem_of_cons in Hin as [->|Hin]; [reflexivity |].
    by apply elem_of_nil in Hin.
  - destruct (String.eqb_spec st "present") as [->|Hp];
      [exfalso; apply Hin; set_solver |].
    destruct (String.eqb_spec st "late") as [->|Hl];
      [exfalso; apply Hin; set_solver | reflexivity].
Qed.

Lemma count_status_filter records :
  count_status ["present"; "late"] records =
  Z.of_nat (length (List.filter is_present_or_late records)).
Proof.
  induction records as [|a rest IH]; [reflexivity |].
  cbn [count_status List.filter]. rewrite <- is_present_or_late_count, IH.
  destruct (is_present_or_late a); simpl length; lia.
Qed.

(** *** The arithmetic of doubles

    Every operation rounds its exact result to the nearest double, a tie
    going to the even mantissa. What follows derives, from the definition
    of that rounding, that an integer below [2 ^ 53] is a double, and that
    a product or a quotient of normal doubles is within [2 ^ -53] of the
    exact one, relatively. *)

Section Binary64.

Lemma digits2_pos_bounds m :
  2 ^ (Z.pos (digits2_pos m) - 1) <= Z.pos m < 2 ^ Z.pos (digits2_pos m).
Proof.
  induction m as [m IH|m IH|]; cbn [digits2_pos]; [| |simpl; lia].
  - rewrite Pos2Z.inj_succ, (Pos2Z.inj_xI m).
    replace (Z.succ (Z.pos (digits2_pos m)) - 1)
      with (Z.succ (Z.pos (digits2_pos m) - 1)) by lia.
    rewrite !Z.pow_succ_r by lia. lia.
  - rewrite Pos2Z.inj_succ, (Pos2Z.inj_xO m).
    replace (Z.succ (Z.pos (digits2_pos m)) - 1)
      with (Z.succ (Z.pos (digits2_pos m) - 1)) by lia.
    rewrite !Z.pow_succ_r by lia. lia.
Qed.

Lemma digits2_pos_unique m d :
  2 ^ (d - 1) <= Z.pos m < 2 ^ d -> Z.pos (digits2_pos m) = d.
Proof.
  intros [Hlo Hhi]. pose proof (digits2_pos_bounds m) as [Hlo' Hhi'].
  assert (0 < d).
  { destruct (Z.lt_trichotomy d 0) as [Hd|[->|Hd]]; [|simpl in Hhi; lia|done].
    rewrite Z.pow_neg_r in Hhi by lia. lia. }
  destruct (Z.lt_trichotomy (Z.pos (digits2_pos m)) d) as [Hlt|[Heq|Hgt]]; [|done|].
  - assert (2 ^ Z.pos (digits2_pos m) <= 2 ^ (d - 1)) by (apply Z.pow_le_mono_r; lia).
    lia.
  - assert (2 ^ d <= 2 ^ (Z.pos (digits2_pos m) - 1)) by (apply Z.pow_le_mono_r; lia).
    lia.
Qed.

(** [Pos.iter xO m k]: [m] with [k] zero bits appended. *)
Lemma iter_xO m k : Z.pos (Pos.iter xO m k) = Z.pos m * 2 ^ Z.pos k.
Proof.
  induction k as [|k IH] using Pos.peano_ind.
  - simpl. lia.
  - rewrite Pos.iter_succ, Pos2Z.inj_xO, IH, Pos2Z.inj_succ, Z.pow_succ_r by lia. lia.
Qed.

(** [iter_pos f p] applies [f] [p] times. *)
Lemma iter_pos_invariant {A} (f : A -> A) (P : Z -> A -> Prop) :
  (forall k x, 0 <= k -> P k x -> P (k + 1) (f x)) ->
  forall p k x, 0 <= k -> P k x -> P (k + Z.pos p) (SpecFloat.iter_pos f p x).
Proof.
  intros Hstep. induction p as [p IH|p IH|]; intros k x Hk Hx; cbn [SpecFloat.iter_pos].
  - replace (k + Z.pos p~1) with (k + 1 + Z.pos p + Z.pos p) by lia.
    apply IH; [lia |]. apply IH; [lia |]. by apply Hstep.
  - replace (k + Z.pos p~0) with (k + Z.pos p + Z.pos p) by lia.
    apply IH; [lia |]. by apply IH.
  - by apply Hstep.
Qed.

Lemma shr_1_located N den mrs :
  located N den mrs -> located N (2 * den) (shr_1 mrs).
Proof.
  intros (Hden & Hm & r & Hr & HN & Hrb & Hsb).
  destruct mrs as [m rb sb]. cbn [shr_m shr_r shr_s] in *.
  assert (Hor : rb || sb = negb (r =? 0)) by (rewrite Hrb, Hsb; lia).
  assert (Hcase : exists h b, (b = 0 \/ b = 1) /\ m = 2 * h + b /\ 0 <= h /\
                    shr_1 (Build_shr_record m rb sb)
                    = Build_shr_record h (b =? 1) (rb || sb)).
  { destruct m as [|[m|m|]|m]; cbn [shr_1]; try lia.
    - exists 0, 0. split_and!; try lia; auto.
    - exists (Z.pos m), 1. rewrite (Pos2Z.inj_xI m). split_and!; try lia; auto.
    - exists (Z.pos m), 0. rewrite (Pos2Z.inj_xO m). split_and!; try lia; auto.
    - exists 0, 1. split_and!; try lia; auto. }
  destruct Hcase as (h & b & Hb & -> & Hh & ->).
  split; [lia |]. split; [done |]. cbn [shr_m shr_r shr_s].
  exists (b * den + r). rewrite Hor.
  destruct Hb as [-> | ->]; split_and!; lia.
Qed.

Lemma iter_shr_1_located N den mrs p :
  located N den mrs -> located N (2 ^ Z.pos p * den) (SpecFloat.iter_pos shr_1 p mrs).
Proof.
  intros Hloc.
  pose proof (iter_pos_invariant shr_1 (fun k mrs => located N (2 ^ k * den) mrs)) as Hiter.
  cbv beta in Hiter. apply (Hiter) with (k := 0) (p := p) (x := mrs); [|lia|].
  - intros k x Hk Hx. rewrite Z.pow_add_r, Z.pow_1_r by lia.
    replace (2 ^ k * 2 * den) with (2 * (2 ^ k * den)) by lia.
    by apply shr_1_located.
  - by rewrite Z.pow_0_r, Z.mul_1_l.
Qed.

Lemma shr_located N den mrs e n :
  located N den mrs -> 0 <= n ->
  exists mrs', shr mrs e n = (mrs', e + n) /\ located N (2 ^ n * den) mrs'.
Proof.
  intros Hloc Hn. destruct n as [|p|p]; [| |lia].
  - exists mrs. split; [simpl; f_equal; lia |]. by rewrite Z.pow_0_r, Z.mul_1_l.
  - exists (SpecFloat.iter_pos shr_1 p mrs). split; [done |].
    by apply iter_shr_1_located.
Qed.

Lemma shr_record_of_loc_m m l : shr_m (shr_record_of_loc m l) = m.
Proof. by destruct l as [|[]]. Qed.

(** Rounding to nearest, ties to even: the result is within half a unit
    of the number. *)
Lemma round_nearest_even_located N den mrs :
  located N den mrs ->
  exists mr, round_nearest_even (shr_m mrs) (loc_of_shr_record mrs) = mr /\
             shr_m mrs <= mr <= shr_m mrs + 1 /\
             2 * Z.abs (mr * den - N) <= den.
Proof.
  intros (Hden & Hm & r & Hr & HN & Hrb & Hsb).
  destruct mrs as [m rb sb]. cbn [shr_m shr_r shr_s] in *.
  eexists. split; [reflexivity |].
  destruct rb, sb; cbn [loc_of_shr_record round_nearest_even];
    try destruct (Z.even m); split; lia.
Qed.

Lemma fexp_normal e : -1074 <= e - 53 -> fexp prec emax e = e - 53.
Proof. unfold fexp, SpecFloat.emin, prec, emax. lia. Qed.

(** The rounding that ends every operation, on a number of at least 53
    bits in the range of the normal numbers: the result has 53 bits and is
    within [2 ^ -53] of the number, relatively. *)
Lemma binary_round_aux_located s mx ex lx N den :
  located N den (shr_record_of_loc mx lx) ->
  0 < mx -> 53 <= Zdigits2 mx ->
  -1074 <= Zdigits2 mx + ex - 53 -> Zdigits2 mx + ex <= 1023 ->
  exists m' n,
    binary_round_aux prec emax s mx ex lx = S754_finite s m' (ex + n) /\
    (n = Zdigits2 mx - 53 \/ n = Zdigits2 mx - 52) /\
    Z.pos (digits2_pos m') = 53 /\
    2 ^ 53 * Z.abs (Z.pos m' * 2 ^ n * den - N) <= N.
Proof.
  intros Hloc Hmx Hd Hlo Hhi.
  destruct mx as [|mx|mx]; [lia | | lia].
  cbn [Zdigits2] in *. set (d := Z.pos (digits2_pos mx)) in *.
  pose proof (digits2_pos_bounds mx) as Hbits. fold d in Hbits.
  unfold binary_round_aux, shr_fexp. cbn [Zdigits2]. fold d.
  rewrite fexp_normal by lia.
  destruct (shr_located N den _ ex (d + ex - 53 - ex) Hloc ltac:(lia))
    as (mrs1 & -> & Hloc1).
  replace (d + ex - 53 - ex) with (d - 53) in * by lia.
  set (n0 := d - 53) in *. set (D1 := 2 ^ n0 * den) in *.
  assert (Hpow : 2 ^ (d - 1) = 2 ^ 52 * 2 ^ n0 /\ 2 ^ d = 2 ^ 53 * 2 ^ n0).
  { unfold n0. rewrite <- !Z.pow_add_r by lia. split; f_equal; lia. }
  destruct Hpow as [Hpow1 Hpow2].
  assert (H2n : 0 < 2 ^ n0) by (apply Z.pow_pos_nonneg; lia).
  destruct (round_nearest_even_located N D1 mrs1 Hloc1) as (mr & -> & Hmr & Herr).
  destruct Hloc as (Hden & _ & r0 & Hr0 & HN0 & _).
  rewrite shr_record_of_loc_m in HN0.
  destruct Hloc1 as (HD1 & Hm1 & r1 & Hr1 & HN1 & _).
  assert (HNlo : 2 ^ 52 * D1 <= N) by (unfold D1; nia).
  assert (HNhi : N < 2 ^ 53 * D1) by (unfold D1; nia).
  assert (Hm1lo : 2 ^ 52 <= shr_m mrs1) by nia.
  assert (Hm1hi : shr_m mrs1 < 2 ^ 53) by nia.
  destruct mr as [|mr|mr]; [lia | | lia].
  destruct (Z.eq_dec (Z.pos mr) (2 ^ 53)) as [Hcarry|Hnocarry].
  - assert (Hdigits : Z.pos (digits2_pos mr) = 54).
    { apply digits2_pos_unique. lia. }
    cbn [Zdigits2]. rewrite Hdigits. rewrite fexp_normal by lia.
    replace (54 + (ex + n0) - 53 - (ex + n0)) with 1 by lia.
    assert (Hexact : located (Z.pos mr) 1 (shr_record_of_loc (Z.pos mr) loc_Exact)).
    { split; [lia |]. split; [simpl; lia |]. exists 0. simpl. split_and!; lia. }
    destruct (shr_located _ _ _ (ex + n0) 1 Hexact ltac:(lia))
      as (mrs2 & -> & _ & Hm2 & r2 & Hr2 & HN2 & _).
    assert (Hm2' : shr_m mrs2 = 2 ^ 52) by lia.
    rewrite Hm2'. change (2 ^ 52) with (Z.pos 4503599627370496). cbv beta iota.
    exists (4503599627370496%positive), (n0 + 1).
    split_and!.
    + replace (ex + n0 + 1 <=? emax - prec) with true
        by (symmetry; apply Z.leb_le; unfold emax, prec; lia).
      f_equal; lia.
    + right. lia.
    + reflexivity.
    + rewrite Z.pow_add_r, Z.pow_1_r by lia.
      replace (4503599627370496 * (2 ^ n0 * 2) * den) with (2 ^ 53 * D1)
        by (unfold D1; lia).
      rewrite Hcarry in Herr. lia.
  - assert (Hdigits : Z.pos (digits2_pos mr) = 53).
    { apply digits2_pos_unique. lia. }
    cbn [Zdigits2]. rewrite Hdigits.
    exists mr, n0. split_and!.
    + rewrite fexp_normal by lia.
      replace (53 + (ex + n0) - 53 - (ex + n0)) with 0 by lia.
      cbn [shr shr_record_of_loc shr_m].
      replace (ex + n0 <=? emax - prec) with true
        by (symmetry; apply Z.leb_le; unfold emax, prec; lia).
      reflexivity.
    + left. lia.
    + done.
    + replace (Z.pos mr * 2 ^ n0 * den) with (Z.pos mr * D1) by (unfold D1; lia).
      lia.
Qed.

Lemma located_exact m : 0 <= m -> located m 1 (shr_record_of_loc m loc_Exact).
Proof.
  intros Hm. split; [lia |]. split; [done |]. exists 0. simpl. split_and!; lia.
Qed.

Lemma new_location_located q den r :
  0 <= q -> 0 < den -> 0 <= r < den ->
  located (q * den + r) den (shr_record_of_loc q (new_location den r)).
Proof.
  intros Hq Hden Hr. split; [done |]. split; [by rewrite shr_record_of_loc_m |].
  exists r. rewrite shr_record_of_loc_m. split; [done |]. split; [done |].
  unfold new_location.
  destruct (Z.even den) eqn:Heven; unfold new_location_even, new_location_odd;
    (destruct (r =? 0) eqn:Hnz;
     [apply Z.eqb_eq in Hnz as ->; cbn [shr_record_of_loc shr_r shr_s]; split; lia |]);
    apply Z.eqb_neq in Hnz.
  - destruct (Z.compare_spec (2 * r) den); cbn [shr_record_of_loc shr_r shr_s]; split; lia.
  - assert (Hodd : Z.odd den = true) by (by rewrite <- Z.negb_even, Heven).
    apply Z.odd_spec in Hodd as [h ->].
    destruct (Z.compare_spec (2 * r + 1) (2 * h + 1));
      cbn [shr_record_of_loc shr_r shr_s]; split; lia.
Qed.

Lemma normal_bounds x m e : normal x m e -> 2 ^ 52 <= Z.pos m < 2 ^ 53.
Proof.
  intros [_ Hd]. pose proof (digits2_pos_bounds m) as Hb. rewrite Hd in Hb. exact Hb.
Qed.

Lemma valid_binary_normal s m e :
  Z.pos (digits2_pos m) = 53 -> -1074 <= e <= 971 ->
  valid_binary (S754_finite s m e) = true.
Proof.
  intros Hd He. unfold SpecFloat.valid_binary, bounded, canonical_mantissa.
  rewrite Hd, fexp_normal by lia. apply andb_true_iff. split.
  - apply Z.eqb_eq. lia.
  - apply Z.leb_le. unfold emax, prec. lia.
Qed.

(** A mantissa of 53 bits is not rounded. *)
Lemma binary_round_aux_canonical s m e :
  Z.pos (digits2_pos m) = 53 -> -1074 <= e <= 971 ->
  binary_round_aux prec emax s (Z.pos m) e loc_Exact = S754_finite s m e.
Proof.
  intros Hd He. unfold binary_round_aux, shr_fexp. cbn [Zdigits2]. rewrite Hd.
  rewrite fexp_normal by lia. replace (53 + e - 53 - e) with 0 by lia.
  cbn [shr shr_record_of_loc shr_m round_nearest_even loc_of_shr_record Zdigits2].
  rewrite Hd. rewrite fexp_normal by lia. replace (53 + e - 53 - e) with 0 by lia.
  cbn [shr shr_record_of_loc shr_m].
  replace (e <=? emax - prec) with true
    by (symmetry; apply Z.leb_le; unfold emax, prec; lia).
  reflexivity.
Qed.

(** An integer below [2 ^ 53] is a double: [of_Z] is exact there. *)
Lemma of_Z_normal p :
  0 < p < 2 ^ 53 ->
  exists m e, normal (of_Z p) m e /\ -52 <= e <= 0 /\ Z.pos m = p * 2 ^ (- e).
Proof.
  intros Hp. destruct p as [|p|p]; [lia | | lia].
  pose proof (digits2_pos_bounds p) as Hb.
  set (d := Z.pos (digits2_pos p)) in *.
  assert (Hd : 1 <= d <= 53).
  { split; [unfold d; lia |].
    destruct (Z.le_gt_cases d 53) as [|Hgt]; [done |].
    assert (2 ^ 53 <= 2 ^ (d - 1)) by (apply Z.pow_le_mono_r; lia). lia. }
  unfold of_Z, binary_normalize, binary_round. fold d.
  replace (fexp prec emax (d + 0)) with (d - 53) by (rewrite fexp_normal; lia).
  unfold shl_align.
  destruct (d - 53 - 0) as [|k|k] eqn:Hk; [| lia |].
  - assert (Hd53 : Z.pos (digits2_pos p) = 53) by (fold d; lia).
    rewrite binary_round_aux_canonical by (done || lia).
    exists p, 0. split; [split; [|done] |].
    { apply Prim2SF_SF2Prim, valid_binary_normal; done || lia. }
    split; [lia |]. simpl. lia.
  - assert (Hpos : Z.pos (Pos.iter xO p k) = Z.pos p * 2 ^ (53 - d)).
    { rewrite iter_xO. f_equal. f_equal. lia. }
    assert (Hd53 : Z.pos (digits2_pos (Pos.iter xO p k)) = 53).
    { apply digits2_pos_unique. rewrite Hpos.
      replace (2 ^ (53 - 1)) with (2 ^ (d - 1) * 2 ^ (53 - d))
        by (rewrite <- Z.pow_add_r by lia; f_equal; lia).
      replace (2 ^ 53) with (2 ^ d * 2 ^ (53 - d))
        by (rewrite <- Z.pow_add_r by lia; f_equal; lia).
      assert (0 < 2 ^ (53 - d)) by (apply Z.pow_pos_nonneg; lia). nia. }
    rewrite binary_round_aux_canonical by (done || lia).
    exists (Pos.iter xO p k), (d - 53). split; [split; [|done] |].
    { apply Prim2SF_SF2Prim, valid_binary_normal; done || lia. }
    split; [lia |]. rewrite Hpos. f_equal. f_equal. lia.
Qed.

(** The product of two normal doubles, in the range of the normal
    numbers. *)
Lemma mul_normal x y mx ex my ey :
  normal x mx ex -> normal y my ey -> -1000 <= ex + ey <= 800 ->
  exists m n,
    normal (x * y) m (ex + ey + n) /\ 52 <= n <= 54 /\
    2 ^ 53 * Z.abs (Z.pos m * 2 ^ n - Z.pos mx * Z.pos my) <= Z.pos mx * Z.pos my.
Proof.
  intros Hx Hy He.
  pose proof (normal_bounds _ _ _ Hx) as Hbx. pose proof (normal_bounds _ _ _ Hy) as Hby.
  destruct Hx as [Hx _], Hy as [Hy _].
  pose proof (digits2_pos_bounds (mx * my)) as Hb.
  set (d := Z.pos (digits2_pos (mx * my))) in *.
  rewrite Pos2Z.inj_mul in Hb.
  assert (Hd : 105 <= d <= 106).
  { assert (2 ^ 104 <= Z.pos mx * Z.pos my < 2 ^ 106).
    { change (2 ^ 104) with (2 ^ 52 * 2 ^ 52). change (2 ^ 106) with (2 ^ 53 * 2 ^ 53).
      nia. }
    split.
    - destruct (Z.le_gt_cases 105 d) as [|Hlt]; [done |].
      assert (2 ^ d <= 2 ^ 104) by (apply Z.pow_le_mono_r; lia). lia.
    - destruct (Z.le_gt_cases d 106) as [|Hgt]; [done |].
      assert (2 ^ 106 <= 2 ^ (d - 1)) by (apply Z.pow_le_mono_r; lia). lia. }
  destruct (binary_round_aux_located (xorb false false) (Z.pos (mx * my)) (ex + ey)
              loc_Exact (Z.pos (mx * my)) 1)
    as (m & n & Hround & Hn & Hdigits & Herr).
  - by apply located_exact.
  - lia.
  - cbn [Zdigits2]. fold d. lia.
  - cbn [Zdigits2]. fold d. lia.
  - cbn [Zdigits2]. fold d. lia.
  - cbn [Zdigits2] in Hn. fold d in Hn.
    exists m, n. split; [|split; [lia |]].
    + split; [|done]. rewrite mul_spec, Hx, Hy. exact Hround.
    + rewrite Z.mul_1_r, Pos2Z.inj_mul in Herr. exact Herr.
Qed.

(** The quotient of two normal doubles, in the range of the normal
    numbers. *)
Lemma div_normal x y mx ex my ey :
  normal x mx ex -> normal y my ey -> -1000 <= ex - ey <= 1000 ->
  exists m n,
    normal (x / y) m (ex - ey - 53 + n) /\ 0 <= n <= 2 /\
    2 ^ 53 * Z.abs (Z.pos m * 2 ^ n * Z.pos my - Z.pos mx * 2 ^ 53)
    <= Z.pos mx * 2 ^ 53.
Proof.
  intros Hx Hy He.
  pose proof (normal_bounds _ _ _ Hx) as Hbx. pose proof (normal_bounds _ _ _ Hy) as Hby.
  destruct Hx as [Hx Hdx], Hy as [Hy Hdy].
  assert (Hcore : SFdiv_core_binary prec emax (Z.pos mx) ex (Z.pos my) ey
                  = (Z.pos mx * 2 ^ 53 / Z.pos my, ex - ey - 53,
                     new_location (Z.pos my) (Z.pos mx * 2 ^ 53 mod Z.pos my))).
  { unfold SFdiv_core_binary. cbn [Zdigits2]. rewrite Hdx, Hdy.
    replace (53 + ex - (53 + ey)) with (ex - ey) by lia.
    rewrite fexp_normal by lia.
    replace (Z.min (ex - ey - 53) (ex - ey)) with (ex - ey - 53) by lia.
    replace (ex - ey - (ex - ey - 53)) with 53 by lia.
    rewrite Z.shiftl_mul_pow2 by lia.
    unfold Z.div, Z.modulo.
    by destruct (Z.div_eucl (Z.pos mx * 2 ^ 53) (Z.pos my)). }
  set (N := Z.pos mx * 2 ^ 53) in *.
  pose proof (Z.div_mod N (Z.pos my) ltac:(lia)) as Hdiv.
  pose proof (Z.mod_pos_bound N (Z.pos my) ltac:(lia)) as Hmod.
  set (q := N / Z.pos my) in *. set (r := N mod Z.pos my) in *.
  assert (Hq : 2 ^ 52 <= q < 2 ^ 54).
  { change (2 ^ 54) with (2 * 2 ^ 53). unfold N in Hdiv. nia. }
  assert (Hdq : 53 <= Zdigits2 q <= 54).
  { destruct q as [|q|q]; [lia | | lia]. cbn [Zdigits2].
    pose proof (digits2_pos_bounds q) as Hb.
    set (d := Z.pos (digits2_pos q)) in *. split.
    - destruct (Z.le_gt_cases 53 d) as [|Hlt]; [done |].
      assert (2 ^ d <= 2 ^ 52) by (apply Z.pow_le_mono_r; lia). lia.
    - destruct (Z.le_gt_cases d 54) as [|Hgt]; [done |].
      assert (2 ^ 54 <= 2 ^ (d - 1)) by (apply Z.pow_le_mono_r; lia). lia. }
  destruct (binary_round_aux_located (xorb false false) q (ex - ey - 53)
              (new_location (Z.pos my) r) N (Z.pos my))
    as (m & n & Hround & Hn & Hdigits & Herr).
  - replace N with (q * Z.pos my + r) by lia.
    apply new_location_located; lia.
  - lia.
  - lia.
  - lia.
  - lia.
  - exists m, n. split; [|split; [lia |done]].
    split; [|done]. rewrite div_spec, Hx, Hy. unfold SF64div, SFdiv.
    rewrite Hcore. exact Hround.
Qed.

Lemma normal_100 : normal 100 7036874417766400 (-46).
Proof. split; vm_compute; reflexivity. Qed.

Lemma normal_10 : normal 10 5629499534213120 (-49).
Proof. split; vm_compute; reflexivity. Qed.

(** A bound that holds after scaling holds before it. *)
Lemma abs_bound_scale u a b F c a' b' :
  0 < F -> 0 < c -> a * F = c * a' -> b * F = c * b' ->
  u * Z.abs a' <= b' -> u * Z.abs a <= b.
Proof.
  intros HF Hc Ha Hb Hle. apply Z.mul_le_mono_pos_r with F; [done |].
  rewrite <- Z.mul_assoc.
  replace (Z.abs a * F) with (Z.abs (a * F))
    by (rewrite Z.abs_mul, (Z.abs_eq F); lia).
  rewrite Ha, Hb, Z.abs_mul, (Z.abs_eq c) by lia. nia.
Qed.

(** The rate on integers. [D] is a scale; [Q], [X] and [Y] are the
    quotient [p / n], the percentage and ten times the percentage as the
    doubles hold them, scaled by [D], each within [2 ^ -53], relatively, of
    what it approximates; [k] is [Y / D] rounded to the nearest integer, a
    tie going up. Then [k] is an integer nearest to [1000 p / n]. *)
Lemma tenth_from_bounds p n k D Q X Y :
  0 < D -> 0 <= p <= n -> 0 < n < 2 ^ 32 ->
  2 ^ 53 * Z.abs (Q * n - p * D) <= p * D ->
  2 ^ 53 * Z.abs (X - 100 * Q) <= 100 * Q ->
  2 ^ 53 * Z.abs (Y - 10 * X) <= 10 * X ->
  2 * D * k <= 2 * Y + D < 2 * D * (k + 1) ->
  Z.abs (2 * k * n - 2000 * p) <= n.
Proof.
  intros HD Hp Hn H1 H2 H3 H4.
  change (2 ^ 53) with 9007199254740992 in *.
  change (2 ^ 32) with 4294967296 in *.
  set (A := Y * n). set (B := X * n). set (C := Q * n). set (E := p * D).
  set (W := D * (k * n)). set (Dn := D * n).
  assert (HE : 0 <= E <= Dn) by (unfold E, Dn; nia).
  assert (HDn : Dn <= 4294967295 * D) by (unfold Dn; nia).
  assert (H1' : 9007199254740992 * Z.abs (C - E) <= E) by exact H1.
  assert (H2' : 9007199254740992 * Z.abs (B - 100 * C) <= 100 * C).
  { unfold B, C.
    replace (X * n - 100 * (Q * n)) with ((X - 100 * Q) * n) by ring.
    rewrite Z.abs_mul, (Z.abs_eq n) by lia. nia. }
  assert (H3' : 9007199254740992 * Z.abs (A - 10 * B) <= 10 * B).
  { unfold A, B.
    replace (Y * n - 10 * (X * n)) with ((Y - 10 * X) * n) by ring.
    rewrite Z.abs_mul, (Z.abs_eq n) by lia. nia. }
  assert (H4' : 2 * W <= 2 * A + Dn < 2 * W + 2 * Dn).
  { unfold W, A, Dn. nia. }
  assert (Heq : D * (2 * k * n - 2000 * p) = 2 * W - 2000 * E)
    by (unfold W, E; ring).
  assert (Hgoal : Z.abs (D * (2 * k * n - 2000 * p)) < D * (n + 1)).
  { rewrite Heq. replace (D * (n + 1)) with (Dn + D) by (unfold Dn; ring).
    clearbody A B C E W Dn. clear Heq H1 H2 H3 H4. lia. }
  rewrite Z.abs_mul, (Z.abs_eq D) in Hgoal by lia.
  apply Z.mul_lt_mono_pos_l in Hgoal; lia.
Qed.

(** The dashboard's arithmetic on doubles, for [p] records out of [n]:
    what [Math.round] returns is an integer [k] such that [k / 10] is a
    tenth nearest to the exact percentage [100 p / n]. *)
Lemma rate_nearest_tenth p n :
  0 <= p <= n -> 0 < n < 2 ^ 32 ->
  exists k,
    (Math_round (of_Z p / of_Z n * 100 * 10) / 10)%float = (of_Z k / 10)%float /\
    nearest_tenth p n k.
Proof.
  intros Hp Hn.
  destruct (of_Z_normal n ltac:(lia)) as (mb & eb & Hb & Heb & Hmb).
  destruct (Z.eq_dec p 0) as [->|Hnz].
  { exists 0. split; [|unfold nearest_tenth; lia].
    assert (Hzero : Prim2SF (of_Z 0 / of_Z n * 100 * 10) = S754_zero false).
    { rewrite !mul_spec, div_spec, (proj1 Hb). reflexivity. }
    unfold Math_round. rewrite Hzero.
    rewrite <- (SF2Prim_Prim2SF (of_Z 0 / of_Z n * 100 * 10)), Hzero. reflexivity. }
  destruct (of_Z_normal p ltac:(lia)) as (ma & ea & Ha & Hea & Hma).
  pose proof (normal_bounds _ _ _ Ha) as Hba.
  pose proof (normal_bounds _ _ _ Hb) as Hbb.
  assert (HF : 0 < 2 ^ (- ea)) by (apply Z.pow_pos_nonneg; lia).
  assert (HG : 0 < 2 ^ (- eb)) by (apply Z.pow_pos_nonneg; lia).
  assert (Hexp : ea <= eb).
  { destruct (Z.le_gt_cases ea eb) as [|Hgt]; [done |].
    assert (Hsplit : 2 ^ (- eb) = 2 ^ (- ea) * 2 ^ (ea - eb))
      by (rewrite <- Z.pow_add_r by lia; f_equal; lia).
    assert (2 ^ 1 <= 2 ^ (ea - eb)) by (apply Z.pow_le_mono_r; lia).
    change (2 ^ 1) with 2 in *. nia. }
  destruct (div_normal _ _ _ _ _ _ Ha Hb ltac:(lia)) as (mq & nq & Hq & Hnq & Herrq).
  set (eq := ea - eb - 53 + nq) in *.
  destruct (mul_normal _ _ _ _ _ _ Hq normal_100 ltac:(lia))
    as (mx & n2 & Hx & Hn2 & Herrx).
  set (ex := eq + -46 + n2) in *.
  destruct (mul_normal _ _ _ _ _ _ Hx normal_10 ltac:(lia))
    as (my & n3 & Hy & Hn3 & Herry).
  set (ey := ex + -49 + n3) in *.
  unfold Math_round. rewrite (proj1 Hy).
  replace (0 <=? ey) with false by (symmetry; apply Z.leb_gt; lia).
  cbv zeta. rewrite andb_false_r.
  eexists. split; [reflexivity |].
  set (k := (2 * Z.pos my + 2 ^ (- ey)) / 2 ^ (1 - ey)).
  apply (tenth_from_bounds p n k (2 ^ 200)
           (Z.pos mq * 2 ^ (eq + 200)) (Z.pos mx * 2 ^ (ex + 200))
           (Z.pos my * 2 ^ (ey + 200))); [lia | lia | lia | | | |].
  - apply (abs_bound_scale _ _ _ (2 ^ (- ea)) (2 ^ 147)
             (Z.pos mq * 2 ^ nq * Z.pos mb - Z.pos ma * 2 ^ 53) (Z.pos ma * 2 ^ 53));
      [done | lia | | | done].
    + assert (HT : 2 ^ (eq + 200) * 2 ^ (- ea) = 2 ^ 147 * 2 ^ nq * 2 ^ (- eb))
        by (rewrite <- !Z.pow_add_r by lia; f_equal; lia).
      transitivity (Z.pos mq * n * (2 ^ (eq + 200) * 2 ^ (- ea))
                    - p * 2 ^ (- ea) * 2 ^ 200); [ring |].
      rewrite HT, Hma, Hmb. change (2 ^ 200) with (2 ^ 147 * 2 ^ 53). ring.
    + rewrite Hma. change (2 ^ 200) with (2 ^ 147 * 2 ^ 53). ring.
  - apply (abs_bound_scale _ _ _ (2 ^ 46) (2 ^ (eq + 200))
             (Z.pos mx * 2 ^ n2 - Z.pos mq * 7036874417766400)
             (Z.pos mq * 7036874417766400));
      [lia | apply Z.pow_pos_nonneg; lia | | | done].
    + assert (HT : 2 ^ (ex + 200) * 2 ^ 46 = 2 ^ (eq + 200) * 2 ^ n2)
        by (rewrite <- !Z.pow_add_r by lia; f_equal; lia).
      transitivity (Z.pos mx * (2 ^ (ex + 200) * 2 ^ 46)
                    - 100 * 2 ^ 46 * (Z.pos mq * 2 ^ (eq + 200))); [ring |].
      rewrite HT. change (100 * 2 ^ 46) with 7036874417766400. ring.
    + change 7036874417766400 with (100 * 2 ^ 46). ring.
  - apply (abs_bound_scale _ _ _ (2 ^ 49) (2 ^ (ex + 200))
             (Z.pos my * 2 ^ n3 - Z.pos mx * 5629499534213120)
             (Z.pos mx * 5629499534213120));
      [lia | apply Z.pow_pos_nonneg; lia | | | done].
    + assert (HT : 2 ^ (ey + 200) * 2 ^ 49 = 2 ^ (ex + 200) * 2 ^ n3)
        by (rewrite <- !Z.pow_add_r by lia; f_equal; lia).
      transitivity (Z.pos my * (2 ^ (ey + 200) * 2 ^ 49)
                    - 10 * 2 ^ 49 * (Z.pos mx * 2 ^ (ex + 200))); [ring |].
      rewrite HT. change (10 * 2 ^ 49) with 5629499534213120. ring.
    + change 5629499534213120 with (10 * 2 ^ 49). ring.
  - assert (HE : 0 < 2 ^ (- ey)) by (apply Z.pow_pos_nonneg; lia).
    assert (HT : 0 < 2 ^ (ey + 200)) by (apply Z.pow_pos_nonneg; lia).
    assert (HD : 2 ^ (- ey) * 2 ^ (ey + 200) = 2 ^ 200)
      by (rewrite <- Z.pow_add_r by lia; f_equal; lia).
    assert (H2E : 2 ^ (1 - ey) = 2 * 2 ^ (- ey)).
    { replace (1 - ey) with (Z.succ (- ey)) by lia. apply Z.pow_succ_r. lia. }
    pose proof (Z.div_mod (2 * Z.pos my + 2 ^ (- ey)) (2 ^ (1 - ey)) ltac:(lia)) as Hdiv.
    pose proof (Z.mod_pos_bound (2 * Z.pos my + 2 ^ (- ey)) (2 ^ (1 - ey)) ltac:(lia))
      as Hmod.
    fold k in Hdiv. rewrite H2E in Hdiv, Hmod.
    set (r := (2 * Z.pos my + 2 ^ (- ey)) mod (2 * 2 ^ (- ey))) in *.
    set (E := 2 ^ (- ey)) in *. set (T := 2 ^ (ey + 200)) in *.
    rewrite <- HD. nia.
Qed.

End Binary64.

Lemma count_status_bounds allowed records :
  0 <= count_status allowed records <= Z.of_nat (length records).
Proof.
  induction records as [|a rest IH]; simpl count_status; simpl length; [lia |].
  destruct (a !! "status") as [[| |b|n|st|tv|xs]|]; try lia.
  case_bool_decide; lia.
Qed.

(** C1. When the store holds at least one attendance record (and fewer
    than [2 ^ 32], as many as an array can hold), the attendance rate of the
    dashboard is the double nearest to [k / 10] for an integer [k] such
    that [k / 10] is a tenth nearest to the exact percentage: with [p] the
    number of records whose status is present or late and [n] the number
    of records, [k / 10] differs from [100 p / n] by at most [1 / 20]. When
    the store holds no attendance record, the rate is 0. *)
Theorem attendance_rate_formula (s : MemStorage) :
  Z.of_nat (length (getAttendance s)) < 2 ^ 32 ->
  (getAttendance s <> [] ->
   exists k,
     attendanceRate (getDashboardStats s) = (of_Z k / 10)%float /\
     nearest_tenth (count_status ["present"; "late"] (getAttendance s))
       (Z.of_nat (length (getAttendance s))) k) /\
  (getAttendance s = [] -> attendanceRate (getDashboardStats s) = 0%float).
Proof.
  intros Hsize. split.
  - intros Hne.
    pose proof (count_status_bounds ["present"; "late"] (getAttendance s)) as Hp.
    destruct (rate_nearest_tenth
                (count_status ["present"; "late"] (getAttendance s))
                (Z.of_nat (length (getAttendance s)))) as (k & Hk & Hnear).
    + exact Hp.
    + split; [|exact Hsize]. destruct (getAttendance s); [done | simpl; lia].
    + exists k. split; [|exact Hnear]. rewrite <- Hk, count_status_filter.
      unfold getDashboardStats, getAttendance in *. simpl.
      destruct (JsMap.values (attendance s)) as [|a rest]; [done |].
      reflexivity.
  - unfold getDashboardStats, getAttendance. simpl. intros ->. reflexivity.
Qed.

(** ** C4: the activity feed *)

Section SortFacts.
Context {A : Type} (cmp : A -> A -> option Z).

Lemma insert_sorted_perm a l : Permutation (insert_sorted cmp a l) (a :: l).
Proof.
  induction l as [|b r IH]; simpl; [reflexivity |].
  destruct (cmp_le cmp a b); [reflexivity |].
  rewrite IH. apply perm_swap.
Qed.

Lemma sort_perm l : Permutation (sort cmp l) l.
Proof.
  induction l as [|a r IH]; simpl; [reflexivity |].
  rewrite insert_sorted_perm. by constructor.
Qed.

(** [R] is the order the comparator decides on the elements of interest. *)
Context (R : A -> A -> Prop) (ok : A -> Prop).
Hypothesis le_R : forall a b, ok a -> ok b -> cmp_le cmp a b = true -> R a b.
Hypothesis gt_R : forall a b, ok a -> ok b -> cmp_le cmp a b = false -> R b a.

Lemma insert_sorted_HdRel a b l :
  ok a -> ok b -> Forall ok l -> R b a -> HdRel R b l ->
  HdRel R b (insert_sorted cmp a l).
Proof.
  intros Ha Hb Hl Hba Hhd. destruct l as [|c r]; simpl.
  - by constructor.
  - destruct (cmp_le cmp a c); constructor; [done |].
    by inversion Hhd.
Qed.

Lemma insert_sorted_Sorted a l :
  ok a -> Forall ok l -> Sorted R l -> Sorted R (insert_sorted cmp a l).
Proof.
  intros Ha Hl Hs. induction Hs as [|b r Hs IH Hhd]; simpl.
  - repeat constructor.
  - apply Forall_cons in Hl as [Hb Hr].
    destruct (cmp_le cmp a b) eqn:Hc.
    + constructor; [by constructor |]. constructor. by apply le_R.
    + constructor; [by apply IH |].
      apply insert_sorted_HdRel; auto.
Qed.

Lemma sort_Forall l : Forall ok l -> Forall ok (sort cmp l).
Proof. intros Hl. by rewrite sort_perm. Qed.

Lemma sort_Sorted l : Forall ok l -> Sorted R (sort cmp l).
Proof.
  induction l as [|a r IH]; simpl; intros Hl; [constructor |].
  apply Forall_cons in Hl as [Ha Hr].
  apply insert_sorted_Sorted; auto using sort_Forall.
Qed.

End SortFacts.

(** A call leaves the maps of the other collections alone. *)
Lemma exec_shape_other sh s e :
  shape_entity sh <> e -> store_of e (exec_shape sh s).2 = store_of e s.
Proof.
  destruct sh as [e0 now d|e0 id d|e0 id]; simpl; intros Hne.
  - unfold fmap, M_fmap, create_in; simpl.
    rewrite store_of_other, store_of_with_counter; auto.
  - unfold fmap, M_fmap, update_in.
    destruct (JsMap.get id (store_of e0 s)); simpl; [|done].
    by rewrite store_of_other.
  - unfold fmap, M_fmap, delete_in; simpl. by rewrite store_of_other.
Qed.

Lemma exec_other c s e :
  shape_entity (shape c) <> e -> store_of e (exec c s).2 = store_of e s.
Proof. rewrite exec_shape_eq. apply exec_shape_other. Qed.

(** The activities of the store after a call: those before it, and the one
    a [createActivity] stored. *)
Lemma exec_activities c s a :
  a ∈ JsMap.values (activities (exec c s).2) ->
  a ∈ JsMap.values (activities s) \/
  exists now d id,
    c = CreateActivity now d /\
    a = <["timestamp" := VDate (Some now)]> (<["id" := VNum id]> d).
Proof.
  destruct (decide (shape_entity (shape c) = Activity)) as [Heq|Hne].
  - destruct c; try discriminate. simpl.
    intros Hin. apply values_set in Hin as [->|Hin]; eauto 10.
  - change (activities (exec c s).2) with (store_of Activity (exec c s).2).
    rewrite exec_other by done. by left.
Qed.

Section Feed.
Context `{Host}.

Lemma clocked_timestamp a t :
  stored_time a = Some t -> Z.abs t <= maxTime -> timestamp_of a = Some t.
Proof.
  unfold stored_time, timestamp_of, prop. intros Ht Hrange.
  destruct (a !! "timestamp") as [[| | | | |[t'|]|]|]; try done.
  injection Ht as ->. simpl. unfold TimeClip.
  by destruct (Z.leb_spec (Z.abs t) maxTime); [|lia].
Qed.

Lemma reachable_clocked s :
  reachable s -> Forall clocked (JsMap.values (activities s)).
Proof.
  induction 1 as [|c s Hs IH Hclock].
  - constructor.
  - apply Forall_forall. intros a Hin.
    apply exec_activities in Hin as [Hin|(now & d & id & -> & ->)].
    + by eapply Forall_forall in IH.
    + exists now. split; [|exact Hclock].
      unfold stored_time. by rewrite lookup_insert_eq.
Qed.

Lemma activity_cmp_cases a b ta tb :
  timestamp_of a = Some ta -> timestamp_of b = Some tb ->
  cmp_le activity_cmp a b = (tb <=? ta).
Proof.
  unfold cmp_le, activity_cmp, timestamp_of. intros -> ->. simpl.
  destruct (Z.leb_spec (tb - ta) 0), (Z.leb_spec tb ta); lia || done.
Qed.

Lemma activity_cmp_le a b :
  clocked a -> clocked b -> cmp_le activity_cmp a b = true -> not_older a b.
Proof.
  intros (ta & Ha & Hra) (tb & Hb & Hrb).
  rewrite (activity_cmp_cases a b ta tb) by (by apply clocked_timestamp).
  intros Hle%Z.leb_le. by exists ta, tb.
Qed.

Lemma activity_cmp_gt a b :
  clocked a -> clocked b -> cmp_le activity_cmp a b = false -> not_older b a.
Proof.
  intros (ta & Ha & Hra) (tb & Hb & Hrb).
  rewrite (activity_cmp_cases a b ta tb) by (by apply clocked_timestamp).
  intros Hgt%Z.leb_gt. exists tb, ta. split_and!; [done | done | lia].
Qed.

Lemma Sorted_adjacent {A} (R : A -> A -> Prop) l :
  Sorted R l ->
  forall i a b, l !! i = Some a -> l !! S i = Some b -> R a b.
Proof.
  induction 1 as [|x l Hs IH Hhd]; intros i a b Ha Hb; [by destruct i |].
  destruct i as [|i]; simpl in Ha, Hb.
  - injection Ha as <-. destruct l as [|y l]; [done |].
    simpl in Hb. injection Hb as <-. by inversion Hhd.
  - by eapply IH.
Qed.

(** C4. In every state the calls lead to, whatever the order and the clock
    readings of the [createActivity] calls, [getActivities] returns the
    stored activities (a permutation of them) newest first: of two
    adjacent records of the result, the time value stored in the timestamp
    of the first is greater than or equal to that of the second. *)
Theorem activities_newest_first (s : MemStorage) :
  reachable s ->
  Permutation (getActivities s) (JsMap.values (activities s)) /\
  forall i a b,
    getActivities s !! i = Some a -> getActivities s !! S i = Some b ->
    not_older a b.
Proof.
  intros Hs. split; [apply sort_perm |].
  apply Sorted_adjacent.
  apply sort_Sorted with (ok := clocked).
  - apply activity_cmp_le.
  - apply activity_cmp_gt.
  - by apply reachable_clocked.
Qed.

End Feed.

(** ** C2: validation comes before any call on the store *)

(** C2. For each create and update route and every payload that its schema
    rejects, the handler answers 400 and the store it leaves is the store it
    found: every map and every counter is the same. The body of the answer
    is the validation error, except on an update route whose [:id] is not a
    number, where the (also 400) answer names the identifier. *)
Theorem invalid_payload_leaves_store `{Host} `{Zod} (now : Z) (r : WriteRoute)
    (req_body : Json) (error : ZodError) (s : MemStorage) :
  safeParse (schema_of r) req_body = Failure error ->
  (handle now r req_body s).2 = s /\
  status (handle now r req_body s).1 = 400 /\
  if id_is_NaN r
  then exists msg, body (handle now r req_body s).1 = Error_message msg
  else body (handle now r req_body s).1 = Error_validation error.
Proof.
  unfold id_is_NaN.
  destruct r as [|id| |id| |id| |id| | |id| |id| |id]; simpl; intros Hfail;
    unfold post_users, put_users, post_students, put_students, post_teachers,
      put_teachers, post_classes, put_classes, post_class_enrollments,
      post_attendance, put_attendance, post_grades, put_grades, post_events,
      put_events;
    try (destruct (parseInt id); simpl);
    rewrite ?Hfail; simpl; eauto.
Qed.

(** ** C10: the filters of the attendance listing *)




(** ** C8: teachers and the users they refer to *)

(** A stored user stays stored unless the call deletes it. *)
Lemma exec_users_preserved c s uid :
  (forall id, c = DeleteUser id -> id <> uid) ->
  is_Some (JsMap.get uid (users s)) ->
  is_Some (JsMap.get uid (users (exec c s).2)).
Proof.
  intros Hdel Hsome.
  destruct (decide (shape_entity (shape c) = User)) as [Heq|Hne].
  - destruct c; try discriminate; simpl.
    + destruct (decide (userIdCounter s = uid)) as [->|Hk].
      * rewrite get_set_eq. by eexists.
      * by rewrite get_set_ne.
    + unfold fmap, M_fmap, updateUser.
      destruct (JsMap.get id (users s)) eqn:Hget; simpl; [|done].
      destruct (decide (id = uid)) as [->|Hk].
      * rewrite get_set_eq. by eexists.
      * by rewrite get_set_ne.
    + rewrite get_remove_ne; [done |]. by apply Hdel.
  - change (users (exec c s).2) with (store_of User (exec c s).2).
    by rewrite exec_other.
Qed.

(** The teachers of the store after a call: those before it, the one a
    [createTeacher] stored, or the one an [updateTeacher] merged. *)
Lemma exec_teachers c s t :
  t ∈ JsMap.values (teachers (exec c s).2) ->
  t ∈ JsMap.values (teachers s) \/
  (exists d id, c = CreateTeacher d /\ t = <["id" := VNum id]> d) \/
  (exists id d t0, c = UpdateTeacher id d /\ JsMap.get id (teachers s) = Some t0
                   /\ t = spread t0 d).
Proof.
  destruct (decide (shape_entity (shape c) = Teacher)) as [Heq|Hne].
  - destruct c; try discriminate; simpl.
    + intros Hin. apply values_set in Hin as [->|Hin]; eauto 10.
    + unfold fmap, M_fmap, updateTeacher.
      destruct (JsMap.get id (teachers s)) as [t0|] eqn:Hget; simpl; [|by left].
      intros Hin. apply values_set in Hin as [->|Hin]; eauto 10.
    + intros Hin. apply values_remove in Hin. by left.
  - change (teachers (exec c s).2) with (store_of Teacher (exec c s).2).
    rewrite exec_other by done. by left.
Qed.

Lemma exec_users_unchanged c s :
  shape_entity (shape c) <> User -> users (exec c s).2 = users s.
Proof. apply (exec_other c s User). Qed.

(** C8, as the code has it. The store checks no reference: a teacher is
    stored with the [userId] it is given and deleting a user leaves the
    teachers as they are. So the property holds in the states reached by
    calls that keep it: when every [createTeacher] and [updateTeacher]
    leaves the teacher with no [userId] or that of a stored user and no
    [deleteUser] removes a user a teacher refers to, every teacher whose
    [userId] is a number refers to a stored user. *)
Theorem teachers_reference_users_if_respected (s : MemStorage) :
  reachable_respecting_users s -> teachers_reference_users s.
Proof.
  induction 1 as [|c s Hs IH Hresp].
  - intros t uid Hin. by apply elem_of_nil in Hin.
  - intros t uid Hin Huid.
    apply exec_teachers in Hin
      as [Hin|[(d & id & -> & ->)|(id & d & t0 & -> & Hget & ->)]].
    + apply exec_users_preserved; [|by eapply IH].
      intros id -> ->. simpl in Hresp. by apply (Hresp t).
    + rewrite exec_users_unchanged by done. apply Hresp.
      unfold prop in *. by rewrite lookup_insert_ne in Huid.
    + rewrite exec_users_unchanged by done. by eapply Hresp.
Qed.

(** ** C9: CSV quoting *)

Section Csv.
Import ExportData.


Lemma test_special_spec s : test_special s = true <-> needs_quoting s.
Proof.
  unfold needs_quoting. induction s as [|c r IH]; simpl.
  - split; [done | by intros (c & [] & _)].
  - rewrite !orb_true_iff, IH, !Ascii.eqb_eq. split.
    + intros [[[->| ->]| ->]|(c' & Hin & Hc')]; eauto 10.
    + intros (c' & [->|Hin] & Hc'); [tauto | eauto 10].
Qed.

Lemma double_quotes_plain s : ~ needs_quoting s -> double_quotes s = s.
Proof.
  unfold needs_quoting. induction s as [|c r IH]; simpl; [done |].
  intros Hno. destruct (Ascii.eqb_spec c quote) as [->|Hne].
  - exfalso. apply Hno. exists quote. auto.
  - f_equal. apply IH. intros (c' & Hin & Hc'). apply Hno. eauto.
Qed.


End Csv.

(** ** C7: the date filter *)

(** *** The calendar *)

Section Calendar.

Lemma civil_from_days_inverse days :
  let '(y, m, d) := civil_from_days days in Sample.days_from_civil y m d = days.
Proof.
  unfold civil_from_days, Sample.days_from_civil.
  set (z := days + 719468).
  set (era := z / 146097).
  set (doe := z - era * 146097).
  assert (Hdoe : 0 <= doe < 146097) by (subst doe era; Z.div_mod_to_equations; lia).
  set (yoe := (doe - doe / 1460 + doe / 36524 - doe / 146096) / 365).
  assert (Hyoe : 0 <= yoe <= 399) by (subst yoe; Z.div_mod_to_equations; lia).
  set (doy := doe - (365 * yoe + yoe / 4 - yoe / 100)).
  assert (Hdoy : 0 <= doy <= 365) by (subst doy yoe; Z.div_mod_to_equations; lia).
  set (mp := (5 * doy + 2) / 153).
  assert (Hmp : 0 <= mp <= 11) by (subst mp; Z.div_mod_to_equations; lia).
  destruct (Z.ltb_spec mp 10).
  - destruct (Z.leb_spec (mp + 3) 2); [lia |].
    destruct (Z.ltb_spec 2 (mp + 3)); [|lia].
    replace (yoe + era * 400 + 0) with (era * 400 + yoe) by lia.
    replace ((era * 400 + yoe) / 400) with era by (Z.div_mod_to_equations; lia).
    replace (era * 400 + yoe - era * 400) with yoe by lia.
    replace (mp + 3 - 3) with mp by lia.
    subst doy doe z. lia.
  - destruct (Z.leb_spec (mp - 9) 2); [|lia].
    destruct (Z.ltb_spec 2 (mp - 9)); [lia |].
    replace (yoe + era * 400 + 1 - 1) with (era * 400 + yoe) by lia.
    replace ((era * 400 + yoe) / 400) with era by (Z.div_mod_to_equations; lia).
    replace (era * 400 + yoe - era * 400) with yoe by lia.
    replace (mp - 9 + 9) with mp by lia.
    subst doy doe z. lia.
Qed.

(** Different days have different calendar dates. *)
Lemma civil_from_days_inj d1 d2 : civil_from_days d1 = civil_from_days d2 -> d1 = d2.
Proof.
  intros Heq. pose proof (civil_from_days_inverse d1) as H1.
  pose proof (civil_from_days_inverse d2) as H2.
  rewrite Heq in H1. destruct (civil_from_days d2) as [[y m] d]. congruence.
Qed.

Lemma civil_from_days_bounds days :
  Z.abs days <= 100000000 ->
  let '(y, m, d) := civil_from_days days in
  (-999999 <= y <= 999999) /\ (1 <= m <= 12) /\ (1 <= d <= 31).
Proof.
  intros Hdays. unfold civil_from_days.
  set (z := days + 719468).
  set (era := z / 146097).
  assert (Hera : -690 <= era <= 690) by (subst era z; Z.div_mod_to_equations; lia).
  set (doe := z - era * 146097).
  assert (Hdoe : 0 <= doe < 146097) by (subst doe era; Z.div_mod_to_equations; lia).
  set (yoe := (doe - doe / 1460 + doe / 36524 - doe / 146096) / 365).
  assert (Hyoe : 0 <= yoe <= 399) by (subst yoe; Z.div_mod_to_equations; lia).
  set (doy := doe - (365 * yoe + yoe / 4 - yoe / 100)).
  assert (Hdoy : 0 <= doy <= 365) by (subst doy yoe; Z.div_mod_to_equations; lia).
  set (mp := (5 * doy + 2) / 153).
  assert (Hmp : 0 <= mp <= 11) by (subst mp; Z.div_mod_to_equations; lia).
  assert (Hd : 1 <= doy - (153 * mp + 2) / 5 + 1 <= 31)
    by (subst mp; Z.div_mod_to_equations; lia).
  destruct (Z.ltb_spec mp 10);
    match goal with |- context [?m <=? 2] => destruct (Z.leb_spec m 2) end; lia.
Qed.

Lemma Day_bounds t : Z.abs t <= maxTime -> Z.abs (Day t) <= 100000000.
Proof. unfold Day, maxTime, msPerDay. intros Ht. Z.div_mod_to_equations. lia. Qed.

Lemma calendar_date_Day t1 t2 :
  calendar_date t1 = calendar_date t2 <-> Day t1 = Day t2.
Proof.
  unfold calendar_date. split; [apply civil_from_days_inj | by intros ->].
Qed.

End Calendar.

(** *** The text of a date *)

Section IsoText.

Lemma digit_code n : N_of_ascii (digit n) = (48 + Z.to_N (n mod 10))%N.
Proof.
  unfold digit. apply N_ascii_embedding.
  pose proof (Z.mod_pos_bound n 10). lia.
Qed.

Lemma digit_inj a b : digit a = digit b -> a mod 10 = b mod 10.
Proof.
  intros Heq. apply (f_equal N_of_ascii) in Heq. rewrite !digit_code in Heq.
  pose proof (Z.mod_pos_bound a 10). pose proof (Z.mod_pos_bound b 10). lia.
Qed.

(** A digit is none of the other characters of the text of a date. *)
Lemma digit_other n c :
  (N_of_ascii c < 48 \/ 57 < N_of_ascii c)%N -> digit n <> c.
Proof.
  intros Hc Heq. apply (f_equal N_of_ascii) in Heq. rewrite digit_code in Heq.
  pose proof (Z.mod_pos_bound n 10). lia.
Qed.

Lemma digit_not_T n : Ascii.eqb (digit n) "T" = false.
Proof. apply Ascii.eqb_neq, digit_other. vm_compute. right. reflexivity. Qed.

Lemma pad2_inj a b : 0 <= a < 100 -> 0 <= b < 100 -> pad2 a = pad2 b -> a = b.
Proof.
  unfold pad2. intros Ha Hb [= H1%digit_inj H0%digit_inj].
  Z.div_mod_to_equations. lia.
Qed.

Lemma pad4_inj a b : 0 <= a < 10000 -> 0 <= b < 10000 -> pad4 a = pad4 b -> a = b.
Proof.
  unfold pad4, pad3, pad2.
  intros Ha Hb [= H3%digit_inj H2%digit_inj H1%digit_inj H0%digit_inj].
  Z.div_mod_to_equations. lia.
Qed.

Lemma pad6_inj a b :
  0 <= a < 1000000 -> 0 <= b < 1000000 -> pad6 a = pad6 b -> a = b.
Proof.
  unfold pad6, pad4, pad3, pad2.
  intros Ha Hb [= H5%digit_inj H4%digit_inj H3%digit_inj H2%digit_inj
                  H1%digit_inj H0%digit_inj].
  Z.div_mod_to_equations. lia.
Qed.

End IsoText.

Section IsoDate.

Ltac digits :=
  repeat match goal with
  | H : digit _ = digit _ |- _ => apply digit_inj in H
  end.

Lemma iso_text_inj y1 m1 d1 y2 m2 d2 :
  -999999 <= y1 <= 999999 -> 1 <= m1 <= 12 -> 1 <= d1 <= 31 ->
  -999999 <= y2 <= 999999 -> 1 <= m2 <= 12 -> 1 <= d2 <= 31 ->
  iso_year y1 +:+ String "-" (pad2 m1 +:+ String "-" (pad2 d1)) =
  iso_year y2 +:+ String "-" (pad2 m2 +:+ String "-" (pad2 d2)) ->
  (y1, m1, d1) = (y2, m2, d2).
Proof.
  intros Hy1 Hm1 Hd1 Hy2 Hm2 Hd2. unfold iso_year.
  destruct ((0 <=? y1) && (y1 <=? 9999)) eqn:Hr1;
    destruct ((0 <=? y2) && (y2 <=? 9999)) eqn:Hr2;
    unfold pad6, pad4, pad3, pad2; simpl; intros Heq.
  - injection Heq as H3 H2 H1 H0 Hma Hmb Hda Hdb. digits.
    apply andb_true_iff in Hr1 as [?%Z.leb_le ?%Z.leb_le].
    apply andb_true_iff in Hr2 as [?%Z.leb_le ?%Z.leb_le].
    assert (y1 = y2) by (Z.div_mod_to_equations; lia).
    assert (m1 = m2) by (Z.div_mod_to_equations; lia).
    assert (d1 = d2) by (Z.div_mod_to_equations; lia).
    congruence.
  - injection Heq as H3 _. exfalso. revert H3. apply digit_other.
    destruct (y2 <? 0); vm_compute; left; reflexivity.
  - injection Heq as H3 _. exfalso. symmetry in H3. revert H3. apply digit_other.
    destruct (y1 <? 0); vm_compute; left; reflexivity.
  - injection Heq as Hs H5 H4 H3 H2 H1 H0 Hma Hmb Hda Hdb. digits.
    assert (Hsign : (y1 <? 0) = (y2 <? 0))
      by (destruct (y1 <? 0), (y2 <? 0); done).
    assert (Z.abs y1 = Z.abs y2) by (Z.div_mod_to_equations; lia).
    assert (y1 = y2)
      by (destruct (Z.ltb_spec y1 0), (Z.ltb_spec y2 0); try discriminate; lia).
    assert (m1 = m2) by (Z.div_mod_to_equations; lia).
    assert (d1 = d2) by (Z.div_mod_to_equations; lia).
    congruence.
Qed.

(** Two valid time values have the same date text exactly when they have
    the same calendar date. *)
Lemma iso_date_inj t1 t2 :
  Z.abs t1 <= maxTime -> Z.abs t2 <= maxTime ->
  iso_date t1 = iso_date t2 -> calendar_date t1 = calendar_date t2.
Proof.
  intros H1%Day_bounds%civil_from_days_bounds H2%Day_bounds%civil_from_days_bounds.
  unfold iso_date, calendar_date.
  destruct (civil_from_days (Day t1)) as [[y1 m1] d1].
  destruct (civil_from_days (Day t2)) as [[y2 m2] d2].
  apply iso_text_inj; tauto.
Qed.

Lemma iso_date_eqb t1 t2 :
  Z.abs t1 <= maxTime -> Z.abs t2 <= maxTime ->
  String.eqb (iso_date t1) (iso_date t2)
  = bool_decide (calendar_date t1 = calendar_date t2).
Proof.
  intros H1 H2. destruct (String.eqb_spec (iso_date t1) (iso_date t2)) as [Heq|Hne].
  - rewrite bool_decide_eq_true_2; [done | by apply iso_date_inj].
  - rewrite bool_decide_eq_false_2; [done |].
    intros Heq. apply Hne. unfold iso_date. unfold calendar_date in Heq.
    by rewrite Heq.
Qed.

Lemma split_head_append c s r :
  Forall (fun a => Ascii.eqb a c = false) (list_ascii_of_string s) ->
  split_head c (s +:+ String c r) = s.
Proof.
  induction s as [|a s IH]; simpl; intros Hall.
  - by rewrite Ascii.eqb_refl.
  - apply Forall_cons in Hall as [-> Hall]. by rewrite IH.
Qed.

Lemma iso_date_no_T t :
  Forall (fun a => Ascii.eqb a "T" = false) (list_ascii_of_string (iso_date t)).
Proof.
  unfold iso_date. destruct (civil_from_days (Day t)) as [[y m] d].
  unfold iso_year.
  destruct ((0 <=? y) && (y <=? 9999)); [|destruct (y <? 0)];
    unfold pad6, pad4, pad3, pad2; simpl;
    repeat constructor; apply digit_not_T.
Qed.

(** [d.toISOString().split('T')[0]] is the date text. *)
Lemma iso_date_of_toISOString tv :
  split_head "T" <$> toISOString tv = iso_date <$> tv.
Proof.
  destruct tv as [t|]; [|reflexivity]. simpl. f_equal.
  apply split_head_append, iso_date_no_T.
Qed.

End IsoDate.

(** *** The filter *)

Section DateFilter.
Context `{Host}.

Lemma TimeClip_Some x t : TimeClip x = Some t -> t = x /\ Z.abs t <= maxTime.
Proof.
  unfold TimeClip. destruct (Z.leb_spec (Z.abs x) maxTime); [|done].
  by intros [= <-].
Qed.

(** Every date [new Date] makes is within the range of [Date]. *)
Lemma new_Date_range v t : new_Date v = Some t -> Z.abs t <= maxTime.
Proof.
  destruct v as [| |b|n|str|tv|xs]; simpl.
  - done.
  - intros [= <-]. unfold maxTime. lia.
  - intros [= <-]. unfold maxTime. destruct b; lia.
  - by intros [_ ?]%TimeClip_Some.
  - destruct (Date_parse str); simpl; [|done]. by intros [_ ?]%TimeClip_Some.
  - destruct tv; simpl; [|done]. by intros [_ ?]%TimeClip_Some.
  - match goal with |- context [Date_parse ?x] => destruct (Date_parse x) end;
      simpl; [|done].
    by intros [_ ?]%TimeClip_Some.
Qed.

Lemma filter_throwing_total {A} (p : A -> option bool) (b : A -> bool) l :
  Forall (fun a => p a = Some (b a)) l ->
  filter_throwing p l = Some (List.filter b l).
Proof.
  induction 1 as [|a l Ha Hl IH]; simpl; [reflexivity |].
  rewrite Ha, IH. simpl. by destruct (b a).
Qed.

Lemma filter_throwing_throws {A} (p : A -> option bool) l :
  Exists (fun a => p a = None) l -> filter_throwing p l = None.
Proof.
  induction 1 as [a l Ha|a l Hl IH]; simpl.
  - by rewrite Ha.
  - rewrite IH. by destruct (p a).
Qed.

(** C7, as the code has it. For a valid query date, when the date of every
    stored attendance record is a valid date, [getAttendanceByDate] returns
    the stored records, in their order, whose date falls on the calendar
    date (in UTC) of the query date; a record is in the result exactly
    when it is stored and its date is on the same calendar date, which is
    exactly when the two time values lie in the same day, whatever the
    time within the day. When the query date is invalid, or the date of
    some stored record is, the call throws. *)
Theorem attendance_by_calendar_date (date : option Z) (s : MemStorage) :
  (forall t,
     date = Some t -> Z.abs t <= maxTime ->
     Forall (fun r => is_Some (record_date r)) (getAttendance s) ->
     getAttendanceByDate date s
     = Some (List.filter (on_calendar_date t) (getAttendance s)) /\
     forall r,
       r ∈ List.filter (on_calendar_date t) (getAttendance s) <->
       r ∈ getAttendance s /\
       exists tr, record_date r = Some tr /\ calendar_date tr = calendar_date t
                  /\ Day tr = Day t) /\
  (date = None \/ Exists (fun r => record_date r = None) (getAttendance s) ->
   getAttendanceByDate date s = None).
Proof.
  unfold getAttendanceByDate. rewrite iso_date_of_toISOString. split.
  - intros t -> Ht Hall. simpl. split.
    + apply filter_throwing_total.
      eapply Forall_impl; [exact Hall |]. intros r [tr Hr]. simpl.
      rewrite iso_date_of_toISOString.
      unfold on_calendar_date. unfold record_date in Hr |- *. rewrite Hr. simpl.
      f_equal. apply iso_date_eqb; [|done]. by eapply new_Date_range.
    + intros r. rewrite list_elem_of_In, filter_In, <- list_elem_of_In.
      unfold on_calendar_date. split.
      * intros [Hin Hon]. split; [done |].
        destruct (record_date r) as [tr|]; [|done].
        apply bool_decide_eq_true_1 in Hon.
        exists tr. split_and!; [done | done | by apply calendar_date_Day].
      * intros [Hin (tr & -> & Hcal & _)]. split; [done |].
        by apply bool_decide_eq_true_2.
  - intros [->|Hex]; [reflexivity |].
    destruct date as [t|]; [|reflexivity]. simpl.
    apply filter_throwing_throws.
    eapply Exists_impl; [exact Hex |]. intros r Hr. simpl.
    rewrite iso_date_of_toISOString. unfold record_date in Hr. by rewrite Hr.
Qed.

End DateFilter.

(* ===================================================================== *)
(** * Part III. The properties on concrete inputs                         *)
(* ===================================================================== *)

Lemma reachable_run cs : forall s,
  reachable s -> Forall clock_valid cs -> reachable (run cs s).2.
Proof.
  induction cs as [|c cs IH]; intros s Hs Hall; [exact Hs |].
  apply Forall_cons in Hall as [Hc Hall]. rewrite run_cons. simpl.
  apply IH; [|exact Hall]. by constructor.
Qed.

Lemma reachable_after cs : Forall clock_valid cs -> reachable (Sample.after cs).
Proof. apply reachable_run. constructor. Qed.

(** ** C1 *)

(** One record present out of three: the percentage is 33.333..., the
    nearest tenth is 33.3, and that is the rate. *)
Lemma attendance_rate_witness :
  count_status ["present"; "late"] (getAttendance (Sample.present_absent 1 2)) = 1 /\
  Z.of_nat (length (getAttendance (Sample.present_absent 1 2))) = 3 /\
  (exists k,
     attendanceRate (getDashboardStats (Sample.present_absent 1 2))
     = (of_Z k / 10)%float /\
     nearest_tenth
       (count_status ["present"; "late"] (getAttendance (Sample.present_absent 1 2)))
       (Z.of_nat (length (getAttendance (Sample.present_absent 1 2)))) k) /\
  attendanceRate (getDashboardStats (Sample.present_absent 1 2)) = (of_Z 333 / 10)%float.
Proof.
  split; [vm_compute; reflexivity |]. split; [vm_compute; reflexivity |].
  split; [|vm_compute; reflexivity].
  apply (attendance_rate_formula (Sample.present_absent 1 2)).
  - vm_compute. reflexivity.
  - intros Hnil. apply (f_equal length) in Hnil. vm_compute in Hnil. discriminate.
Defined.

(** 23 records present out of 80: the percentage is 28.75, which rounded
    to one decimal place is 28.8. In doubles 23 / 80 * 100 * 10 falls a
    little below 287.5, and the rate is 28.7, the other tenth nearest to
    28.75. *)
Lemma attendance_rate_counterexample :
  count_status ["present"; "late"] (getAttendance (Sample.present_absent 23 57)) = 23 /\
  Z.of_nat (length (getAttendance (Sample.present_absent 23 57))) = 80 /\
  rounded_to_one_decimal 23 80 = 288 /\
  attendanceRate (getDashboardStats (Sample.present_absent 23 57))
  = (of_Z 287 / 10)%float /\
  nearest_tenth 23 80 287 /\ nearest_tenth 23 80 288 /\
  ~ rate_as_specified (Sample.present_absent 23 57).
Proof.
  split; [vm_compute; reflexivity |]. split; [vm_compute; reflexivity |].
  split; [reflexivity |]. split; [vm_compute; reflexivity |].
  split; [unfold nearest_tenth; lia |]. split; [unfold nearest_tenth; lia |].
  unfold rate_as_specified. intros Heq.
  apply (f_equal Prim2SF) in Heq. vm_compute in Heq. discriminate.
Qed.

(** The scenario of the specification: one student, one class, one
    enrollment, one record present and one absent. *)
Example dashboard_scenario :
  let s := Sample.after
             [ CreateStudent (Sample.student "STU001" "Sarah" "Johnson");
               CreateClass (Sample.class "MATH1");
               CreateClassEnrollment (Sample.enrollment 1 1);
               CreateAttendance (Sample.attendance 1 1 (VStr "2024-05-01") "present");
               CreateAttendance (Sample.attendance 1 1 (VStr "2024-05-02") "absent") ] in
  totalStudents (getDashboardStats s) = 1 /\
  attendanceRate (getDashboardStats s) = 50%float.
Proof. vm_compute. split; reflexivity. Qed.

Example dashboard_empty :
  attendanceRate (getDashboardStats MemStorage_empty) = 0%float.
Proof. reflexivity. Qed.

(** Three records present or late out of four: 75. *)
Example dashboard_three_of_four :
  attendanceRate
    (getDashboardStats
       (Sample.after (Sample.marked 2 "present" ++ Sample.marked 1 "late"
                      ++ Sample.marked 1 "absent")))
  = 75%float.
Proof. vm_compute. reflexivity. Qed.

(** ** C2 *)

(** A student without [studentId] is turned down and the store stays
    empty. *)
Lemma invalid_payload_witness :
  (handle (H := Sample.host) (H0 := Sample.zod) 0 POST_students
     (JObj [("firstName", JStr "Sarah"); ("lastName", JStr "Johnson")])
     MemStorage_empty).2 = MemStorage_empty /\
  status (handle (H := Sample.host) (H0 := Sample.zod) 0 POST_students
            (JObj [("firstName", JStr "Sarah"); ("lastName", JStr "Johnson")])
            MemStorage_empty).1 = 400.
Proof.
  edestruct (invalid_payload_leaves_store (H := Sample.host) (H0 := Sample.zod)
               0 POST_students
               (JObj [("firstName", JStr "Sarah"); ("lastName", JStr "Johnson")]))
    as (Hstore & Hstatus & _).
  - vm_compute. reflexivity.
  - split; [exact Hstore | exact Hstatus].
Defined.

Example student_without_studentId :
  exists rest,
    safeParse (Zod := Sample.zod) insertStudentSchema
      (JObj [("firstName", JStr "Sarah"); ("lastName", JStr "Johnson")])
    = Failure (("studentId", "Required") :: rest).
Proof. vm_compute. eexists. reflexivity. Qed.

(** ** C3 *)

(** Changing the first name of a student leaves the last name. *)
Lemma update_witness :
  exists r',
    (updateStudent 1 {[ "firstName" := VStr "Sara" ]}
       (Sample.after [CreateStudent (Sample.student "STU001" "Sarah" "Johnson")])).1
    = Some r' /\
    r' !! "firstName" = Some (VStr "Sara") /\
    r' !! "lastName" = Some (VStr "Johnson") /\
    r' !! "id" = Some (VNum 1).
Proof.
  pose proof (update_merges Student updateStudent 1 {[ "firstName" := VStr "Sara" ]}
                (Sample.after [CreateStudent (Sample.student "STU001" "Sarah" "Johnson")])
                eq_refl) as Hm.
  change (JsMap.get 1 (store_of Student
            (Sample.after [CreateStudent (Sample.student "STU001" "Sarah" "Johnson")])))
    with (Some (<["id" := VNum 1]> (Sample.student "STU001" "Sarah" "Johnson"))) in Hm.
  destruct Hm as (r' & Hret & Hin & Hout & _).
  exists r'. split_and!.
  - exact Hret.
  - rewrite Hin; [reflexivity | eexists; reflexivity].
  - rewrite Hout; reflexivity.
  - rewrite Hout; reflexivity.
Defined.

Example update_absent :
  updateStudent 7 {[ "firstName" := VStr "Sara" ]}
    (Sample.after [CreateStudent (Sample.student "STU001" "Sarah" "Johnson")])
  = (None, Sample.after [CreateStudent (Sample.student "STU001" "Sarah" "Johnson")]).
Proof. reflexivity. Qed.

(** ** C4 *)

(** Three activities logged out of order: the feed lists them by
    descending time value. *)
Lemma activities_witness :
  (Permutation (getActivities (H := Sample.host) Sample.out_of_order)
     (JsMap.values (activities Sample.out_of_order)) /\
   forall i a b,
     getActivities (H := Sample.host) Sample.out_of_order !! i = Some a ->
     getActivities (H := Sample.host) Sample.out_of_order !! S i = Some b ->
     not_older a b) /\
  map stored_time (JsMap.values (activities Sample.out_of_order))
  = [Some 300; Some 100; Some 200] /\
  map stored_time (getActivities (H := Sample.host) Sample.out_of_order)
  = [Some 300; Some 200; Some 100].
Proof.
  split; [|split; vm_compute; reflexivity].
  apply (activities_newest_first (H := Sample.host)).
  apply reachable_after.
  repeat (apply Forall_cons_2; [unfold clock_valid, maxTime; lia |]).
  apply Forall_nil_2.
Defined.

(** ** C5 *)

(** Deleting the only student, twice. *)
Lemma delete_witness :
  (deleteStudent 1
     (Sample.after [CreateStudent (Sample.student "STU001" "Sarah" "Johnson")])).1
  = true /\
  getStudent 1
    (deleteStudent 1
       (Sample.after [CreateStudent (Sample.student "STU001" "Sarah" "Johnson")])).2
  = None /\
  (deleteStudent 1
     (deleteStudent 1
        (Sample.after [CreateStudent (Sample.student "STU001" "Sarah" "Johnson")])).2).1
  = false.
Proof.
  destruct (delete_reports_existence Student deleteStudent 1
              (Sample.after [CreateStudent (Sample.student "STU001" "Sarah" "Johnson")])
              eq_refl) as (Htrue & _ & _ & Hget & Hagain & _).
  split_and!.
  - apply Htrue, has_true. reflexivity.
  - apply Hget. reflexivity.
  - exact Hagain.
Defined.

Example delete_absent :
  (deleteStudent 7
     (Sample.after [CreateStudent (Sample.student "STU001" "Sarah" "Johnson")])).1
  = false.
Proof. reflexivity. Qed.

(** ** C6 *)

(** The identifier of a deleted student is not handed out again. *)
Lemma identifiers_witness :
  deleted_id Student (DeleteStudent 1, Deleted true) = Some 1 /\
  created_id Student
    (CreateStudent (Sample.student "STU002" "Emma" "Wilson"),
     Created (<["id" := VNum 2]> (Sample.student "STU002" "Emma" "Wilson")))
  = Some 2 /\
  1 < 2 /\ 1 <> 2.
Proof.
  split; [reflexivity |]. split; [reflexivity |].
  apply (identifiers_never_repeat
           [ CreateStudent (Sample.student "STU001" "Sarah" "Johnson");
             DeleteStudent 1;
             CreateStudent (Sample.student "STU002" "Emma" "Wilson") ]
           Student 1 2
           (DeleteStudent 1, Deleted true)
           (CreateStudent (Sample.student "STU002" "Emma" "Wilson"),
            Created (<["id" := VNum 2]> (Sample.student "STU002" "Emma" "Wilson")))).
  - reflexivity.
  - reflexivity.
  - lia.
  - right. reflexivity.
  - reflexivity.
Defined.

(** ** C7 *)

(** Midnight of 2024-05-01, UTC. *)
Example may_first : Sample.parse_iso_date "2024-05-01" = Some 1714521600000.
Proof. reflexivity. Qed.

(** Three records: a date string, a [Date] at ten in the morning of the same
    day, and one on the next day. The query is at one in the morning. *)
Lemma attendance_by_date_witness :
  getAttendanceByDate (H := Sample.host) (Some 1714525200000)
    (Sample.after
       [ CreateAttendance (Sample.attendance 1 1 (VStr "2024-05-01") "present");
         CreateAttendance (Sample.attendance 1 2 (VDate (Some 1714557600000)) "late");
         CreateAttendance (Sample.attendance 1 3 (VStr "2024-05-02") "present") ])
  = Some
      (List.filter (on_calendar_date (H := Sample.host) 1714525200000)
         (getAttendance
            (Sample.after
               [ CreateAttendance (Sample.attendance 1 1 (VStr "2024-05-01") "present");
                 CreateAttendance
                   (Sample.attendance 1 2 (VDate (Some 1714557600000)) "late");
                 CreateAttendance (Sample.attendance 1 3 (VStr "2024-05-02") "present") ]))).
Proof.
  apply (attendance_by_calendar_date (H := Sample.host)).
  - reflexivity.
  - unfold maxTime. lia.
  - repeat (apply Forall_cons_2; [eexists; vm_compute; reflexivity |]).
    apply Forall_nil_2.
Defined.

Example attendance_by_date_result :
  (map id_of <$>
   getAttendanceByDate (H := Sample.host) (Some 1714525200000)
     (Sample.after
        [ CreateAttendance (Sample.attendance 1 1 (VStr "2024-05-01") "present");
          CreateAttendance (Sample.attendance 1 2 (VDate (Some 1714557600000)) "late");
          CreateAttendance (Sample.attendance 1 3 (VStr "2024-05-02") "present") ]))
  = Some [Some 1; Some 2].
Proof. vm_compute. reflexivity. Qed.

(** One record whose date does not parse makes the call throw, also for the
    record that is on the calendar date of the query. *)
Lemma attendance_by_date_counterexample :
  ~ date_filter_as_specified (H := Sample.host) (Some 1714521600000)
      (Sample.after
         [ CreateAttendance (Sample.attendance 1 1 (VStr "2024-05-01") "present");
           CreateAttendance (Sample.attendance 1 2 (VStr "yesterday") "present") ]).
Proof.
  intros Hspec.
  destruct (Hspec (<["id" := VNum 1]> (Sample.attendance 1 1 (VStr "2024-05-01") "present")))
    as [_ Hincluded].
  - apply list_elem_of_here.
  - destruct Hincluded as (records & Hreturned & _).
    + exists 1714521600000, 1714521600000. split_and!; reflexivity.
    + vm_compute in Hreturned. discriminate.
Qed.

(** ** C8 *)

(** A user, a teacher of that user and a teacher of no user. *)
Lemma teachers_reference_users_witness :
  teachers_reference_users
    (exec (CreateTeacher (Sample.teacher "TCH1002" VUndefined))
       (exec (CreateTeacher (Sample.teacher "TCH1001" (VNum 1)))
          (exec (CreateUser Sample.admin) MemStorage_empty).2).2).2.
Proof.
  apply teachers_reference_users_if_respected.
  repeat apply respecting_exec; try apply respecting_empty; try exact I.
  - intros uid Huid. vm_compute in Huid. injection Huid as <-.
    apply has_true. reflexivity.
  - intros uid Huid. vm_compute in Huid. discriminate.
Defined.

(** A teacher refers to user 1, and user 1 is deleted. *)
Lemma teachers_reference_users_counterexample :
  reachable
    (Sample.after [ CreateUser Sample.admin;
                    CreateTeacher (Sample.teacher "TCH1001" (VNum 1));
                    DeleteUser 1 ]) /\
  ~ teachers_reference_users
      (Sample.after [ CreateUser Sample.admin;
                      CreateTeacher (Sample.teacher "TCH1001" (VNum 1));
                      DeleteUser 1 ]).
Proof.
  split.
  - apply reachable_after. repeat (apply Forall_cons_2; [exact I |]).
    apply Forall_nil_2.
  - intros Hinv.
    destruct (Hinv (<["id" := VNum 1]> (Sample.teacher "TCH1001" (VNum 1))) 1)
      as [user Huser].
    + apply list_elem_of_here.
    + reflexivity.
    + vm_compute in Huser. discriminate.
Qed.

(** A teacher is created for a user that was never there. *)
Example teacher_of_missing_user :
  ~ teachers_reference_users
      (Sample.after [CreateTeacher (Sample.teacher "TCH1001" (VNum 999))]).
Proof.
  intros Hinv.
  destruct (Hinv (<["id" := VNum 1]> (Sample.teacher "TCH1001" (VNum 999))) 999)
    as [user Huser].
  - apply list_elem_of_here.
  - reflexivity.
  - vm_compute in Huser. discriminate.
Qed.

(** ** C9 *)


Example csv_plain_field :
  ExportData.csv_field (H := Sample.host) (VStr "Sarah Johnson") = "Sarah Johnson".
Proof. reflexivity. Qed.

Example csv_export :
  ExportData.exportToCSV (H := Sample.host)
    [ [("name", VStr "Fox, Robert"); ("score", VNum 19)];
      [("name", VStr "Emma"); ("score", VNull)] ]
    None
  = Some ("name,score" +:+ String ExportData.newline ""
          +:+ dq +:+ "Fox, Robert" +:+ dq +:+ ",19" +:+ String ExportData.newline ""
          +:+ "Emma,").
Proof. vm_compute. reflexivity. Qed.

(** ** C10 *)



Example attendance_filter_class_first :
  get_attendance (H := Sample.host) (Some "1") (Some "7") (Some "2024-05-02")
    (Sample.after
       [CreateAttendance (Sample.attendance 1 2 (VStr "2024-05-01") "present")])
  = response 200
      (Json_list [<["id" := VNum 1]>
                    (Sample.attendance 1 2 (VStr "2024-05-01") "present")]).
Proof. reflexivity. Qed.

Example attendance_filter_not_a_number :
  get_attendance (H := Sample.host) (Some "abc") None None
    (Sample.after
       [CreateAttendance (Sample.attendance 1 2 (VStr "2024-05-01") "present")])
  = response 200
      (Json_list [<["id" := VNum 1]>
                    (Sample.attendance 1 2 (VStr "2024-05-01") "present")]).
Proof. reflexivity. Qed.

Example attendance_filter_bad_date :
  status (get_attendance (H := Sample.host) None None (Some "tomorrow")
            (Sample.after
               [CreateAttendance (Sample.attendance 1 2 (VStr "2024-05-01") "present")]))
  = 500.
Proof. reflexivity. Qed.

(* ===================================================================== *)
(** * Part IV. More of the store, the routes and the export               *)
(* ===================================================================== *)

(** ** The store: create, lookup, update and delete together *)

Lemma create_of_shape e now d :
  create_of e now d = create_in e (if decide (e = Activity) then Some now else None) d.
Proof. destruct e; reflexivity. Qed.

Lemma with_store_same e s : with_store e (store_of e s) s = s.
Proof. destruct e, s; reflexivity. Qed.

Lemma set_new_append {V} k (v : V) m :
  JsMap.get k m = None -> JsMap.set k v m = (m ++ [(k, v)])%list.
Proof.
  induction m as [|[k' v'] r IH]; simpl; [done |].
  destruct (Z.eqb_spec k' k) as [->|Hne]; [done |].
  intros Hg. by rewrite IH.
Qed.

Lemma remove_absent {V} k (m : JsMap.t V) :
  JsMap.get k m = None -> JsMap.remove k m = m.
Proof.
  induction m as [|[k' v'] r IH]; simpl; [done |].
  destruct (Z.eqb_spec k' k) as [->|Hne]; [done |].
  intros Hg. simpl. by rewrite IH.
Qed.

Lemma counter_is_fresh e s :
  keys_below_counter s -> JsMap.get (counter_of e s) (store_of e s) = None.
Proof.
  intros Hk. destruct (JsMap.get _ _) as [v|] eqn:Hget; [|done].
  apply get_Some_key, Hk in Hget. lia.
Qed.

Lemma create_of_result e now d s :
  (create_of e now d s).1
  = stamped (if decide (e = Activity) then Some now else None)
      (<["id" := VNum (counter_of e s)]> d).
Proof. by rewrite create_of_shape. Qed.

Lemma create_of_store e now d s :
  keys_below_counter s ->
  store_of e (create_of e now d s).2
  = (store_of e s ++ [(counter_of e s, (create_of e now d s).1)])%list.
Proof.
  intros Hk. rewrite create_of_shape. unfold create_in. simpl.
  rewrite store_of_same. by apply set_new_append, counter_is_fresh.
Qed.

Lemma create_of_field e now d s f :
  f <> "id" -> f <> "timestamp" -> (create_of e now d s).1 !! f = d !! f.
Proof.
  intros Hid Hts. rewrite create_of_result.
  destruct (decide (e = Activity)); simpl.
  - by rewrite !lookup_insert_ne by congruence.
  - by rewrite lookup_insert_ne by congruence.
Qed.

(** X1. In every state the calls lead to, a create stores its record under
    a fresh identifier: the record is the input with [id] set to the counter
    (an [id] in the input is overwritten; for an activity so is
    [timestamp]), it goes last in the listing and every earlier entry stays
    as it was, reading the identifier back gives the record, the counter
    goes up by one, and the other collections and counters do not
    change. *)
Theorem create_appends (e : Entity) (now : Z) (d : Obj) (s : MemStorage) :
  reachable s ->
  let r := (create_of e now d s).1 in
  let s' := (create_of e now d s).2 in
  r !! "id" = Some (VNum (counter_of e s)) /\
  (forall f, f <> "id" -> (e = Activity -> f <> "timestamp") -> r !! f = d !! f) /\
  (e = Activity -> r !! "timestamp" = Some (VDate (Some now))) /\
  store_of e s' = (store_of e s ++ [(counter_of e s, r)])%list /\
  JsMap.get (counter_of e s) (store_of e s') = Some r /\
  (forall get, get_of e = Some get -> get (counter_of e s) s' = Some r) /\
  counter_of e s' = counter_of e s + 1 /\
  (forall e', e' <> e ->
     store_of e' s' = store_of e' s /\ counter_of e' s' = counter_of e' s).
Proof.
  intros Hs. apply reachable_well_formed in Hs as [Hk _].
  rewrite create_of_shape. unfold create_in. simpl.
  rewrite store_of_same, counter_of_with_store, counter_of_with_counter.
  destruct (decide (e = e)); [|done].
  split_and!.
  - destruct (decide (e = Activity)); simpl.
    + rewrite lookup_insert_ne by done. apply lookup_insert_eq.
    + apply lookup_insert_eq.
  - intros f Hid Hts. destruct (decide (e = Activity)) as [He|]; simpl.
    + rewrite lookup_insert_ne by (intros <-; by apply Hts).
      rewrite lookup_insert_ne by congruence. done.
    + rewrite lookup_insert_ne by congruence. done.
  - intros He. destruct (decide (e = Activity)); [|done]. simpl.
    apply lookup_insert_eq.
  - apply set_new_append, counter_is_fresh, Hk.
  - apply get_set_eq.
  - intros get Hget. apply get_of_shape in Hget as ->.
    rewrite store_of_same. apply get_set_eq.
  - reflexivity.
  - intros e' Hne.
    rewrite store_of_other, store_of_with_counter, counter_of_with_store,
      counter_of_with_counter by done.
    by destruct (decide (e' = e)).
Qed.

Lemma lookup_of_shape e f look :
  lookup_of e = Some (f, look) ->
  f <> "id" /\ f <> "timestamp" /\
  look = fun key s =>
           List.find (fun r => strict_eq_str (prop r f) key) (JsMap.values (store_of e s)).
Proof. destruct e; simpl; intros Heq; inversion Heq; done. Qed.

Lemma find_snoc {A} (p : A -> bool) l x :
  List.find p (l ++ [x])%list
  = match List.find p l with
    | Some y => Some y
    | None => if p x then Some x else None
    end.
Proof.
  induction l as [|a l IH]; simpl; [done |]. by destruct (p a).
Qed.

Lemma values_snoc {V} (m : JsMap.t V) k v :
  JsMap.values (m ++ [(k, v)])%list = (JsMap.values m ++ [v])%list.
Proof. unfold JsMap.values. by rewrite map_app. Qed.

(** X2. Business keys are not checked for duplicates, and a lookup by
    business key returns the earliest stored match. So after a create in a
    state the calls lead to, the lookup of a key that was already taken
    still returns the earlier record, also when the new record carries the
    same key; the lookup of a free key returns the new record exactly when
    the new record carries it. *)
Theorem lookup_after_create (e : Entity) (f : string)
    (look : string -> MemStorage -> option Obj) (key : string) (now : Z)
    (d : Obj) (s : MemStorage) :
  lookup_of e = Some (f, look) ->
  reachable s ->
  look key (create_of e now d s).2
  = match look key s with
    | Some earlier => Some earlier
    | None =>
        if strict_eq_str (prop d f) key then Some (create_of e now d s).1 else None
    end.
Proof.
  intros (Hid & Hts & ->)%lookup_of_shape Hs.
  apply reachable_well_formed in Hs as [Hk _].
  rewrite create_of_store, values_snoc, find_snoc by done.
  unfold prop at 2. by rewrite create_of_field.
Qed.

(** ** Listing order *)

Lemma set_existing_values {V} k (v v0 : V) m :
  JsMap.get k m = Some v0 ->
  exists i, JsMap.keys m !! i = Some k /\
            JsMap.values m !! i = Some v0 /\
            JsMap.values (JsMap.set k v m) = <[i := v]> (JsMap.values m).
Proof.
  induction m as [|[k' v'] r IH]; simpl; [done |].
  destruct (Z.eqb_spec k' k) as [->|Hne].
  - intros [= ->]. by exists 0%nat.
  - intros Hg. destruct (IH Hg) as (i & Hk & Hv & Hset).
    exists (S i). simpl. split_and!; [done | done |]. by rewrite Hset.
Qed.

(** X3. An update keeps the record in its place: the listing of the
    collection has the same length and the same records in the same order,
    except that the merged record stands where the old one stood. *)
Theorem update_in_place (e : Entity) (upd : Z -> Obj -> M (option Obj)) (id : Z)
    (p r : Obj) (s : MemStorage) :
  update_of e = Some upd ->
  JsMap.get id (store_of e s) = Some r ->
  exists i,
    JsMap.values (store_of e s) !! i = Some r /\
    JsMap.values (store_of e (upd id p s).2)
    = <[i := spread r p]> (JsMap.values (store_of e s)) /\
    JsMap.size (store_of e (upd id p s).2) = JsMap.size (store_of e s).
Proof.
  intros Hupd Hget. apply update_of_shape in Hupd as ->.
  unfold update_in. rewrite Hget. simpl. rewrite store_of_same.
  destruct (set_existing_values id (spread r p) r _ Hget) as (i & _ & Hv & Hset).
  exists i. split_and!; [done | done |].
  unfold JsMap.size. by rewrite (set_length_existing _ _ _ _ Hget).
Qed.

Lemma remove_present_values {V} k (v0 : V) m :
  NoDup (JsMap.keys m) ->
  JsMap.get k m = Some v0 ->
  exists i, JsMap.values m !! i = Some v0 /\
            JsMap.values (JsMap.remove k m) = delete i (JsMap.values m).
Proof.
  induction m as [|[k' v'] r IH]; simpl; [done |].
  intros [Hnotin Hnd]%NoDup_cons.
  destruct (Z.eqb_spec k' k) as [->|Hne]; simpl.
  - intros [= ->]. exists 0%nat. split; [done |]. simpl.
    rewrite remove_absent; [done |].
    destruct (JsMap.get k r) eqn:Hg; [|done].
    by apply get_Some_key in Hg.
  - intros Hg. destruct (IH Hnd Hg) as (i & Hv & Hdel).
    exists (S i). split; [done |]. simpl. by rewrite Hdel.
Qed.

(** X4. In every state the calls lead to, a delete of a stored identifier
    takes exactly that record out of the listing and leaves the others in
    their order, so the size goes down by one; a delete of an identifier
    that is not stored leaves the whole store as it was. *)
Theorem delete_takes_one_out (e : Entity) (del : Z -> M bool) (id : Z)
    (s : MemStorage) :
  delete_of e = Some del ->
  reachable s ->
  match JsMap.get id (store_of e s) with
  | Some r =>
      exists i,
        JsMap.values (store_of e s) !! i = Some r /\
        JsMap.values (store_of e (del id s).2) = delete i (JsMap.values (store_of e s)) /\
        JsMap.size (store_of e (del id s).2) = JsMap.size (store_of e s) - 1
  | None => (del id s).2 = s
  end.
Proof.
  intros Hdel Hs. apply delete_of_shape in Hdel as ->.
  apply reachable_well_formed in Hs as [_ Hnd].
  unfold delete_in. simpl.
  destruct (JsMap.get id (store_of e s)) as [r|] eqn:Hget.
  - rewrite store_of_same.
    destruct (remove_present_values id r _ (Hnd e) Hget) as (i & Hv & Hdel).
    exists i. split_and!; [done | done |].
    assert (Hlen : length (JsMap.remove id (store_of e s))
                   = length (delete i (JsMap.values (store_of e s)))).
    { rewrite <- Hdel. unfold JsMap.values. by rewrite length_map. }
    unfold JsMap.size. rewrite Hlen, length_delete by (by eexists).
    unfold JsMap.values. rewrite length_map.
    assert (0 < length (store_of e s))%nat.
    { apply lookup_lt_Some in Hv. unfold JsMap.values in Hv.
      rewrite length_map in Hv. lia. }
    lia.
  - rewrite remove_absent by done. apply with_store_same.
Qed.

(** ** Histories: sizes, identifiers, the activity log *)

Lemma exec_shape_well_formed sh s : well_formed s -> well_formed (exec_shape sh s).2.
Proof.
  intros [Hk Hn]. split; [by apply exec_shape_keys_below |].
  intros e. destruct sh as [e0 now d|e0 id d|e0 id]; simpl.
  - unfold fmap, M_fmap, create_in; simpl.
    rewrite store_of_with_store, ?store_of_with_counter.
    destruct (decide (e = e0)) as [->|Hne]; [|by rewrite ?store_of_with_counter].
    by apply NoDup_keys_set.
  - unfold fmap, M_fmap, update_in.
    destruct (JsMap.get id (store_of e0 s)); simpl; [|done].
    rewrite store_of_with_store.
    destruct (decide (e = e0)) as [->|Hne]; [|done].
    by apply NoDup_keys_set.
  - unfold fmap, M_fmap, delete_in; simpl.
    rewrite store_of_with_store.
    destruct (decide (e = e0)) as [->|Hne]; [|done].
    by apply NoDup_keys_remove.
Qed.

Lemma exec_well_formed c s : well_formed s -> well_formed (exec c s).2.
Proof. rewrite exec_shape_eq. apply exec_shape_well_formed. Qed.

Lemma well_formed_empty : well_formed MemStorage_empty.
Proof. split; [apply keys_below_counter_empty |]. intros e. destruct e; constructor. Qed.

Lemma created_is_create c s e :
  is_Some (created_id e (c, (exec c s).1)) <-> exists now d, shape c = IsCreate e now d.
Proof.
  destruct c; simpl;
    try (split; [by intros [? ?] | by intros (? & ? & ?)]);
    (destruct (decide (e = _)) as [->|Hne];
     [ split; [intros _; by eexists _, _ |];
       intros _;
       match goal with
       | |- is_Some (id_of (<["id" := VNum ?id]> ?d)) =>
           change (<["id" := VNum id]> d) with (stamped None (<["id" := VNum id]> d))
       | |- is_Some (id_of (<["timestamp" := VDate (Some ?t)]> (<["id" := VNum ?id]> ?d))) =>
           change (<["timestamp" := VDate (Some t)]> (<["id" := VNum id]> d))
             with (stamped (Some t) (<["id" := VNum id]> d))
       end;
       rewrite id_of_stamped; by eexists
     | split; [by intros [? ?] | intros (? & ? & [= ?]); congruence] ]).
Qed.

Lemma deleted_is_delete c s e :
  is_Some (deleted_id e (c, (exec c s).1))
  <-> exists id, shape c = IsDelete e id /\ JsMap.has id (store_of e s) = true.
Proof.
  destruct c; simpl;
    try (split; [by intros [? ?] | by intros (? & ? & ?)]);
    match goal with
    | |- context [JsMap.has ?id ?m] => destruct (JsMap.has id m) eqn:Hhas
    end;
    try (destruct (decide (e = _)) as [->|Hne]);
    (split; [intros [? ?] | intros (? & [= ?] & ?)]);
    simplify_eq; try done; try (by eexists); simpl in *; congruence.
Qed.

Lemma length_set_new {V} k (v : V) m :
  JsMap.get k m = None -> length (JsMap.set k v m) = S (length m).
Proof. intros Hg. rewrite set_new_append, length_app by done. simpl. lia. Qed.

Lemma length_remove_present {V} k (m : JsMap.t V) :
  NoDup (JsMap.keys m) -> JsMap.has k m = true ->
  S (length (JsMap.remove k m)) = length m.
Proof.
  induction m as [|[k' v'] r IH]; simpl; [done |].
  intros [Hnotin Hnd]%NoDup_cons. unfold JsMap.has. simpl.
  destruct (Z.eqb_spec k' k) as [->|Hne]; simpl.
  - intros _. rewrite remove_absent; [done |].
    destruct (JsMap.get k r) eqn:Hg; [|done]. by apply get_Some_key in Hg.
  - intros Hh. f_equal. by apply IH.
Qed.

Lemma length_remove_absent {V} k (m : JsMap.t V) :
  JsMap.has k m = false -> length (JsMap.remove k m) = length m.
Proof.
  unfold JsMap.has. destruct (JsMap.get k m) eqn:Hg; [done |].
  intros _. by rewrite remove_absent.
Qed.

Lemma count_created_cons e ev tr :
  count_created e (ev :: tr)
  = ((if bool_decide (is_Some (created_id e ev)) then 1 else 0)
     + count_created e tr)%nat.
Proof. unfold count_created. simpl. by case_bool_decide. Qed.

Lemma count_deleted_cons e ev tr :
  count_deleted e (ev :: tr)
  = ((if bool_decide (is_Some (deleted_id e ev)) then 1 else 0)
     + count_deleted e tr)%nat.
Proof. unfold count_deleted. simpl. by case_bool_decide. Qed.

Lemma exec_size c s e :
  well_formed s ->
  (length (store_of e (exec c s).2)
   + (if bool_decide (is_Some (deleted_id e (c, (exec c s).1))) then 1 else 0)
   = length (store_of e s)
     + (if bool_decide (is_Some (created_id e (c, (exec c s).1))) then 1 else 0))%nat.
Proof.
  intros [Hk Hn].
  assert (Hc : bool_decide (is_Some (created_id e (c, (exec c s).1))) = true
               <-> exists now d, shape c = IsCreate e now d)
    by (rewrite bool_decide_eq_true; apply created_is_create).
  assert (Hd : bool_decide (is_Some (deleted_id e (c, (exec c s).1))) = true
               <-> exists id, shape c = IsDelete e id
                              /\ JsMap.has id (store_of e s) = true)
    by (rewrite bool_decide_eq_true; apply deleted_is_delete).
  set (bc := bool_decide (is_Some (created_id e (c, (exec c s).1)))) in *.
  set (bd := bool_decide (is_Some (deleted_id e (c, (exec c s).1)))) in *.
  clearbody bc bd. rewrite exec_shape_eq.
  destruct (shape c) as [e0 now d|e0 id d|e0 id]; simpl.
  - assert (bd = false) as ->
      by (destruct bd; [|done]; destruct Hd as [Hd _]; by destruct Hd as (? & ? & ?)).
    unfold fmap, M_fmap, create_in; simpl.
    rewrite store_of_with_store, store_of_with_counter.
    destruct (decide (e = e0)) as [->|Hne].
    + assert (bc = true) as -> by (apply Hc; by eexists _, _).
      rewrite length_set_new by (by apply counter_is_fresh). lia.
    + assert (bc = false) as ->
        by (destruct bc; [|done]; destruct Hc as [Hc _];
            destruct Hc as (? & ? & [= ?]); [done | congruence]).
      lia.
  - assert (bd = false) as ->
      by (destruct bd; [|done]; destruct Hd as [Hd _]; by destruct Hd as (? & ? & ?)).
    assert (bc = false) as ->
      by (destruct bc; [|done]; destruct Hc as [Hc _]; by destruct Hc as (? & ? & ?)).
    unfold fmap, M_fmap, update_in.
    destruct (JsMap.get id (store_of e0 s)) as [r|] eqn:Hget; simpl; [|lia].
    rewrite store_of_with_store.
    destruct (decide (e = e0)) as [->|Hne]; [|lia].
    rewrite (set_length_existing _ _ _ _ Hget). lia.
  - assert (bc = false) as ->
      by (destruct bc; [|done]; destruct Hc as [Hc _]; by destruct Hc as (? & ? & ?)).
    unfold fmap, M_fmap, delete_in; simpl.
    rewrite store_of_with_store.
    destruct (decide (e = e0)) as [->|Hne].
    + destruct (JsMap.has id (store_of e0 s)) eqn:Hhas.
      * assert (bd = true) as -> by (apply Hd; by eexists).
        pose proof (length_remove_present id _ (Hn e0) Hhas). lia.
      * assert (bd = false) as ->
          by (destruct bd; [|done]; destruct Hd as [Hd _];
              destruct Hd as (? & [= ->] & ?); [done | congruence]).
        rewrite length_remove_absent by done. lia.
    + assert (bd = false) as ->
        by (destruct bd; [|done]; destruct Hd as [Hd _];
            destruct Hd as (? & [= ? ?] & ?); [done | congruence]).
      lia.
Qed.

Lemma run_size cs : forall s e,
  well_formed s ->
  (length (store_of e (run cs s).2) + count_deleted e (run cs s).1
   = length (store_of e s) + count_created e (run cs s).1)%nat.
Proof.
  induction cs as [|c cs IH]; intros s e Hs; [done |].
  rewrite run_cons. simpl. rewrite count_created_cons, count_deleted_cons.
  pose proof (IH (exec c s).2 e (exec_well_formed c s Hs)).
  pose proof (exec_size c s e Hs). lia.
Qed.

(** X5. After any sequence of calls on a new store, the size of a
    collection is the number of its create calls minus the number of its
    delete calls that returned true; updates, failed deletes and calls on
    other collections do not count. The three totals of the dashboard are
    these numbers for students, teachers and classes. *)
Theorem size_is_created_minus_deleted (cs : list Call) (e : Entity) :
  let tr := (run cs MemStorage_empty).1 in
  let s := (run cs MemStorage_empty).2 in
  JsMap.size (store_of e s)
  = Z.of_nat (count_created e tr) - Z.of_nat (count_deleted e tr) /\
  totalStudents (getDashboardStats s)
  = Z.of_nat (count_created Student tr) - Z.of_nat (count_deleted Student tr) /\
  totalTeachers (getDashboardStats s)
  = Z.of_nat (count_created Teacher tr) - Z.of_nat (count_deleted Teacher tr) /\
  totalClasses (getDashboardStats s)
  = Z.of_nat (count_created Class tr) - Z.of_nat (count_deleted Class tr).
Proof.
  assert (Hsize : forall e,
    JsMap.size (store_of e (run cs MemStorage_empty).2)
    = Z.of_nat (count_created e (run cs MemStorage_empty).1)
      - Z.of_nat (count_deleted e (run cs MemStorage_empty).1)).
  { intros e'. pose proof (run_size cs MemStorage_empty e' well_formed_empty) as Hrun.
    unfold JsMap.size.
    replace (length (store_of e' MemStorage_empty)) with 0%nat in Hrun
      by (by destruct e').
    lia. }
  simpl. split_and!; [apply Hsize | apply (Hsize Student) | apply (Hsize Teacher)
                      | apply (Hsize Class)].
Qed.

(** *** The identifier of a stored record *)

Lemma get_set_cases {V} k k' (v : V) m :
  JsMap.get k' (JsMap.set k v m) = if decide (k' = k) then Some v else JsMap.get k' m.
Proof.
  destruct (decide (k' = k)) as [->|Hne]; [apply get_set_eq |].
  apply get_set_ne. congruence.
Qed.

Lemma get_remove_Some {V} k k' (v : V) m :
  JsMap.get k' (JsMap.remove k m) = Some v -> JsMap.get k' m = Some v.
Proof.
  destruct (decide (k = k')) as [->|Hne]; [by rewrite get_remove_eq |].
  by rewrite get_remove_ne.
Qed.

Lemma patch_without_id_shape c e id d :
  patch_without_id c -> shape c = IsUpdate e id d -> d !! "id" = None.
Proof. destruct c; simpl; intros Hp [= ? ? ?]; by subst. Qed.

Lemma exec_ids_are_keys c s :
  patch_without_id c -> ids_are_keys s -> ids_are_keys (exec c s).2.
Proof.
  intros Hp Hs e k r. rewrite exec_shape_eq.
  destruct (shape c) as [e0 now d|e0 id d|e0 id] eqn:Hsh; simpl.
  - unfold fmap, M_fmap, create_in; simpl.
    rewrite store_of_with_store, store_of_with_counter.
    destruct (decide (e = e0)) as [->|Hne]; [|apply Hs].
    rewrite get_set_cases. destruct (decide _) as [->|]; [|apply Hs].
    intros [= <-]. destruct now as [t|]; simpl.
    + rewrite lookup_insert_ne by done. apply lookup_insert_eq.
    + apply lookup_insert_eq.
  - unfold fmap, M_fmap, update_in.
    destruct (JsMap.get id (store_of e0 s)) as [r0|] eqn:Hget; simpl; [|apply Hs].
    rewrite store_of_with_store.
    destruct (decide (e = e0)) as [->|Hne]; [|apply Hs].
    rewrite get_set_cases. destruct (decide _) as [->|]; [|apply Hs].
    intros [= <-]. unfold spread. apply lookup_union_Some_raw. right.
    split; [by eapply patch_without_id_shape |]. by eapply Hs.
  - unfold fmap, M_fmap, delete_in; simpl.
    rewrite store_of_with_store.
    destruct (decide (e = e0)) as [->|Hne]; [|apply Hs].
    intros Hg%get_remove_Some. by eapply Hs.
Qed.

(** X6. A stored record carries the identifier it is stored under, in
    every state reached by calls whose update patches have no [id]: a
    create writes the counter over any [id] of its input, a delete changes
    no record, and an update keeps the [id] of the record unless the patch
    brings one, which the store does not prevent. *)
Theorem stored_id_is_key (cs : list Call) (e : Entity) (k : Z) (r : Obj) :
  Forall patch_without_id cs ->
  JsMap.get k (store_of e (run cs MemStorage_empty).2) = Some r ->
  r !! "id" = Some (VNum k).
Proof.
  intros Hcs. revert e k r. change (ids_are_keys (run cs MemStorage_empty).2).
  assert (Hempty : ids_are_keys MemStorage_empty) by (intros e k r; by destruct e).
  revert Hempty. generalize MemStorage_empty.
  induction Hcs as [|c cs Hc Hcs IH]; intros s Hs; [done |].
  rewrite run_cons. simpl. by apply IH, exec_ids_are_keys.
Qed.

(** *** The activity log *)

Lemma shape_entity_activity c :
  shape_entity (shape c) = Activity -> exists now d, c = CreateActivity now d.
Proof. destruct c; simpl; try discriminate. by eexists _, _. Qed.

Lemma exec_activities_prefix c s :
  well_formed s ->
  exists new, activities (exec c s).2 = (activities s ++ new)%list.
Proof.
  intros [Hk _].
  destruct (decide (shape_entity (shape c) = Activity)) as [He|Hne].
  - apply shape_entity_activity in He as (now & d & ->).
    eexists. apply (create_of_store Activity now d s Hk).
  - exists []. rewrite app_nil_r. by apply (exec_other c s Activity).
Qed.

(** X7. The activity log only grows: whatever calls follow, on any
    collection, the activities stored so far stay in the log, unchanged
    and in their order, and later ones come after them. No call updates or
    deletes an activity. *)
Theorem activities_append_only (cs : list Call) (s : MemStorage) :
  reachable s ->
  exists new,
    JsMap.values (activities (run cs s).2) = (JsMap.values (activities s) ++ new)%list.
Proof.
  intros Hs%reachable_well_formed. change (well_formed s) in Hs.
  revert s Hs. induction cs as [|c cs IH]; intros s Hs.
  - exists []. by rewrite app_nil_r.
  - rewrite run_cons. simpl.
    destruct (IH _ (exec_well_formed c s Hs)) as [new2 ->].
    destruct (exec_activities_prefix c s Hs) as [new1 ->].
    exists (JsMap.values new1 ++ new2)%list.
    unfold JsMap.values. by rewrite map_app, app_assoc.
Qed.

(** A call leaves the counters of the other collections alone. *)
Lemma exec_counter_other c s e :
  shape_entity (shape c) <> e -> counter_of e (exec c s).2 = counter_of e s.
Proof.
  rewrite exec_shape_eq.
  destruct (shape c) as [e0 now d|e0 id d|e0 id]; simpl; intros Hne.
  - unfold fmap, M_fmap, create_in; simpl.
    rewrite counter_of_with_store, counter_of_with_counter.
    by destruct (decide (e = e0)).
  - unfold fmap, M_fmap, update_in.
    destruct (JsMap.get id (store_of e0 s)); simpl; [|done].
    by rewrite counter_of_with_store.
  - unfold fmap, M_fmap, delete_in; simpl. by rewrite counter_of_with_store.
Qed.

(** *** Ties in the feed *)

Lemma StronglySorted_snoc {A} (R : A -> A -> Prop) l y :
  StronglySorted R l -> Forall (fun x => R x y) l -> StronglySorted R (l ++ [y])%list.
Proof.
  induction 1 as [|x l Hl IH Hx]; simpl; intros Hy.
  - repeat constructor.
  - apply Forall_cons in Hy as [Hxy Hy]. constructor; [by apply IH |].
    apply Forall_app. split; [done |]. by constructor.
Qed.

Lemma exec_activities_in_key_order c s :
  well_formed s -> in_key_order (activities s) -> in_key_order (activities (exec c s).2).
Proof.
  intros [Hk _] [Hid Hsorted].
  destruct (decide (shape_entity (shape c) = Activity)) as [He|Hne].
  - apply shape_entity_activity in He as (now & d & ->).
    change (activities ?x) with (store_of Activity x).
    change (exec (CreateActivity now d) s) with ((Created <$> create_of Activity now d) s).
    unfold fmap, M_fmap.
    destruct (create_of Activity now d s) as [r s'] eqn:Hcr. simpl.
    pose proof (create_of_store Activity now d s Hk) as Hstore.
    pose proof (create_of_result Activity now d s) as Hres.
    rewrite Hcr in Hstore, Hres. simpl in Hstore, Hres. rewrite Hstore. split.
    + apply Forall_app. split; [done |]. constructor; [|done]. simpl.
      rewrite Hres. apply (id_of_stamped (Some now)).
    + unfold JsMap.keys. rewrite map_app. simpl.
      apply StronglySorted_snoc; [done |].
      apply Forall_forall. intros k Hin. by apply (Hk Activity).
  - change (activities ?x) with (store_of Activity x).
    by rewrite (exec_other c s Activity).
Qed.

Lemma reachable_in_key_order s : reachable s -> in_key_order (activities s).
Proof.
  induction 1 as [|c s Hs IH Hclock].
  - split; constructor.
  - apply exec_activities_in_key_order; [|done].
    by apply reachable_well_formed in Hs.
Qed.

Section Ties.
Context `{Host}.

Lemma in_key_order_values m :
  in_key_order m -> StronglySorted created_before (JsMap.values m).
Proof.
  intros [Hid Hsorted]. induction m as [|[k r] m IH]; simpl; [constructor |].
  apply Forall_cons in Hid as [Hr Hid]. simpl in Hr, Hsorted.
  apply StronglySorted_inv in Hsorted as [Hsorted Hk].
  constructor; [by apply IH |].
  clear IH Hsorted. induction m as [|[k' r'] m IH]; simpl; [constructor |].
  apply Forall_cons in Hid as [Hr' Hid]. apply Forall_cons in Hk as [Hk' Hk].
  constructor; [by exists k, k' | by apply IH].
Qed.

Lemma insert_sorted_HdRel_before a b l :
  listed_before b a -> HdRel listed_before b l ->
  HdRel listed_before b (insert_sorted activity_cmp a l).
Proof.
  intros Hba Hbl. destruct l as [|c l]; simpl; [by constructor |].
  destruct (cmp_le activity_cmp a c); constructor; [done |].
  by apply HdRel_inv in Hbl.
Qed.

Lemma insert_sorted_before a l :
  clocked a ->
  Forall clocked l ->
  Forall (created_before a) l ->
  Sorted listed_before l ->
  Sorted listed_before (insert_sorted activity_cmp a l).
Proof.
  intros (ta & Hta & Hra) Hts Hid Hl. induction l as [|b l IH]; simpl.
  - repeat constructor.
  - apply Forall_cons in Hts as [(tb & Htb & Hrb) Hts].
    apply Forall_cons in Hid as [(ka & kb & Hka & Hkb & Hlt) Hid].
    apply Sorted_inv in Hl as [Hl Hhd].
    rewrite (activity_cmp_cases a b ta tb) by (by apply clocked_timestamp).
    destruct (Z.leb_spec tb ta) as [Hle|Hgt].
    + constructor; [by constructor |]. constructor.
      exists ta, tb, ka, kb. split_and!; try done. lia.
    + constructor; [by apply IH |].
      apply insert_sorted_HdRel_before; [|done].
      exists tb, ta, kb, ka. split_and!; try done. lia.
Qed.

Lemma sort_before l :
  Forall clocked l ->
  StronglySorted created_before l ->
  Sorted listed_before (sort activity_cmp l).
Proof.
  induction l as [|a l IH]; simpl; intros Hts Hid; [constructor |].
  apply Forall_cons in Hts as [Ha Hts].
  apply StronglySorted_inv in Hid as [Hid Hal].
  apply insert_sorted_before; [done | | | by apply IH].
  - by rewrite sort_perm.
  - by rewrite sort_perm.
Qed.

(** X8. The feed has one order: in every state the calls lead to, of two
    neighbours in the result of [getActivities] the first holds the later
    time value in its timestamp, or they hold the same time value and the
    first was created first (it has the smaller identifier). So activities
    logged within one millisecond are listed oldest first. *)
Theorem activities_ties_oldest_first (s : MemStorage) (i : nat) (a b : Obj) :
  reachable s ->
  getActivities s !! i = Some a ->
  getActivities s !! S i = Some b ->
  listed_before a b.
Proof.
  intros Hs. apply Sorted_adjacent. apply sort_before.
  - by apply reachable_clocked.
  - by apply in_key_order_values, reachable_in_key_order.
Qed.

End Ties.

(** ** How calls compose *)

Lemma set_set {V} k (v1 v2 : V) m :
  JsMap.set k v2 (JsMap.set k v1 m) = JsMap.set k v2 m.
Proof.
  induction m as [|[k' v'] r IH]; simpl.
  - by rewrite Z.eqb_refl.
  - destruct (Z.eqb_spec k' k) as [->|Hne]; simpl.
    + by rewrite Z.eqb_refl.
    + destruct (Z.eqb_spec k' k); [done |]. by rewrite IH.
Qed.

Lemma with_store_twice e m1 m2 s :
  with_store e m2 (with_store e m1 s) = with_store e m2 s.
Proof. destruct e, s; reflexivity. Qed.

(** X9. Two updates of one record are one update with the two patches
    merged, the second over the first: the result and the store are the
    same. So an update repeated with the same patch changes nothing
    more. *)
Theorem update_patches_compose (e : Entity) (upd : Z -> Obj -> M (option Obj))
    (id : Z) (p1 p2 : Obj) (s : MemStorage) :
  update_of e = Some upd ->
  upd id p2 (upd id p1 s).2 = upd id (spread p1 p2) s.
Proof.
  intros ->%update_of_shape. unfold update_in.
  destruct (JsMap.get id (store_of e s)) as [r|] eqn:Hget; simpl.
  - rewrite store_of_same, get_set_eq, set_set, with_store_twice.
    unfold spread. by rewrite (assoc_L (∪)).
  - by rewrite Hget.
Qed.

Lemma MemStorage_ext s s' :
  (forall e, store_of e s = store_of e s' /\ counter_of e s = counter_of e s') ->
  s = s'.
Proof.
  intros Hall.
  pose proof (Hall User) as [? ?]. pose proof (Hall Student) as [? ?].
  pose proof (Hall Teacher) as [? ?]. pose proof (Hall Class) as [? ?].
  pose proof (Hall ClassEnrollment) as [? ?]. pose proof (Hall Attendance) as [? ?].
  pose proof (Hall Grade) as [? ?]. pose proof (Hall Event) as [? ?].
  pose proof (Hall Activity) as [? ?].
  destruct s, s'. simpl in *. by subst.
Qed.

(** A call reads and writes the map and the counter of its collection
    only. *)
Lemma exec_local c s s' :
  store_of (shape_entity (shape c)) s = store_of (shape_entity (shape c)) s' ->
  counter_of (shape_entity (shape c)) s = counter_of (shape_entity (shape c)) s' ->
  (exec c s).1 = (exec c s').1 /\
  store_of (shape_entity (shape c)) (exec c s).2
  = store_of (shape_entity (shape c)) (exec c s').2 /\
  counter_of (shape_entity (shape c)) (exec c s).2
  = counter_of (shape_entity (shape c)) (exec c s').2.
Proof.
  rewrite !exec_shape_eq.
  destruct (shape c) as [e now d|e id d|e id]; simpl; intros Hm Hn.
  - unfold fmap, M_fmap, create_in; simpl.
    rewrite !store_of_same, !counter_of_with_store, !counter_of_with_counter.
    destruct (decide (e = e)); [|done]. by rewrite Hm, Hn.
  - unfold fmap, M_fmap, update_in. rewrite <- Hm.
    destruct (JsMap.get id (store_of e s)); simpl; [|done].
    by rewrite !store_of_same, !counter_of_with_store.
  - unfold fmap, M_fmap, delete_in; simpl.
    by rewrite !store_of_same, !counter_of_with_store, Hm.
Qed.

(** X10. Calls on different collections do not interfere: done in either
    order they return the same results and leave the same store. *)
Theorem calls_on_different_collections_commute (c1 c2 : Call) (s : MemStorage) :
  shape_entity (shape c1) <> shape_entity (shape c2) ->
  (exec c1 s).1 = (exec c1 (exec c2 s).2).1 /\
  (exec c2 s).1 = (exec c2 (exec c1 s).2).1 /\
  (exec c2 (exec c1 s).2).2 = (exec c1 (exec c2 s).2).2.
Proof.
  intros Hne.
  set (e1 := shape_entity (shape c1)) in *. set (e2 := shape_entity (shape c2)) in *.
  assert (H21 : store_of e1 (exec c2 s).2 = store_of e1 s
                /\ counter_of e1 (exec c2 s).2 = counter_of e1 s).
  { split; [apply exec_other | apply exec_counter_other]; by fold e2. }
  assert (H12 : store_of e2 (exec c1 s).2 = store_of e2 s
                /\ counter_of e2 (exec c1 s).2 = counter_of e2 s).
  { split; [apply exec_other | apply exec_counter_other]; fold e1; congruence. }
  destruct H21 as [Hm21 Hn21]. destruct H12 as [Hm12 Hn12].
  destruct (exec_local c1 s (exec c2 s).2) as (Hr1 & Hs1 & Hc1);
    [exact (eq_sym Hm21) | exact (eq_sym Hn21) |].
  destruct (exec_local c2 s (exec c1 s).2) as (Hr2 & Hs2 & Hc2);
    [exact (eq_sym Hm12) | exact (eq_sym Hn12) |].
  fold e1 in Hs1, Hc1. fold e2 in Hs2, Hc2.
  split_and!; [done | done |].
  apply MemStorage_ext. intros e.
  assert (Hother : forall c s0 e0,
            shape_entity (shape c) <> e0 ->
            store_of e0 (exec c s0).2 = store_of e0 s0
            /\ counter_of e0 (exec c s0).2 = counter_of e0 s0).
  { intros c s0 e0 Hc. split; [by apply exec_other | by apply exec_counter_other]. }
  destruct (decide (e = e1)) as [->|He1]; [|destruct (decide (e = e2)) as [->|He2]].
  - destruct (Hother c2 (exec c1 s).2 e1) as [-> ->]; [fold e2; congruence |].
    by rewrite Hs1, Hc1.
  - destruct (Hother c1 (exec c2 s).2 e2) as [-> ->]; [fold e1; congruence |].
    by rewrite Hs2, Hc2.
  - destruct (Hother c2 (exec c1 s).2 e) as [-> ->]; [fold e2; congruence |].
    destruct (Hother c1 (exec c2 s).2 e) as [-> ->]; [fold e1; congruence |].
    destruct (Hother c1 s e) as [-> ->]; [fold e1; congruence |].
    by destruct (Hother c2 s e) as [-> ->]; [fold e2; congruence |].
Qed.

(** ** Identifiers in a path *)

Section ParseInt.

Lemma digit_value_pretty_N_char m :
  (m < 10)%N -> digit_value 10 (pretty_N_char m) = Some (Z.of_N m).
Proof.
  intros Hm.
  assert (m = 0 \/ m = 1 \/ m = 2 \/ m = 3 \/ m = 4 \/ m = 5 \/ m = 6 \/ m = 7
          \/ m = 8 \/ m = 9)%N as Hcases by lia.
  repeat (destruct Hcases as [->|Hcases]; [reflexivity |]). by subst.
Qed.

Lemma pretty_N_go_digits x : forall s acc,
  (0 < x)%N ->
  exists p, digits 10 (pretty_N_go x s) acc
            = digits 10 s (Some (default 0 acc * p + Z.of_N x)).
Proof.
  induction (N.lt_wf_0 x) as [x _ IH]. intros s acc Hx.
  rewrite pretty_N_go_step by done.
  assert (Hmod : (x `mod` 10 < 10)%N) by (by apply N.mod_lt).
  pose proof (N.div_mod x 10 ltac:(done)) as Hdm.
  destruct (decide (x `div` 10 = 0)%N) as [Hz|Hnz].
  - rewrite Hz, pretty_N_go_0. simpl.
    rewrite digit_value_pretty_N_char by done.
    exists 10. do 2 f_equal. lia.
  - destruct (IH (x `div` 10)%N ltac:(apply N.div_lt; lia)
                (String (pretty_N_char (x `mod` 10)) s) acc ltac:(lia)) as [p ->].
    simpl. rewrite digit_value_pretty_N_char by done.
    exists (p * 10). do 2 f_equal. simpl. lia.
Qed.

Lemma pretty_N_go_head x : forall s,
  (0 < x)%N ->
  exists m r, (1 <= m <= 9)%N /\ pretty_N_go x s = String (pretty_N_char m) r.
Proof.
  induction (N.lt_wf_0 x) as [x _ IH]. intros s Hx.
  rewrite pretty_N_go_step by done.
  assert (Hmod : (x `mod` 10 < 10)%N) by (by apply N.mod_lt).
  pose proof (N.div_mod x 10 ltac:(done)) as Hdm.
  destruct (decide (x `div` 10 = 0)%N) as [Hz|Hnz].
  - rewrite Hz, pretty_N_go_0. exists (x `mod` 10)%N, s. split; [lia | done].
  - apply IH; [apply N.div_lt |]; lia.
Qed.

Lemma pretty_N_go_append x : forall s t,
  pretty_N_go x s +:+ t = pretty_N_go x (s +:+ t).
Proof.
  induction (N.lt_wf_0 x) as [x _ IH]. intros s t.
  destruct (decide (x = 0)%N) as [->|Hnz]; [by rewrite !pretty_N_go_0 |].
  rewrite (pretty_N_go_step x s), (pretty_N_go_step x (s +:+ t)) by lia.
  rewrite IH by (apply N.div_lt; lia). reflexivity.
Qed.

Lemma digits_ends_number rest n :
  ends_number rest = true -> digits 10 rest (Some n) = Some n.
Proof.
  destruct rest as [|c rest]; simpl; [done |].
  by destruct (digit_value 10 c).
Qed.

Lemma to_double_safe n : safe_integer n -> to_double n = n.
Proof.
  unfold safe_integer, to_double. intros Hn.
  destruct (Z.ltb_spec (Z.abs n) (2 ^ 53)) as [|Hge]; [done |].
  change (2 ^ 53) with 9007199254740992 in Hge. lia.
Qed.

Lemma parseInt_digit m r :
  (1 <= m <= 9)%N ->
  parseInt (String (pretty_N_char m) r)
  = to_double <$> digits 10 (String (pretty_N_char m) r) None /\
  parseInt (String "-" (String (pretty_N_char m) r))
  = (fun n => to_double (- n)) <$> digits 10 (String (pretty_N_char m) r) None.
Proof.
  intros Hm.
  assert (m = 1 \/ m = 2 \/ m = 3 \/ m = 4 \/ m = 5 \/ m = 6 \/ m = 7
          \/ m = 8 \/ m = 9)%N as Hcases by lia.
  unfold parseInt.
  repeat (destruct Hcases as [->|Hcases];
          [split; simpl; by destruct (digits 10 r _) |]).
  subst. split; simpl; by destruct (digits 10 r _).
Qed.

Lemma parseInt_positive x rest :
  (0 < x)%N -> ends_number rest = true ->
  parseInt (pretty_N_go x rest) = Some (to_double (Z.of_N x)) /\
  parseInt (String "-" (pretty_N_go x rest)) = Some (to_double (- Z.of_N x)).
Proof.
  intros Hx Hrest.
  destruct (pretty_N_go_digits x rest None Hx) as [p Hd].
  rewrite (digits_ends_number rest) in Hd by done. simpl in Hd.
  destruct (pretty_N_go_head x rest Hx) as (m & r & Hm & Heq).
  rewrite Heq in Hd |- *.
  destruct (parseInt_digit m r Hm) as [-> ->]. by rewrite Hd.
Qed.

(** X11. The decimal text of an integer, as a template literal prints an
    identifier into a path, is read back by [parseInt] as that integer,
    also when other text follows that does not start with a digit or an
    [x]: the text after the number is ignored. *)
Theorem parseInt_reads_identifier `{Host} (n : Z) (rest : string) :
  safe_integer n ->
  ends_number rest = true ->
  parseInt (ToString (VNum n) +:+ rest) = Some n.
Proof.
  intros Hsafe Hrest. rewrite <- (to_double_safe n Hsafe) at 2.
  simpl. unfold pretty, pretty_Z.
  destruct n as [|x|x].
  - destruct rest as [|c rest]; [reflexivity |]. simpl in Hrest.
    unfold parseInt. simpl.
    destruct (digit_value 10 c) eqn:Hc; [done |].
    destruct (Ascii.eqb_spec c "x") as [->|Hx]; [done |].
    destruct (Ascii.eqb_spec c "X") as [->|HX]; [done |].
    destruct c as [[] [] [] [] [] [] [] []]; try done; simpl; by rewrite ?Hc.
  - unfold pretty, pretty_positive, pretty, pretty_N.
    destruct (decide (N.pos x = 0)%N); [done |].
    rewrite pretty_N_go_append. simpl append.
    by apply (parseInt_positive (N.pos x) rest).
  - unfold pretty, pretty_positive, pretty, pretty_N.
    destruct (decide (N.pos x = 0)%N); [done |].
    change (parseInt (String "-" (pretty_N_go (N.pos x) "" +:+ rest))
            = Some (to_double (Z.neg x))).
    rewrite pretty_N_go_append. simpl append.
    by apply (parseInt_positive (N.pos x) rest).
Qed.

End ParseInt.

(** ** The routes: what a request does to the store *)

Section Requests.
Context `{Host} `{Zod}.

Ltac unfold_handlers :=
  unfold post_users, put_users, delete_users, post_students, put_students,
    delete_students, post_teachers, put_teachers, delete_teachers, post_classes,
    put_classes, delete_classes, post_class_enrollments, delete_class_enrollments,
    post_attendance, put_attendance, delete_attendance, post_grades, put_grades,
    delete_grades, post_events, put_events, delete_events.

(** Every handler of a writing request makes at most one call on the
    store, and logs one activity exactly when that call took effect. *)
Lemma serve_outcome now q s :
  match request_call q with
  | Some c =>
      if takes_effect c s
      then Some (serve now q s).1 = success_response (exec c s).1 /\
           exists a, (serve now q s).2 = (exec (CreateActivity now a) (exec c s).2).2
      else status (serve now q s).1 = 404 /\ (serve now q s).2 = s
  | None => status (serve now q s).1 = 400 /\ (serve now q s).2 = s
  end.
Proof.
  destruct q as [r body|r]; simpl.
  - destruct r; simpl; unfold_handlers;
      destruct (safeParse _ body) as [data|err]; simpl;
      try (destruct (parseInt id) as [k|]; simpl);
      try done;
      try (split; [done | eexists; reflexivity]);
      unfold takes_effect; simpl;
      unfold fmap, M_fmap, updateUser, updateStudent, updateTeacher, updateClass,
        updateAttendance, updateGrade, updateEvent;
      destruct (JsMap.get k _) as [r|]; simpl;
      try done; (split; [done | eexists; reflexivity]).
  - destruct r; simpl; unfold_handlers;
      (destruct (parseInt id) as [k|]; simpl; [|done]);
      unfold takes_effect; simpl;
      unfold getUser, getStudent, getTeacher, getClass, getEvent, fmap, M_fmap,
        deleteUser, deleteStudent, deleteTeacher, deleteClass, deleteEvent,
        deleteClassEnrollment, deleteAttendance, deleteGrade, JsMap.delete,
        JsMap.has;
      destruct (JsMap.get k _) as [r|] eqn:Hget; simpl;
      try done;
      try (split; [done | eexists; reflexivity]);
      (split; [done |]); rewrite remove_absent by done.
    + apply (with_store_same ClassEnrollment).
    + apply (with_store_same Attendance).
    + apply (with_store_same Grade).
Qed.

Lemma write_call_entity r data c :
  write_call r data = Some c ->
  shape_entity (shape c) = write_entity r /\ write_entity r <> Activity.
Proof.
  destruct r; simpl; try (destruct (parseInt id); simpl);
    intros [= <-]; done.
Qed.

Lemma delete_call_entity r c :
  delete_call r = Some c ->
  shape_entity (shape c) = delete_entity r /\ delete_entity r <> Activity.
Proof.
  destruct r; simpl; destruct (parseInt id); simpl; intros [= <-]; done.
Qed.

Lemma request_call_entity q c :
  request_call q = Some c ->
  shape_entity (shape c) = request_entity q /\ request_entity q <> Activity.
Proof.
  destruct q as [r body|r]; simpl.
  - destruct (safeParse _ body); [apply write_call_entity | done].
  - apply delete_call_entity.
Qed.

(** X12. A writing request that is refused leaves no trace: when the
    status of the answer is 400 or above, every map and every counter of
    the store is as the handler found it, and no activity is logged. This
    holds for all twenty-three POST, PUT and DELETE routes, whether the
    identifier does not parse, the payload is rejected or the record is not
    there. *)
Theorem refused_request_leaves_store (now : Z) (q : Request) (s : MemStorage) :
  400 <= status (serve now q s).1 -> (serve now q s).2 = s.
Proof.
  pose proof (serve_outcome now q s) as Hq.
  destruct (request_call q) as [c|]; [|by destruct Hq].
  unfold takes_effect in Hq.
  destruct (exec c s).1 as [r|[r|]|[]] eqn:Hx; simpl in Hq;
    destruct Hq as [Hst Hs]; try done; injection Hst as Hst; rewrite Hst; simpl; lia.
Qed.

(** X13. A writing request that succeeds is logged once: in every state
    the calls lead to, when the status is below 400 the activity log gains
    exactly one entry, stored under the activity counter and stamped with
    the clock reading of the request, the activity counter goes up by one,
    and the only other collection that may change is the one the route
    writes to. *)
Theorem successful_request_logs_once (now : Z) (q : Request) (s : MemStorage) :
  reachable s ->
  status (serve now q s).1 < 400 ->
  let s' := (serve now q s).2 in
  exists a,
    activities s' = (activities s ++ [(activityIdCounter s, a)])%list /\
    a !! "id" = Some (VNum (activityIdCounter s)) /\
    a !! "timestamp" = Some (VDate (Some now)) /\
    activityIdCounter s' = activityIdCounter s + 1 /\
    forall e, e <> request_entity q -> e <> Activity ->
              store_of e s' = store_of e s /\ counter_of e s' = counter_of e s.
Proof.
  intros Hs%reachable_well_formed Hst. change (well_formed s) in Hs.
  pose proof (serve_outcome now q s) as Hq.
  destruct (request_call q) as [c|] eqn:Hc; [|destruct Hq; lia].
  destruct (takes_effect c s); [|destruct Hq; lia].
  destruct Hq as [_ [a0 Hs']]. simpl. rewrite Hs'. clear Hs'.
  apply request_call_entity in Hc as [He Hna].
  assert (Hact : shape_entity (shape c) <> Activity) by congruence.
  pose proof (exec_well_formed c s Hs) as [Hk1 _].
  exists ((create_of Activity now a0 (exec c s).2).1).
  change (exec (CreateActivity now a0) (exec c s).2)
    with ((Created <$> create_of Activity now a0) (exec c s).2).
  unfold fmap, M_fmap.
  destruct (create_of Activity now a0 (exec c s).2) as [a s2] eqn:Hcr. simpl.
  pose proof (create_of_store Activity now a0 _ Hk1) as Hstore.
  pose proof (create_of_result Activity now a0 (exec c s).2) as Hres.
  rewrite Hcr in Hstore, Hres. simpl in Hstore, Hres.
  pose proof (exec_other c s Activity Hact) as Hsame. simpl in Hsame.
  pose proof (exec_counter_other c s Activity Hact) as Hcnt. simpl in Hcnt.
  rewrite Hsame, Hcnt in Hstore. rewrite Hcnt in Hres.
  split_and!.
  - done.
  - rewrite Hres. rewrite lookup_insert_ne by done. apply lookup_insert_eq.
  - rewrite Hres. apply lookup_insert_eq.
  - replace s2 with (create_of Activity now a0 (exec c s).2).2 by (by rewrite Hcr).
    simpl. rewrite <- Hcnt. reflexivity.
  - intros e Hne HneA.
    replace s2 with (create_of Activity now a0 (exec c s).2).2 by (by rewrite Hcr).
    simpl. unfold createActivity; simpl.
    rewrite store_of_other, store_of_with_counter, counter_of_with_store,
      counter_of_with_counter by done.
    destruct (decide (e = Activity)); [done |].
    split; [apply exec_other | apply exec_counter_other]; congruence.
Qed.

Lemma shape_entity_clock c : shape_entity (shape c) <> Activity -> clock_valid c.
Proof. destruct c; simpl; done. Qed.

Lemma serve_reachable now q s :
  Z.abs now <= maxTime -> reachable s -> reachable (serve now q s).2.
Proof.
  intros Hnow Hs. pose proof (serve_outcome now q s) as Hq.
  destruct (request_call q) as [c|] eqn:Hc; [|destruct Hq as [_ ->]; done].
  destruct (takes_effect c s); [|destruct Hq as [_ ->]; done].
  destruct Hq as [_ [a ->]].
  apply request_call_entity in Hc as [He Hna].
  apply reachable_exec; [|done]. apply reachable_exec; [done |].
  apply shape_entity_clock. congruence.
Qed.

(** X14. The states that requests lead to are states that calls lead to:
    after any sequence of POST, PUT and DELETE requests, handled one after
    the other, the store is in a state reachable by the calls of the store
    alone. So what holds of the store in every reachable state holds after
    any traffic on the routes. *)
Theorem served_states_reachable (qs : list (Z * Request)) (s : MemStorage) :
  clocks_valid qs -> reachable s -> reachable (serve_all qs s).2.
Proof.
  intros Hqs. revert s. induction Hqs as [|[now q] qs Hnow Hqs IH]; intros s Hs.
  - done.
  - simpl. pose proof (serve_reachable now q s Hnow Hs) as Hs1.
    destruct (serve now q s) as [x s1]. simpl in Hs1.
    specialize (IH s1 Hs1). by destruct (serve_all qs s1) as [xs s2].
Qed.

(** *** A record through its routes *)

Lemma get_by_id_shape e get :
  get_by_id e = Some get ->
  forall id k s,
    parseInt id = Some k ->
    match JsMap.get k (store_of e s) with
    | Some r => get id s = response 200 (Json_record r)
    | None => status (get id s) = 404
    end.
Proof.
  destruct e; simpl; intros [= <-] id k s Hid;
    unfold get_users_id, get_students_id, get_teachers_id, get_classes_id,
      get_events_id, getUser, getStudent, getTeacher, getClass, getEvent;
    rewrite Hid; simpl; by destruct (JsMap.get k _).
Qed.

Lemma post_route_call e post body data :
  post_route e = Some post ->
  safeParse (schema_of post) body = Success data ->
  exists c, request_call (Write post body) = Some c /\ shape c = IsCreate e None data.
Proof.
  destruct e; simpl; intros [= <-]; simpl; intros Hparse; rewrite Hparse;
    by eexists.
Qed.

Lemma delete_route_call e del id k :
  delete_route e = Some del ->
  parseInt id = Some k ->
  exists c, request_call (Remove (del id)) = Some c /\ shape c = IsDelete e k.
Proof.
  destruct e; simpl; intros [= <-] Hid; simpl; rewrite Hid; by eexists.
Qed.

Lemma parseInt_pretty (n : Z) : safe_integer n -> parseInt (pretty n) = Some n.
Proof.
  intros Hsafe. rewrite <- (to_double_safe n Hsafe) at 2.
  unfold pretty, pretty_Z. destruct n as [|x|x]; [reflexivity | |].
  - unfold pretty, pretty_positive, pretty, pretty_N.
    destruct (decide (N.pos x = 0)%N); [done |].
    by apply (parseInt_positive (N.pos x) "").
  - unfold pretty, pretty_positive, pretty, pretty_N.
    destruct (decide (N.pos x = 0)%N); [done |].
    by apply (parseInt_positive (N.pos x) "").
Qed.

Lemma serve_store now q c s e :
  request_call q = Some c -> takes_effect c s = true -> e <> Activity ->
  store_of e (serve now q s).2 = store_of e (exec c s).2.
Proof.
  intros Hc Heff Hne. pose proof (serve_outcome now q s) as Hq.
  rewrite Hc, Heff in Hq. destruct Hq as [_ [a ->]].
  by apply (exec_other (CreateActivity now a)).
Qed.

(** X15. A record through its routes, in every state the calls lead to
    and with requests handled one after the other. A POST with a payload
    the schema accepts answers 201 with the record: the payload with [id]
    set to the counter of the collection. A GET of that identifier, written
    in decimal, then answers 200 with the same record; a DELETE of it
    answers 204; after that a GET answers 404, and a second DELETE answers
    404 and changes nothing. *)
Theorem record_through_its_routes (e : Entity) (post : WriteRoute)
    (del : string -> DeleteRoute) (now1 now2 now3 : Z) (req_body : Json)
    (data : Obj) (s : MemStorage) :
  post_route e = Some post ->
  delete_route e = Some del ->
  reachable s ->
  safe_integer (counter_of e s) ->
  safeParse (schema_of post) req_body = Success data ->
  let id := ToString (VNum (counter_of e s)) in
  let created := serve now1 (Write post req_body) s in
  let deleted := serve now2 (Remove (del id)) created.2 in
  let again := serve now3 (Remove (del id)) deleted.2 in
  (exists r,
     created.1 = response 201 (Json_record r) /\
     r !! "id" = Some (VNum (counter_of e s)) /\
     (forall f, f <> "id" -> r !! f = data !! f) /\
     forall get, get_by_id e = Some get ->
                 get id created.2 = response 200 (Json_record r)) /\
  deleted.1 = response 204 No_content /\
  (forall get, get_by_id e = Some get -> status (get id deleted.2) = 404) /\
  status again.1 = 404 /\
  again.2 = deleted.2.
Proof.
  intros Hpost Hdel Hs Hsafe Hparse. cbv zeta.
  change (ToString (VNum (counter_of e s))) with (pretty (counter_of e s)).
  cbn [serve].
  assert (HeA : e <> Activity) by (intros ->; done).
  pose proof (parseInt_pretty (counter_of e s) Hsafe) as Hid.
  apply reachable_well_formed in Hs as Hwf. change (well_formed s) in Hwf.
  destruct Hwf as [Hk Hn].
  set (k := counter_of e s) in *.
  set (r := <["id" := VNum k]> data).
  (* the create *)
  destruct (post_route_call e post req_body data Hpost Hparse) as (c1 & Hc1 & Hsh1).
  assert (Hx1 : exec c1 s = (Created <$> create_in e None data) s)
    by (by rewrite exec_shape_eq, Hsh1).
  assert (Heff1 : takes_effect c1 s = true) by (unfold takes_effect; by rewrite Hx1).
  pose proof (serve_outcome now1 (Write post req_body) s) as Hq1.
  rewrite Hc1, Heff1 in Hq1. cbn [serve] in Hq1. destruct Hq1 as [Hr1 _].
  pose proof (serve_store now1 _ c1 s e Hc1 Heff1 HeA) as Hst1. cbn [serve] in Hst1.
  rewrite Hx1 in Hr1, Hst1. unfold fmap, M_fmap, create_in in Hr1, Hst1.
  simpl in Hr1, Hst1. injection Hr1 as Hr1.
  rewrite store_of_same in Hst1. fold k r in Hr1, Hst1.
  set (s1 := (handle now1 post req_body s).2) in *.
  assert (Hget1 : JsMap.get k (store_of e s1) = Some r)
    by (rewrite Hst1; apply get_set_eq).
  (* the delete *)
  destruct (delete_route_call e del (pretty k) k Hdel Hid) as (c2 & Hc2 & Hsh2).
  assert (Hx2 : forall s0, exec c2 s0 = (Deleted <$> delete_in e k) s0)
    by (intros s0; by rewrite exec_shape_eq, Hsh2).
  assert (Heff2 : takes_effect c2 s1 = true).
  { unfold takes_effect. rewrite Hx2. unfold fmap, M_fmap, delete_in. simpl.
    apply has_true. by eexists. }
  pose proof (serve_outcome now2 (Remove (del (pretty k))) s1) as Hq2.
  rewrite Hc2, Heff2 in Hq2. cbn [serve] in Hq2. destruct Hq2 as [Hr2 _].
  pose proof (serve_store now2 _ c2 s1 e Hc2 Heff2 HeA) as Hst2. cbn [serve] in Hst2.
  rewrite Hx2 in Hr2, Hst2. unfold fmap, M_fmap, delete_in in Hr2, Hst2.
  simpl in Hr2, Hst2. rewrite store_of_same in Hst2.
  assert (Hhas2 : JsMap.has k (store_of e s1) = true) by (apply has_true; by eexists).
  rewrite Hhas2 in Hr2. injection Hr2 as Hr2.
  set (s2 := (handle_delete now2 (del (pretty k)) s1).2) in *.
  assert (Hget2 : JsMap.get k (store_of e s2) = None)
    by (rewrite Hst2; apply get_remove_eq).
  (* the second delete *)
  assert (Heff3 : takes_effect c2 s2 = false).
  { unfold takes_effect. rewrite Hx2. unfold fmap, M_fmap, delete_in. simpl.
    unfold JsMap.has. by rewrite Hget2. }
  pose proof (serve_outcome now3 (Remove (del (pretty k))) s2) as Hq3.
  rewrite Hc2, Heff3 in Hq3. cbn [serve] in Hq3. destruct Hq3 as [Hr3 Hs3].
  split_and!; try done.
  - exists r. split_and!; try done.
    + apply lookup_insert_eq.
    + intros f Hf. unfold r. by rewrite lookup_insert_ne.
    + intros get Hget. pose proof (get_by_id_shape e get Hget (pretty k) k s1 Hid) as Hg.
      by rewrite Hget1 in Hg.
  - intros get Hget. pose proof (get_by_id_shape e get Hget (pretty k) k s2 Hid) as Hg.
    by rewrite Hget2 in Hg.
Qed.

Lemma put_route_call e put id k body patch :
  put_route e = Some put ->
  parseInt id = Some k ->
  safeParse (schema_of (put id)) body = Success patch ->
  exists c, request_call (Write (put id) body) = Some c /\ shape c = IsUpdate e k patch.
Proof.
  destruct e; simpl; intros [= <-] Hid; simpl; intros Hparse;
    rewrite Hparse, Hid; by eexists.
Qed.

(** X16. An update through its route. A PUT with a patch the schema
    accepts, on the identifier of a stored record, answers 200 with the
    record merged with the patch; a GET of the identifier then answers 200
    with the same merged record, and every other record of the collection
    is as it was. *)
Theorem update_through_its_routes (e : Entity) (put : string -> WriteRoute)
    (now : Z) (id : string) (k : Z) (req_body : Json) (patch r : Obj)
    (s : MemStorage) :
  put_route e = Some put ->
  parseInt id = Some k ->
  safeParse (schema_of (put id)) req_body = Success patch ->
  JsMap.get k (store_of e s) = Some r ->
  let updated := serve now (Write (put id) req_body) s in
  updated.1 = response 200 (Json_record (spread r patch)) /\
  (forall get, get_by_id e = Some get ->
               get id updated.2 = response 200 (Json_record (spread r patch))) /\
  (forall k', k' <> k ->
              JsMap.get k' (store_of e updated.2) = JsMap.get k' (store_of e s)).
Proof.
  intros Hput Hid Hparse Hget. cbv zeta. cbn [serve].
  assert (HeA : e <> Activity) by (intros ->; done).
  destruct (put_route_call e put id k req_body patch Hput Hid Hparse) as (c & Hc & Hsh).
  assert (Hx : exec c s = (Updated <$> update_in e k patch) s)
    by (by rewrite exec_shape_eq, Hsh).
  assert (Heff : takes_effect c s = true).
  { unfold takes_effect. rewrite Hx. unfold fmap, M_fmap, update_in.
    by rewrite Hget. }
  pose proof (serve_outcome now (Write (put id) req_body) s) as Hq.
  rewrite Hc, Heff in Hq. destruct Hq as [Hr _].
  pose proof (serve_store now _ c s e Hc Heff HeA) as Hst.
  rewrite Hx in Hr, Hst. unfold fmap, M_fmap, update_in in Hr, Hst.
  rewrite Hget in Hr, Hst. simpl in Hr, Hst. injection Hr as Hr.
  rewrite store_of_same in Hst.
  split_and!.
  - exact Hr.
  - intros get Hg.
    pose proof (get_by_id_shape e get Hg id k (handle now (put id) req_body s).2 Hid)
      as Hgot.
    rewrite Hst, get_set_eq in Hgot. exact Hgot.
  - intros k' Hk'. rewrite Hst. apply get_set_ne. congruence.
Qed.

End Requests.

(** ** Login *)

Section Login.
Context `{Host} `{Zod} `{ZodLogin}.

Lemma post_users_users now body data s :
  reachable s ->
  safeParse insertUserSchema body = Success data ->
  users (post_users now body s).2
  = (users s ++ [(userIdCounter s, <["id" := VNum (userIdCounter s)]> data)])%list.
Proof.
  intros Hs%reachable_well_formed Hparse. destruct Hs as [Hk _].
  unfold post_users. rewrite Hparse. simpl.
  apply set_new_append, (counter_is_fresh User s Hk).
Qed.

(** X18. Registration and login. After a POST of a user whose payload the
    schema accepts, a login with the new username finds the earliest user
    of that name. If the name was free, the login answers 200 with the new
    identifier exactly when the password is the one registered, and 401
    otherwise; the answer carries no password. If the name was taken, the
    store accepts the second user all the same, and every login with that
    name is answered as before the registration: the new account cannot
    log in. *)
Theorem login_after_registration (now : Z) (req_body login_body : Json)
    (data : Obj) (u p p' : string) (s : MemStorage) :
  reachable s ->
  safeParse insertUserSchema req_body = Success data ->
  data !! "username" = Some (VStr u) ->
  data !! "password" = Some (VStr p) ->
  login_safeParse login_body = LoginSuccess u p' ->
  let s' := (post_users now req_body s).2 in
  match getUserByUsername u s with
  | None =>
      if decide (p' = p)
      then exists o,
             post_auth_login login_body s' = response 200 (Json_record o) /\
             o !! "id" = Some (VNum (userIdCounter s)) /\
             o !! "username" = Some (VStr u) /\
             o !! "password" = None
      else status (post_auth_login login_body s') = 401
  | Some earlier => post_auth_login login_body s' = post_auth_login login_body s
  end.
Proof.
  intros Hs Hparse Hu Hp Hlogin. simpl.
  unfold post_auth_login, getUserByUsername. rewrite Hlogin.
  rewrite (post_users_users now req_body data s Hs Hparse).
  rewrite values_snoc, find_snoc.
  destruct (List.find _ (JsMap.values (users s))) as [earlier|]; [done |].
  set (r := <["id" := VNum (userIdCounter s)]> data).
  assert (Hname : strict_eq_str (prop r "username") u = true).
  { unfold prop, r. rewrite lookup_insert_ne, Hu by done. apply String.eqb_refl. }
  assert (Hpw : strict_eq_str (prop r "password") p' = String.eqb p p').
  { unfold prop, r. by rewrite lookup_insert_ne, Hp by done. }
  rewrite Hname, Hpw.
  destruct (decide (p' = p)) as [->|Hne].
  - rewrite String.eqb_refl. simpl. eexists. split; [reflexivity |].
    split_and!.
    + rewrite lookup_insert_eq. unfold prop, r. by rewrite lookup_insert_eq.
    + rewrite lookup_insert_ne by done. rewrite lookup_insert_eq.
      unfold prop, r. rewrite lookup_insert_ne by done. by rewrite Hu.
    + by simplify_map_eq.
  - destruct (String.eqb_spec p p'); [congruence | reflexivity].
Qed.

(** X19. A login is answered 200 only for a stored user with that name and
    that password, both strings: the validation succeeded and some stored
    user has the username and the password of the request. The answer has
    the five properties [id], [username], [role], [fullName] and [avatar]
    of that user and nothing else, so neither the password nor the e-mail
    address. *)
Theorem login_is_sound (login_body : Json) (s : MemStorage) :
  status (post_auth_login login_body s) = 200 ->
  exists u p user o,
    login_safeParse login_body = LoginSuccess u p /\
    user ∈ getUsers s /\
    user !! "username" = Some (VStr u) /\
    user !! "password" = Some (VStr p) /\
    body (post_auth_login login_body s) = Json_record o /\
    dom o = {[ "id"; "username"; "role"; "fullName"; "avatar" ]} /\
    forall k, k ∈ dom o -> o !! k = Some (prop user k).
Proof.
  unfold post_auth_login.
  destruct (login_safeParse login_body) as [u p|err]; [|done].
  unfold getUserByUsername, getUsers.
  destruct (List.find _ _) as [user|] eqn:Hfind; [|done].
  apply find_some in Hfind as [Hin Hname].
  destruct (strict_eq_str (prop user "password") p) eqn:Hpw; [|done].
  simpl. intros _. exists u, p, user. eexists. split_and!.
  - done.
  - by apply list_elem_of_In.
  - unfold strict_eq_str, prop in Hname.
    destruct (user !! "username") as [[]|]; try done.
    by apply String.eqb_eq in Hname as ->.
  - unfold strict_eq_str, prop in Hpw.
    destruct (user !! "password") as [[]|]; try done.
    by apply String.eqb_eq in Hpw as ->.
  - reflexivity.
  - rewrite !dom_insert_L, dom_singleton_L. set_solver.
  - intros k. rewrite !dom_insert_L, dom_singleton_L.
    rewrite !elem_of_union, !elem_of_singleton.
    intros [->|[->|[->|[->| ->]]]]; reflexivity.
Qed.

End Login.

(** ** The filters of the enrollment and grade listings *)


(** ** The export: what the text reads back as *)

Section CsvRoundTrip.
Import ExportData CsvReader.

Lemma append_nil_r (s : string) : s +:+ "" = s.
Proof.
  induction s as [|c r IH]; [done |].
  change (String c (r +:+ "") = String c r). by rewrite IH.
Qed.

Lemma append_assoc (a b c : string) : (a +:+ b) +:+ c = a +:+ (b +:+ c).
Proof.
  induction a as [|x r IH]; [done |].
  change (String x ((r +:+ b) +:+ c) = String x (r +:+ (b +:+ c))). by rewrite IH.
Qed.

Lemma pushes_head p f fs rs : pushes p ((f :: fs) :: rs) = ((p +:+ f) :: fs) :: rs.
Proof. induction p as [|c r IH]; simpl; [done |]. by rewrite IH. Qed.

Lemma read_at_separator m rest :
  m <> InQuoted -> at_separator rest -> read m rest = read AtStart rest.
Proof.
  destruct rest as [|c rest]; [done |]. simpl.
  intros Hm [-> | ->]; by destruct m.
Qed.

Lemma read_plain p : forall m rest,
  m = AtStart \/ m = InPlain ->
  plain p = true -> at_separator rest ->
  read m (p +:+ rest) = pushes p (read AtStart rest).
Proof.
  induction p as [|c r IH]; intros m rest Hm Hp Hrest; simpl.
  - apply read_at_separator; [|done]. by destruct Hm as [-> | ->].
  - unfold plain in Hp. simpl in Hp.
    apply andb_true_iff in Hp as [Hs Hr]. apply negb_true_iff in Hs.
    apply andb_true_iff in Hr as [Hcr Hr]. apply negb_true_iff in Hcr.
    apply orb_false_iff in Hs as [Hc Hs].
    apply orb_false_iff in Hc as [Hc Hq]. apply orb_false_iff in Hc as [Hc Hn].
    rewrite Hq, Hc, Hn, Hcr.
    rewrite (IH InPlain); [by destruct Hm as [-> | ->] | auto | | done].
    unfold plain. by rewrite Hs, Hr.
Qed.

Lemma read_in_quoted s rest :
  read InQuoted (double_quotes s +:+ String quote rest)
  = pushes s (read AfterQuote rest).
Proof.
  induction s as [|c r IH]; simpl; [done |].
  destruct (Ascii.eqb_spec c quote) as [->|Hne]; simpl.
  - by rewrite IH.
  - destruct (Ascii.eqb_spec c quote); [done |]. by rewrite IH.
Qed.

Lemma reads_as_plain p : plain p = true -> reads_as p p.
Proof. intros Hp rest Hrest. apply read_plain; auto. Qed.

Lemma reads_as_quoted s : reads_as (quoted (double_quotes s)) s.
Proof.
  intros rest Hrest. unfold quoted.
  change (read AtStart (String quote ((double_quotes s +:+ String quote "") +:+ rest))
          = pushes s (read AtStart rest)).
  rewrite append_assoc.
  change (read InQuoted (double_quotes s +:+ String quote rest)
          = pushes s (read AtStart rest)).
  rewrite read_in_quoted. by rewrite (read_at_separator AfterQuote).
Qed.

Lemma reads_as_empty cell : reads_as "" cell -> cell = "".
Proof.
  intros Hread. specialize (Hread "" I). simpl in Hread.
  rewrite pushes_head, append_nil_r in Hread. by injection Hread.
Qed.

Lemma double_quotes_quote_free s : quote_free s = true -> double_quotes s = s.
Proof.
  induction s as [|c r IH]; simpl; [done |].
  intros [Hc Hr]%andb_true_iff. apply negb_true_iff in Hc. rewrite Hc.
  by rewrite IH.
Qed.

Lemma test_special_pretty_N_char m s :
  test_special (String (pretty_N_char m) s) = test_special s.
Proof. unfold pretty_N_char. by repeat case_match. Qed.

Lemma test_special_pretty_N_go x : forall s,
  test_special (pretty_N_go x s) = test_special s.
Proof.
  induction (N.lt_wf_0 x) as [x _ IH]. intros s.
  destruct (decide (x = 0)%N) as [->|Hnz]; [by rewrite pretty_N_go_0 |].
  rewrite pretty_N_go_step by lia. rewrite IH by (apply N.div_lt; lia).
  apply test_special_pretty_N_char.
Qed.

Lemma test_special_pretty (n : Z) : test_special (pretty n) = false.
Proof.
  unfold pretty, pretty_Z. destruct n as [|x|x]; [reflexivity | |];
    unfold pretty, pretty_positive, pretty, pretty_N;
    (destruct (decide (N.pos x = 0)%N); [done |]).
  - by rewrite test_special_pretty_N_go.
  - change (test_special (String "-" (pretty_N_go (N.pos x) "")) = false).
    cbn [test_special]. by rewrite test_special_pretty_N_go.
Qed.

Lemma return_free_pretty_N_char m s :
  return_free (String (pretty_N_char m) s) = return_free s.
Proof. unfold pretty_N_char. by repeat case_match. Qed.

Lemma return_free_pretty_N_go x : forall s,
  return_free (pretty_N_go x s) = return_free s.
Proof.
  induction (N.lt_wf_0 x) as [x _ IH]. intros s.
  destruct (decide (x = 0)%N) as [->|Hnz]; [by rewrite pretty_N_go_0 |].
  rewrite pretty_N_go_step by lia. rewrite IH by (apply N.div_lt; lia).
  apply return_free_pretty_N_char.
Qed.

Lemma plain_pretty (n : Z) : plain (pretty n) = true.
Proof.
  unfold plain. rewrite test_special_pretty. simpl.
  unfold pretty, pretty_Z. destruct n as [|x|x]; [reflexivity | |];
    unfold pretty, pretty_positive, pretty, pretty_N;
    (destruct (decide (N.pos x = 0)%N); [done |]).
  - by rewrite return_free_pretty_N_go.
  - change (return_free (String "-" (pretty_N_go (N.pos x) "")) = true).
    cbn [return_free]. by rewrite return_free_pretty_N_go.
Qed.

Context `{Host}.

(** The host writes no double quote into a date. *)
Hypothesis dates_quote_free : forall tv, quote_free (Date_toLocaleDateString tv) = true.

Lemma csv_field_reads_as v :
  unbroken v = true -> reads_as (csv_field v) (cell_text v).
Proof.
  destruct v as [| |b|n|s|tv|xs]; simpl; intros Hv.
  - by apply reads_as_plain.
  - by apply reads_as_plain.
  - apply reads_as_plain. by destruct b.
  - apply reads_as_plain, plain_pretty.
  - destruct (test_special s) eqn:Hs; [apply reads_as_quoted |].
    rewrite double_quotes_plain.
    + apply reads_as_plain. unfold plain. by rewrite Hs.
    + intros Hq%test_special_spec. congruence.
  - rewrite <- (double_quotes_quote_free (Date_toLocaleDateString tv)) at 1
      by apply dates_quote_free.
    apply reads_as_quoted.
  - apply reads_as_quoted.
Qed.

Lemma join_nonempty sep x l : x <> "" -> join sep (x :: l) <> "".
Proof.
  intros Hx. destruct l as [|y l]; simpl; [done |].
  destruct x; [done |]. discriminate.
Qed.

Lemma read_record (fields : list (string * string)) tail rows :
  fields <> [] ->
  Forall (fun tc => reads_as tc.1 tc.2) fields ->
  at_separator tail ->
  read AtStart tail = [""] :: rows ->
  read AtStart (join "," (map fst fields) +:+ tail) = map snd fields :: rows.
Proof.
  intros Hne Hok Htail Hread.
  induction fields as [|[text cell] fields IH]; [done |].
  apply Forall_cons in Hok as [Hfield Hok]. simpl in Hfield.
  destruct fields as [|next fields].
  - simpl. rewrite Hfield, Hread by done. rewrite pushes_head.
    by rewrite append_nil_r.
  - change (join "," (map fst ((text, cell) :: next :: fields)))
      with (text +:+ "," +:+ join "," (map fst (next :: fields))).
    rewrite !append_assoc. rewrite Hfield by (by left).
    change (pushes cell
              (new_field (read AtStart (join "," (map fst (next :: fields)) +:+ tail)))
            = map snd ((text, cell) :: next :: fields) :: rows).
    rewrite IH by done. simpl. by rewrite pushes_head, append_nil_r.
Qed.

(** The text of a record is empty only if the record is blank. *)
Lemma record_text_empty (fields : list (string * string)) :
  fields <> [] ->
  Forall (fun tc => reads_as tc.1 tc.2) fields ->
  join "," (map fst fields) = "" -> blank (map snd fields).
Proof.
  intros Hne Hok Htext. destruct fields as [|[text cell] [|next fields]]; [done | |].
  - simpl in Htext. subst text. apply Forall_cons in Hok as [Hfield _].
    simpl in Hfield. apply reads_as_empty in Hfield as ->. reflexivity.
  - exfalso. simpl in Htext. destruct text; discriminate.
Qed.

Lemma read_records (records : list (list (string * string))) :
  records <> [] ->
  Forall (fun fields => fields <> [] /\ Forall (fun tc => reads_as tc.1 tc.2) fields)
    records ->
  Forall (fun fields => ~ blank (map snd fields)) records ->
  read AtStart
    (join (String newline "") (map (fun fields => join "," (map fst fields)) records))
  = map (map snd) records.
Proof.
  intros Hne Hok Hnb. induction records as [|fields records IH]; [done |].
  apply Forall_cons in Hok as [[Hf Hfok] Hok].
  apply Forall_cons in Hnb as [_ Hnb].
  destruct records as [|next records].
  - simpl. rewrite <- (append_nil_r (join "," (map fst fields))).
    by apply read_record.
  - change (join (String newline "")
              (map (fun fields => join "," (map fst fields)) (fields :: next :: records)))
      with (join "," (map fst fields) +:+ String newline "" +:+
            join (String newline "")
              (map (fun fields => join "," (map fst fields)) (next :: records))).
    apply read_record; [done | done | by right |].
    set (rest := join (String newline "")
                   (map (fun fields => join "," (map fst fields)) (next :: records))).
    assert (Hrest : rest <> "").
    { apply join_nonempty. intros Htext.
      apply Forall_cons in Hok as [[Hn Hnok] _]. apply Forall_cons in Hnb as [Hb _].
      by apply Hb, record_text_empty. }
    change (end_record rest (read AtStart rest) = [""] :: map (map snd) (next :: records)).
    unfold rest at 2. rewrite IH by done.
    by destruct rest.
Qed.

(** A table of texts: a header row and one row of fields for each row of
    the data. *)
Lemma read_table {A B : Type} (headers : list A) (rows : list B)
    (name : A -> string) (text cell : B -> A -> string) :
  headers <> [] ->
  Forall (fun h => reads_as (name h) (name h)) headers ->
  (forall row, row ∈ rows -> Forall (fun h => reads_as (text row h) (cell row h)) headers) ->
  Forall (fun cells => ~ blank cells)
    (map name headers :: map (fun row => map (cell row) headers) rows) ->
  read AtStart
    (join (String newline "")
       (join "," (map name headers)
        :: map (fun row => join "," (map (text row) headers)) rows))
  = map name headers :: map (fun row => map (cell row) headers) rows.
Proof.
  intros Hne Hnames Hfields Hnb.
  set (header := map (fun h => (name h, name h)) headers).
  set (record := fun row => map (fun h => (text row h, cell row h)) headers).
  assert (Htext :
    join "," (map name headers)
    :: map (fun row => join "," (map (text row) headers)) rows
    = map (fun fields => join "," (map fst fields)) (header :: map record rows)).
  { simpl. unfold header, record. rewrite !map_map. simpl. f_equal.
    apply map_ext. intros row. by rewrite map_map. }
  assert (Hcells :
    map name headers :: map (fun row => map (cell row) headers) rows
    = map (map snd) (header :: map record rows)).
  { simpl. unfold header, record. rewrite !map_map. simpl. f_equal.
    apply map_ext. intros row. by rewrite map_map. }
  rewrite Hcells in Hnb. rewrite Htext, Hcells. apply read_records; [done | |].
  - constructor.
    + split; [unfold header; by destruct headers |].
      unfold header. by apply Forall_map.
    + apply Forall_map. apply Forall_forall. intros row Hrow. split.
      * unfold record. by destruct headers.
      * unfold record. apply Forall_map. by apply Hfields.
  - exact (proj1 (Forall_map _ _ _) Hnb).
Qed.

(** X21. The exported text reads back as the table. Take a header row
    that is not empty, whose names contain no comma, line feed, double
    quote or carriage return and are not names of members that a plain
    object inherits; data in which every string with a carriage return
    also contains a comma, a line feed or a double quote, so that the
    export writes it between quotes; a host that writes no double quote
    into a date; and suppose no record of the table is one empty field, a
    blank line. Then a reader of the CSV format finds in the text of the
    export exactly the header row followed by one record for each row of
    the data, each with one field for each header, whose content is the
    value: the string itself whatever commas, line breaks and quotes it
    contains, the decimal text of a number, the text of a date, and the
    empty field for [null] and for a property the row does not have. *)
Theorem export_reads_back (headerRow : list string) (data : list Row) :
  headerRow <> [] ->
  Forall (fun h => plain h = true) headerRow ->
  Forall (fun h => inherited h = false) headerRow ->
  Forall (fun row => Forall (fun h => unbroken (field row h) = true) headerRow) data ->
  let table :=
    headerRow
    :: map (fun row => map (fun fieldName => cell_text (field row fieldName)) headerRow)
         data in
  Forall (fun cells => ~ blank cells) table ->
  read_csv (csv_content headerRow data) = table.
Proof.
  intros Hne Hplain _ Hcells table Hnb. unfold read_csv, csv_content.
  pose proof (read_table headerRow data id
                (fun row h => csv_field (field row h))
                (fun row h => cell_text (field row h)) Hne) as Hread.
  rewrite map_id in Hread. apply Hread.
  - eapply Forall_impl; [exact Hplain |]. intros h Hh. by apply reads_as_plain.
  - intros row Hrow. eapply Forall_forall in Hcells; [|exact Hrow].
    eapply Forall_impl; [exact Hcells |]. intros h Hh. by apply csv_field_reads_as.
  - exact Hnb.
Qed.

End CsvRoundTrip.

(** ** Identifiers through the routes *)

Section RouteIds.
Context `{Host} `{Zod}.

Lemma request_call_patch q c :
  strips_id -> request_call q = Some c -> patch_without_id c.
Proof.
  intros Hstrip. destruct q as [r body|r]; simpl.
  - destruct (safeParse (schema_of r) body) as [data|err] eqn:Hparse; [|done].
    apply Hstrip in Hparse.
    destruct r; simpl; try (destruct (parseInt id); simpl);
      intros [= <-]; done.
  - destruct r; simpl; destruct (parseInt id); simpl; intros [= <-]; done.
Qed.

Lemma serve_ids_are_keys now q s :
  strips_id -> ids_are_keys s -> ids_are_keys (serve now q s).2.
Proof.
  intros Hstrip Hs. pose proof (serve_outcome now q s) as Hq.
  destruct (request_call q) as [c|] eqn:Hc; [|destruct Hq as [_ ->]; done].
  destruct (takes_effect c s); [|destruct Hq as [_ ->]; done].
  destruct Hq as [_ [a ->]].
  apply exec_ids_are_keys; [done |].
  apply exec_ids_are_keys; [|done]. by eapply request_call_patch.
Qed.

(** X17. Through the routes a record keeps its identifier: with a
    validator that lets no [id] through, after any sequence of POST, PUT
    and DELETE requests every stored record carries the identifier it is
    stored under, so the [id] in the body of a GET is the one in its path.
    The store itself does not protect the [id] against an update. *)
Theorem served_records_keep_their_id (qs : list (Z * Request)) (s : MemStorage) :
  strips_id ->
  ids_are_keys s ->
  ids_are_keys (serve_all qs s).2.
Proof.
  intros Hstrip. revert s. induction qs as [|[now q] qs IH]; intros s Hs; [done |].
  simpl. pose proof (serve_ids_are_keys now q s Hstrip Hs) as Hs1.
  destruct (serve now q s) as [x s1]. simpl in Hs1.
  specialize (IH s1 Hs1). by destruct (serve_all qs s1) as [xs s2].
Qed.

End RouteIds.

(** The model of the schemas that [drizzle-zod] generates lets no [id]
    through. *)
Lemma table_of_omits_id z : "id" ∈ (Schema.table_of z).2.
Proof. induction z; simpl; try done; apply list_elem_of_here. Qed.

Lemma zod_property_id optional fields c acc :
  Schema.col_name c <> "id" ->
  acc.1 !! "id" = None ->
  (zod_property optional fields c acc).1 !! "id" = None.
Proof.
  intros Hc Hacc. unfold zod_property.
  repeat case_match; simpl; rewrite ?lookup_insert_ne; done.
Qed.

Lemma drizzle_zod_strips_id : strips_id (H := Sample.zod).
Proof.
  intros z body data. simpl. unfold drizzle_zod_safeParse.
  destruct body as [| | | | |fields]; try done.
  pose proof (table_of_omits_id z) as Hid.
  destruct (Schema.table_of z) as [table omitted]. simpl in Hid.
  set (columns := List.filter _ table).
  assert (Hcols : Forall (fun c => Schema.col_name c <> "id") columns).
  { apply Forall_forall. intros c Hc. unfold columns in Hc.
    apply list_elem_of_In, filter_In in Hc as [_ Hc].
    apply negb_true_iff, bool_decide_eq_false in Hc. congruence. }
  assert (Hfold : (foldr (zod_property (Schema.is_partial z) fields) (∅, []) columns).1
                  !! "id" = None).
  { induction Hcols as [|c cs Hc Hcs IH]; simpl; [done |].
    by apply zod_property_id. }
  destruct (foldr _ _ columns) as [d errors]. simpl in Hfold.
  destruct errors; [|done]. by intros [= <-].
Qed.

(** ** The download of a table *)

Section Download.
Import ExportData CsvReader DataTable.
Context `{Host}.

Lemma replace_value_absent k v (o : Row) :
  k ∉ map fst o -> replace_value k v o = None.
Proof.
  induction o as [|[k' v'] r IH]; simpl; [done |].
  intros Hk. apply not_elem_of_cons in Hk as [Hne Hk].
  destruct (String.eqb_spec k' k); [congruence |]. by rewrite IH.
Qed.

Lemma assign_appends k v (o : Row) :
  array_index k = None -> inherited k = false -> k ∉ map fst o ->
  assign k v o = (o ++ [(k, v)])%list.
Proof.
  intros Hidx Hinh Hk. unfold assign.
  destruct (String.eqb_spec k "__proto__") as [->|_]; [done |].
  by rewrite replace_value_absent, Hidx.
Qed.

Lemma fold_assign_appends (item : Row) (columns : list Column) : forall acc : Row,
  NoDup (map fst acc ++ map header (exported columns)) ->
  Forall ordinary (exported columns) ->
  fold_left
    (fun newItem column =>
       if String.eqb (key column) "actions" then newItem
       else assign (header column) (field item (key column)) newItem)
    columns acc
  = (acc ++ row_of columns item)%list.
Proof.
  unfold row_of.
  induction columns as [|c columns IH]; intros acc; simpl.
  - intros _ _. by rewrite app_nil_r.
  - unfold exported. simpl. fold (exported columns).
    destruct (String.eqb (key c) "actions") eqn:Hc; simpl; intros Hnd Hord.
    + by apply IH.
    + apply Forall_cons in Hord as [(Hidx & Hinh & _) Hord].
      apply NoDup_app in Hnd as (Hacc & Hdisj & Hcols).
      apply NoDup_cons in Hcols as [Hfresh Hcols].
      rewrite assign_appends; [| done | done |].
      * rewrite IH; [by rewrite <- app_assoc | | done].
        rewrite map_app. simpl. rewrite <- app_assoc. simpl.
        apply NoDup_app. split_and!; [done | | by constructor].
        intros k Hk. apply not_elem_of_cons. split.
        -- intros ->. apply (Hdisj _ Hk). by left.
        -- intros Hin. apply (Hdisj _ Hk). by right.
      * intros Hin. apply (Hdisj _ Hin). by left.
Qed.

Lemma newItem_of_row columns item :
  NoDup (map header (exported columns)) ->
  Forall ordinary (exported columns) ->
  newItem_of columns item = row_of columns item.
Proof. intros Hnd Hord. unfold newItem_of. by rewrite fold_assign_appends. Qed.

Lemma field_row_of (cols : list Column) (value : Column -> Value) c :
  NoDup (map header cols) -> c ∈ cols ->
  field (map (fun column => (header column, value column)) cols) (header c) = value c.
Proof.
  induction cols as [|c0 cols IH]; simpl; intros Hnd Hin; [by apply elem_of_nil in Hin |].
  apply NoDup_cons in Hnd as [Hfresh Hnd].
  apply elem_of_cons in Hin as [->|Hin]; [by rewrite String.eqb_refl |].
  destruct (String.eqb_spec (header c0) (header c)) as [Heq|_]; [|by apply IH].
  exfalso. apply Hfresh. rewrite Heq. by apply (list_elem_of_fmap_2 header).
Qed.

(** The host writes no double quote into a date. *)
Hypothesis dates_quote_free : forall tv, quote_free (Date_toLocaleDateString tv) = true.

(** X22. The download of a table writes its columns. When the headers of
    the columns other than the actions column are distinct and ordinary
    property names (no array index, no name of an inherited member) and
    their keys read no inherited member, the text of the download is the
    export of one row for each row of the filtered data, of all pages, with
    the headers as header row and under each header the property of the row
    that the key of the column names, not the cell the table renders; with
    no data there is no download. When moreover at least one column is
    exported, the headers contain no comma, line feed, double quote or
    carriage return, every string with a carriage return is one the export
    quotes, and no record of the table is one empty field, the text reads
    back as the headers followed by those values. *)
Theorem download_writes_the_columns (columns : list Column) (filteredData : list Row) :
  NoDup (map header (exported columns)) ->
  Forall ordinary (exported columns) ->
  handleDownload columns filteredData
  = match filteredData with
    | [] => None
    | _ => Some (csv_content (map header (exported columns))
                   (map (row_of columns) filteredData))
    end /\
  (exported columns <> [] ->
   Forall (fun column => plain (header column) = true) (exported columns) ->
   Forall (fun item =>
             Forall (fun column => unbroken (field item (key column)) = true)
               (exported columns))
     filteredData ->
   let table :=
     map header (exported columns)
     :: map (fun item =>
               map (fun column => cell_text (field item (key column)))
                 (exported columns))
          filteredData in
   Forall (fun cells => ~ blank cells) table ->
   read_csv (csv_content (map header (exported columns))
               (map (row_of columns) filteredData))
   = table).
Proof.
  intros Hnd Hord. split.
  - unfold handleDownload, exportToCSV.
    destruct filteredData as [|item rest]; [done |].
    assert (Hrows : map (newItem_of columns) (item :: rest)
                    = map (row_of columns) (item :: rest)).
    { apply map_ext. intros it. by apply newItem_of_row. }
    rewrite Hrows. simpl. do 2 f_equal.
    unfold row_of. by rewrite map_map.
  - intros Hne Hplain Hcells table Hnb. unfold read_csv, csv_content.
    assert (Hlines :
      map (fun row => join "," (map (fun h => csv_field (field row h))
                                  (map header (exported columns))))
        (map (row_of columns) filteredData)
      = map (fun item => join "," (map (fun column => csv_field (field item (key column)))
                                     (exported columns)))
          filteredData).
    { rewrite map_map. apply map_ext. intros item. f_equal.
      rewrite map_map. apply map_ext_in. intros c Hc.
      unfold row_of. rewrite field_row_of; [done | done |].
      by apply list_elem_of_In. }
    rewrite Hlines.
    apply (read_table (exported columns) filteredData header
             (fun item column => csv_field (field item (key column)))
             (fun item column => cell_text (field item (key column))) Hne).
    + eapply Forall_impl; [exact Hplain |]. intros c Hc. by apply reads_as_plain.
    + intros item Hitem. eapply Forall_forall in Hcells; [|exact Hitem].
      eapply Forall_impl; [exact Hcells |]. intros c Hc.
      by apply csv_field_reads_as.
    + exact Hnb.
Qed.

End Download.

(* ===================================================================== *)
(** * Part V. The further properties on concrete inputs                    *)
(* ===================================================================== *)

Import SampleRequests.

Lemma reachable_one_student : reachable one_student.
Proof. apply reachable_after. repeat constructor. Qed.

Lemma reachable_two_students : reachable two_students.
Proof. apply reachable_after. repeat constructor. Qed.

Lemma reachable_same_millisecond : reachable same_millisecond.
Proof. apply reachable_after. repeat constructor; simpl; unfold maxTime; lia. Qed.

Lemma reachable_later_between : reachable later_between.
Proof. apply reachable_after. repeat constructor; simpl; unfold maxTime; lia. Qed.

(** ** The store *)

(** The second student gets identifier 2 and the counter goes to 3. *)
Lemma create_appends_witness :
  (createStudent emma one_student).1 !! "id" = Some (VNum 2) /\
  studentIdCounter (createStudent emma one_student).2 = 3.
Proof.
  pose proof (create_appends Student 0 emma one_student reachable_one_student) as Hw.
  cbv zeta in Hw. destruct Hw as (Hid & _ & _ & _ & _ & _ & Hcounter & _).
  split; [exact Hid | exact Hcounter].
Defined.

(** A second student under the number of the first is stored, and the
    lookup still finds the first. *)
Lemma lookup_after_create_witness :
  id_of <$>
  getStudentByStudentId "STU001"
    (createStudent (Sample.student "STU001" "Emma" "Wilson") one_student).2
  = Some (Some 1).
Proof.
  etransitivity.
  - apply (f_equal (fmap id_of)).
    apply (lookup_after_create Student "studentId" getStudentByStudentId "STU001" 0
             (Sample.student "STU001" "Emma" "Wilson") one_student eq_refl
             reachable_one_student).
  - vm_compute. reflexivity.
Defined.

Example lookup_of_new_key :
  id_of <$> getStudentByStudentId "STU002" (createStudent emma one_student).2
  = Some (Some 2).
Proof. vm_compute. reflexivity. Qed.

(** An update of the first of two students leaves two students. *)
Lemma update_in_place_witness :
  JsMap.size (students (updateStudent 1 {[ "firstName" := VStr "Sara" ]} two_students).2)
  = 2.
Proof.
  destruct (proj1 (has_true 1 (students two_students)) eq_refl) as [r Hr].
  destruct (update_in_place Student updateStudent 1 {[ "firstName" := VStr "Sara" ]}
              r two_students eq_refl Hr)
    as (i & _ & _ & Hsize).
  etransitivity; [exact Hsize | reflexivity].
Defined.

Example update_keeps_the_order :
  map id_of (getStudents (updateStudent 1 {[ "firstName" := VStr "Sara" ]}
                            two_students).2)
  = [Some 1; Some 2].
Proof. vm_compute. reflexivity. Qed.

(** A delete of an identifier that is not stored changes nothing. *)
Lemma delete_takes_one_out_witness : (deleteStudent 7 two_students).2 = two_students.
Proof.
  exact (delete_takes_one_out Student deleteStudent 7 two_students eq_refl
           reachable_two_students).
Defined.

Example delete_keeps_the_others :
  map id_of (getStudents (deleteStudent 1 two_students).2) = [Some 2].
Proof. vm_compute. reflexivity. Qed.

Example dashboard_counts :
  let s := Sample.after [ CreateStudent sarah; CreateStudent emma; DeleteStudent 1;
                          DeleteStudent 1; CreateTeacher (Sample.teacher "TCH1" VNull) ] in
  (totalStudents (getDashboardStats s), totalTeachers (getDashboardStats s),
   totalClasses (getDashboardStats s)) = (1, 1, 0).
Proof. vm_compute. reflexivity. Qed.

(** After a create and an update without [id], the record under 1 has
    [id] 1. *)
Lemma stored_id_is_key_witness :
  exists r,
    getStudent 1
      (Sample.after
         [CreateStudent sarah; UpdateStudent 1 {[ "firstName" := VStr "Sara" ]}])
    = Some r /\
    r !! "id" = Some (VNum 1).
Proof.
  destruct (proj1 (has_true 1
                     (students
                        (Sample.after
                           [CreateStudent sarah;
                            UpdateStudent 1 {[ "firstName" := VStr "Sara" ]}])))
              eq_refl) as [r Hr].
  exists r. split; [exact Hr |].
  apply (stored_id_is_key
           [CreateStudent sarah; UpdateStudent 1 {[ "firstName" := VStr "Sara" ]}]
           Student 1).
  - repeat constructor.
  - exact Hr.
Defined.

(** The store does not protect the [id]: a patch that brings one
    overwrites it. *)
Example update_can_change_id :
  id_of <$> getStudent 1 (updateStudent 1 {[ "id" := VNum 7 ]} one_student).2
  = Some (Some 7).
Proof. vm_compute. reflexivity. Qed.

(** The log after two more calls starts with the log before them. *)
Lemma activities_append_only_witness :
  exists new,
    JsMap.values
      (activities (run [CreateStudent sarah; CreateActivity 6000 (Sample.entry "Added")]
                     same_millisecond).2)
    = (JsMap.values (activities same_millisecond) ++ new)%list.
Proof.
  exact (activities_append_only
           [CreateStudent sarah; CreateActivity 6000 (Sample.entry "Added")]
           same_millisecond reachable_same_millisecond).
Defined.

(** The activity with the later time value is listed first, and of the
    two activities of one millisecond the one created first. *)
Lemma activities_ties_witness :
  map (fun a => (id_of a, stored_time a)) (JsMap.values (activities later_between))
  = [(Some 1, Some 5000); (Some 2, Some 7000); (Some 3, Some 5000)] /\
  map (fun a => (id_of a, stored_time a)) (getActivities (H := Sample.host) later_between)
  = [(Some 2, Some 7000); (Some 1, Some 5000); (Some 3, Some 5000)] /\
  forall i a b,
    getActivities (H := Sample.host) later_between !! i = Some a ->
    getActivities (H := Sample.host) later_between !! S i = Some b ->
    listed_before a b.
Proof.
  split; [vm_compute; reflexivity |]. split; [vm_compute; reflexivity |].
  intros i a b.
  exact (activities_ties_oldest_first (H := Sample.host) later_between i a b
           reachable_later_between).
Defined.

(** Two patches, one after the other, and the two merged. *)
Lemma update_patches_witness :
  updateStudent 1 {[ "lastName" := VStr "Jones" ]}
    (updateStudent 1 {[ "firstName" := VStr "Sara" ]} one_student).2
  = updateStudent 1
      (spread {[ "firstName" := VStr "Sara" ]} {[ "lastName" := VStr "Jones" ]})
      one_student.
Proof.
  exact (update_patches_compose Student updateStudent 1
           {[ "firstName" := VStr "Sara" ]} {[ "lastName" := VStr "Jones" ]}
           one_student eq_refl).
Defined.

(** A student created and a teacher deleted, in either order. *)
Lemma calls_commute_witness :
  (exec (DeleteTeacher 1) (exec (CreateStudent emma) one_student).2).2
  = (exec (CreateStudent emma) (exec (DeleteTeacher 1) one_student).2).2.
Proof.
  refine (proj2 (proj2 (calls_on_different_collections_commute
                          (CreateStudent emma) (DeleteTeacher 1) one_student _))).
  simpl. discriminate.
Defined.

(** ** The routes *)

(** The path [/api/students/12abc] names student 12. *)
Lemma parseInt_witness : parseInt (ToString (H := Sample.host) (VNum 12) +:+ "abc") = Some 12.
Proof.
  apply (parseInt_reads_identifier (H := Sample.host) 12 "abc").
  - unfold safe_integer. simpl. lia.
  - reflexivity.
Defined.

Example parseInt_hexadecimal : parseInt "0x1f" = Some 31.
Proof. reflexivity. Qed.

(** White space is that of Unicode: a no-break space, U+00A0, before the
    number is skipped. *)
Example parseInt_no_break_space :
  parseInt (String (ascii_of_N 194) (String (ascii_of_N 160) "1")) = Some 1.
Proof. reflexivity. Qed.

(** The result is a double: beyond [2 ^ 53] not every integer is one. *)
Example parseInt_beyond_safe :
  parseInt "9007199254740993" = Some 9007199254740992 /\
  parseInt "9007199254740995" = Some 9007199254740996.
Proof. split; vm_compute; reflexivity. Qed.

(** A DELETE of a student that is not there: 404 and the same store. *)
Lemma refused_request_witness :
  (serve (H := Sample.host) (H0 := Sample.zod) 0 (Remove (DELETE_students "7"))
     one_student).2 = one_student.
Proof.
  apply (refused_request_leaves_store (H := Sample.host) (H0 := Sample.zod) 0
           (Remove (DELETE_students "7")) one_student).
  apply Z.leb_le. vm_compute. reflexivity.
Defined.

(** A POST of a student: one activity, stamped with the clock reading. *)
Lemma successful_request_witness :
  exists a,
    activities
      (serve (H := Sample.host) (H0 := Sample.zod) 7000
         (Write POST_students (student_body "STU002" "Emma" "Wilson")) one_student).2
    = [(1, a)] /\
    a !! "timestamp" = Some (VDate (Some 7000)).
Proof.
  destruct (successful_request_logs_once (H := Sample.host) (H0 := Sample.zod) 7000
              (Write POST_students (student_body "STU002" "Emma" "Wilson")) one_student
              reachable_one_student)
    as (a & Hlog & _ & Hts & _).
  - apply Z.ltb_lt. vm_compute. reflexivity.
  - exists a. split; [exact Hlog | exact Hts].
Defined.

(** The store after a POST, a PUT and a DELETE is a state of the store. *)
Lemma served_states_witness :
  reachable
    (serve_all (H := Sample.host) (H0 := Sample.zod)
       [ (1000, Write POST_students (student_body "STU001" "Sarah" "Johnson"));
         (2000, Write (PUT_students "1") (JObj [("firstName", JStr "Sara")]));
         (3000, Remove (DELETE_students "1")) ]
       MemStorage_empty).2.
Proof.
  apply (served_states_reachable (H := Sample.host) (H0 := Sample.zod)).
  - repeat constructor; simpl; unfold maxTime; lia.
  - constructor.
Defined.

(** A student through POST, GET, DELETE and GET. *)
Lemma record_through_its_routes_witness :
  let created :=
    serve (H := Sample.host) (H0 := Sample.zod) 1000
      (Write POST_students (student_body "STU001" "Sarah" "Johnson")) MemStorage_empty in
  let deleted :=
    serve (H := Sample.host) (H0 := Sample.zod) 2000 (Remove (DELETE_students "1"))
      created.2 in
  status created.1 = 201 /\
  status (get_students_id "1" created.2) = 200 /\
  status deleted.1 = 204 /\
  status (get_students_id "1" deleted.2) = 404.
Proof.
  edestruct (record_through_its_routes (H := Sample.host) (H0 := Sample.zod)
               Student POST_students DELETE_students 1000 2000 3000
               (student_body "STU001" "Sarah" "Johnson")
               (parsed insertStudentSchema (student_body "STU001" "Sarah" "Johnson"))
               MemStorage_empty eq_refl eq_refl reachable_empty)
    as ((r & Hcreated & _ & _ & Hget) & Hdeleted & Hgone & _).
  - unfold safe_integer. simpl. lia.
  - vm_compute. reflexivity.
  - cbv zeta. split_and!.
    + exact (f_equal status Hcreated).
    + exact (f_equal status (Hget get_students_id eq_refl)).
    + exact (f_equal status Hdeleted).
    + exact (Hgone get_students_id eq_refl).
Defined.

(** A PUT that changes the first name of a student. *)
Lemma update_through_its_routes_witness :
  status
    (serve (H := Sample.host) (H0 := Sample.zod) 1000
       (Write (PUT_students "1") (JObj [("firstName", JStr "Sara")])) one_student).1
  = 200.
Proof.
  destruct (proj1 (has_true 1 (students one_student)) eq_refl) as [r Hr].
  destruct (update_through_its_routes (H := Sample.host) (H0 := Sample.zod)
              Student PUT_students 1000 "1" 1 (JObj [("firstName", JStr "Sara")])
              (parsed (partial insertStudentSchema) (JObj [("firstName", JStr "Sara")]))
              r one_student eq_refl eq_refl)
    as (Hanswer & _ & _).
  - vm_compute. reflexivity.
  - exact Hr.
  - exact (f_equal status Hanswer).
Defined.

Example put_then_get :
  match body (get_students_id "1"
                (serve (H := Sample.host) (H0 := Sample.zod) 1000
                   (Write (PUT_students "1") (JObj [("firstName", JStr "Sara")]))
                   one_student).2) with
  | Json_record r => r !! "firstName"
  | _ => None
  end
  = Some (VStr "Sara").
Proof. vm_compute. reflexivity. Qed.

(** A validator that lets no [id] through: a PUT with an [id] in its body
    leaves the record under its identifier. *)
Lemma served_records_witness :
  ids_are_keys
    (serve_all (H := Sample.host) (H0 := Sample.zod)
       [ (1000, Write POST_students (student_body "STU001" "Sarah" "Johnson"));
         (2000, Write (PUT_students "1")
                  (JObj [("id", JNum 7); ("firstName", JStr "Sara")])) ]
       MemStorage_empty).2.
Proof.
  apply (served_records_keep_their_id (H := Sample.host) (H0 := Sample.zod)).
  - exact drizzle_zod_strips_id.
  - intros e k r. by destruct e.
Defined.

Example put_with_id_keeps_id :
  id_of <$>
  getStudent 1
    (serve_all (H := Sample.host) (H0 := Sample.zod)
       [ (1000, Write POST_students (student_body "STU001" "Sarah" "Johnson"));
         (2000, Write (PUT_students "1")
                  (JObj [("id", JNum 7); ("firstName", JStr "Sara")])) ]
       MemStorage_empty).2
  = Some (Some 1).
Proof. vm_compute. reflexivity. Qed.

(** ** Login *)

Lemma reachable_registered username password :
  reachable (registered (H := Sample.host) (H0 := Sample.zod) username password).
Proof.
  apply (serve_reachable (H := Sample.host) (H0 := Sample.zod) 0
           (Write POST_users (user_body username password)) MemStorage_empty).
  - unfold maxTime. simpl. lia.
  - constructor.
Qed.

(** A second account under a taken name: the login with its password is
    answered as before the registration, 401. *)
Lemma login_after_registration_witness :
  post_auth_login (H := zod_login) (login_body "jane" "other")
    (post_users (H := Sample.host) (H0 := Sample.zod) 1000 (user_body "jane" "other")
       (registered (H := Sample.host) (H0 := Sample.zod) "jane" "secret")).2
  = post_auth_login (H := zod_login) (login_body "jane" "other")
      (registered (H := Sample.host) (H0 := Sample.zod) "jane" "secret").
Proof.
  pose proof (login_after_registration (H := Sample.host) (H0 := Sample.zod)
                (H1 := zod_login) 1000 (user_body "jane" "other")
                (login_body "jane" "other")
                (parsed insertUserSchema (user_body "jane" "other"))
                "jane" "other" "other"
                (registered (H := Sample.host) (H0 := Sample.zod) "jane" "secret")
                (reachable_registered "jane" "secret")) as Hw.
  destruct (getUserByUsername "jane"
              (registered (H := Sample.host) (H0 := Sample.zod) "jane" "secret"))
    as [earlier|] eqn:Hfound.
  - apply Hw; vm_compute; reflexivity.
  - apply (f_equal (fun o => match o with Some _ => true | None => false end)) in Hfound.
    vm_compute in Hfound. discriminate.
Defined.

Example login_of_first_account :
  status (post_auth_login (H := zod_login) (login_body "jane" "secret")
            (post_users (H := Sample.host) (H0 := Sample.zod) 1000
               (user_body "jane" "other")
               (registered (H := Sample.host) (H0 := Sample.zod) "jane" "secret")).2)
  = 200.
Proof. vm_compute. reflexivity. Qed.

Example login_of_second_account :
  status (post_auth_login (H := zod_login) (login_body "jane" "other")
            (post_users (H := Sample.host) (H0 := Sample.zod) 1000
               (user_body "jane" "other")
               (registered (H := Sample.host) (H0 := Sample.zod) "jane" "secret")).2)
  = 401.
Proof. vm_compute. reflexivity. Qed.

(** The answer to a login that succeeds has five properties, none of them
    the password. *)
Lemma login_is_sound_witness :
  exists o,
    body (post_auth_login (H := zod_login) (login_body "jane" "secret")
            (registered (H := Sample.host) (H0 := Sample.zod) "jane" "secret"))
    = Json_record o /\
    dom o = {[ "id"; "username"; "role"; "fullName"; "avatar" ]}.
Proof.
  destruct (login_is_sound (H1 := zod_login) (login_body "jane" "secret")
              (registered (H := Sample.host) (H0 := Sample.zod) "jane" "secret"))
    as (u & p & user & o & _ & _ & _ & _ & Hbody & Hdom & _).
  - vm_compute. reflexivity.
  - exists o. split; [exact Hbody | exact Hdom].
Defined.

(** ** The listings *)


(** ** The export *)

Lemma sample_dates_quote_free tv :
  CsvReader.quote_free (Date_toLocaleDateString (Host := Sample.host) tv) = true.
Proof.
  destruct tv as [t|]; [|reflexivity]. simpl. unfold iso_date.
  destruct (civil_from_days (Day t)) as [[y m] d]. unfold iso_year.
  assert (Hdigit : forall n, negb (Ascii.eqb (digit n) ExportData.quote) = true).
  { intros n. apply negb_true_iff, Ascii.eqb_neq, digit_other. vm_compute.
    left. reflexivity. }
  destruct ((0 <=? y) && (y <=? 9999)); [|destruct (y <? 0)];
    unfold pad6, pad4, pad3, pad2; simpl; rewrite ?Hdigit; reflexivity.
Qed.

(** The reader on the examples of RFC 4180: records that end with a
    carriage return and a line feed, the last one too; a quoted field with
    a line break in it; a quoted field with a doubled quote in it. *)
Example read_csv_rfc_4180 :
  let crlf := String CsvReader.carriage_return (String ExportData.newline "") in
  CsvReader.read_csv ("aaa,bbb,ccc" +:+ crlf +:+ "zzz,yyy,xxx" +:+ crlf)
  = [["aaa"; "bbb"; "ccc"]; ["zzz"; "yyy"; "xxx"]] /\
  CsvReader.read_csv (dq +:+ "aaa" +:+ dq +:+ "," +:+ dq +:+ "b" +:+ crlf +:+ "bb" +:+ dq
                      +:+ "," +:+ dq +:+ "ccc" +:+ dq +:+ crlf +:+ "zzz,yyy,xxx")
  = [["aaa"; "b" +:+ crlf +:+ "bb"; "ccc"]; ["zzz"; "yyy"; "xxx"]] /\
  CsvReader.read_csv (dq +:+ "aaa" +:+ dq +:+ "," +:+ dq +:+ "b" +:+ dq +:+ dq +:+ "bb"
                      +:+ dq +:+ "," +:+ dq +:+ "ccc" +:+ dq)
  = [["aaa"; "b" +:+ dq +:+ "bb"; "ccc"]].
Proof. cbv zeta. split_and!; vm_compute; reflexivity. Qed.

(** A name with a comma and a remark with quotes, a carriage return and a
    line feed come back as they were. *)
Lemma export_reads_back_witness :
  CsvReader.read_csv
    (ExportData.csv_content (H := Sample.host) ["name"; "remark"; "score"]
       [ [("name", VStr "Fox, Robert");
          ("remark", VStr ("said " +:+ dq +:+ "hi" +:+ dq
                           +:+ String CsvReader.carriage_return
                                 (String ExportData.newline "ok")));
          ("score", VNum 19)];
         [("name", VStr "Emma"); ("score", VNull)] ])
  = [ ["name"; "remark"; "score"];
      ["Fox, Robert";
       "said " +:+ dq +:+ "hi" +:+ dq
       +:+ String CsvReader.carriage_return (String ExportData.newline "ok");
       "19"];
      ["Emma"; ""; ""] ].
Proof.
  etransitivity.
  - apply (export_reads_back (H := Sample.host) sample_dates_quote_free
             ["name"; "remark"; "score"]).
    + done.
    + repeat constructor.
    + repeat constructor.
    + repeat constructor.
    + repeat (apply Forall_cons_2; [discriminate |]). apply Forall_nil_2.
  - vm_compute. reflexivity.
Defined.

(** A string with a carriage return and no comma, line feed or double
    quote is written without quotes: the reader ends the record there. *)
Example export_with_carriage_return :
  ExportData.csv_content (H := Sample.host) ["name"; "score"]
    [[("name", VStr (String "a" (String CsvReader.carriage_return "b"))); ("score", VNum 7)]]
  = "name,score" +:+ String ExportData.newline "a"
    +:+ String CsvReader.carriage_return "b,7" /\
  CsvReader.read_csv
    (ExportData.csv_content (H := Sample.host) ["name"; "score"]
       [[("name", VStr (String "a" (String CsvReader.carriage_return "b")));
         ("score", VNum 7)]])
  = [["name"; "score"]; ["a"]; ["b"; "7"]].
Proof. split; vm_compute; reflexivity. Qed.

(** A table of one column whose last cell is empty ends with a line
    break: the reader takes the line break for the end of the header row,
    and the record is lost. *)
Example export_with_blank_line :
  CsvReader.read_csv
    (ExportData.csv_content (H := Sample.host) ["note"] [[("note", VStr "")]])
  = [["note"]].
Proof. vm_compute. reflexivity. Qed.

(** The header row is written as it is: a comma in a header makes two
    fields of it. *)
Example header_with_comma :
  CsvReader.read_csv
    (ExportData.csv_content (H := Sample.host) ["name, first"] [[("name, first", VStr "Emma")]])
  = [["name"; " first"]; ["Emma"]].
Proof. vm_compute. reflexivity. Qed.

(** ** The download of a table *)

(** The table of students with a name column, an identifier column and
    the actions column: the text of the download, and what a reader finds
    in it. *)
Lemma download_witness :
  DataTable.handleDownload (H := Sample.host)
    [ DataTable.mkColumn "firstName" "First name"; DataTable.mkColumn "id" "ID";
      DataTable.mkColumn "actions" "Actions" ]
    [ [("id", VNum 1); ("firstName", VStr "Sarah")];
      [("id", VNum 2); ("firstName", VStr "Wilson, Emma")] ]
  = Some ("First name,ID" +:+ String ExportData.newline ""
          +:+ "Sarah,1" +:+ String ExportData.newline ""
          +:+ dq +:+ "Wilson, Emma" +:+ dq +:+ ",2") /\
  CsvReader.read_csv
    ("First name,ID" +:+ String ExportData.newline ""
     +:+ "Sarah,1" +:+ String ExportData.newline ""
     +:+ dq +:+ "Wilson, Emma" +:+ dq +:+ ",2")
  = [["First name"; "ID"]; ["Sarah"; "1"]; ["Wilson, Emma"; "2"]].
Proof.
  pose proof (download_writes_the_columns (H := Sample.host) sample_dates_quote_free
                [ DataTable.mkColumn "firstName" "First name";
                  DataTable.mkColumn "id" "ID";
                  DataTable.mkColumn "actions" "Actions" ]
                [ [("id", VNum 1); ("firstName", VStr "Sarah")];
                  [("id", VNum 2); ("firstName", VStr "Wilson, Emma")] ]) as Hw.
  destruct Hw as [Htext Hread].
  - apply (bool_decide_unpack _). vm_compute. exact I.
  - simpl. repeat (apply Forall_cons_2; [by split_and! |]). apply Forall_nil_2.
  - split.
    + etransitivity; [exact Htext |]. vm_compute. reflexivity.
    + etransitivity; [|etransitivity; [apply Hread |]].
      * vm_compute. reflexivity.
      * done.
      * simpl. repeat constructor.
      * simpl. repeat constructor.
      * simpl. repeat (apply Forall_cons_2; [discriminate |]). apply Forall_nil_2.
      * vm_compute. reflexivity.
Defined.

(** Two columns under one header: the second value is written under the
    first header and the table loses a column. *)
Example download_with_equal_headers :
  DataTable.handleDownload (H := Sample.host)
    [ DataTable.mkColumn "firstName" "Name"; DataTable.mkColumn "lastName" "Name" ]
    [ [("firstName", VStr "Sarah"); ("lastName", VStr "Johnson")] ]
  = Some ("Name" +:+ String ExportData.newline "" +:+ "Johnson").
Proof. vm_compute. reflexivity. Qed.

(** A header that is an array index goes first, whatever its column. *)
Example download_with_numeric_header :
  DataTable.handleDownload (H := Sample.host)
    [ DataTable.mkColumn "firstName" "Name"; DataTable.mkColumn "score" "2024" ]
    [ [("firstName", VStr "Sarah"); ("score", VNum 19)] ]
  = Some ("2024,Name" +:+ String ExportData.newline "" +:+ "19,Sarah").
Proof. vm_compute. reflexivity. Qed.
